(** * PCP metric scripts: column resolution, observed/predicted split,
      cleaning, resampling, linear trend and threshold ETA

    A shallow embedding of the three scripts of the repository

    - [matplot_graphs/scripts/plot_base_pcp_metric.py]      (module [PlotBase])
    - [matplot_graphs/scripts/plot_split_by_observed_predicted.py] (module [PlotSplit])
    - [ml_scripts/ml_trend.py]                              (module [MlTrend])

    over a small model of the pandas objects they handle (module [Pandas]).

    Conventions of the model.
    - Timestamps are integers, nanoseconds since the epoch, as in a
      [datetime64[ns]] index.  The timestamps of the table and of the
      forecast index are taken as they are; where the script makes a
      duration and a timestamp out of a float, for the ETA, the bounds of
      64-bit nanoseconds decide between a result and an out-of-bounds
      error.
    - Python floats are modelled by exact rationals ([Q]) in the fit, the
      predicted values and the ETA; a comparison of floats is a comparison
      of rationals, and the ETA is kept as an exact rational number of
      nanoseconds.  Infinities and NaN arithmetic are outside the model; a
      missing value is [None]/[NaN].  Where the rounding of a float decides
      a whole number - the number of forecast steps of line 67 - the
      division is that of binary64, rounded to nearest (module [Float64]).
    - [df.sort_values] is the library's sort: any function that returns the
      rows in ascending order of time (class [MlTrend.TimeSort]).
    - [str.lower] is modelled on ASCII letters.
    - A Python exception is a value [Raise e]; a function that may raise
      returns a [result]. *)

From Stdlib Require Import ZArith QArith Qround Qabs List String Ascii Lia Lqa Bool.
From Stdlib Require Import Sorting.Sorted Sorting.Permutation.
From Stdlib Require Qcanon Floats.SpecFloat.
From stdpp Require Import gmap strings list.
Import ListNotations.

#[local] Open Scope Z_scope.

(* ===================================================================== *)
(** * The pandas model                                                    *)
(* ===================================================================== *)

Module Pandas.

(** What a raised exception is, as far as the scripts' callers can see. *)
Inductive exn : Type :=
| SystemExit (msg : string)      (* raise SystemExit(msg) / sys.exit(1) *)
| IndexError                     (* df.columns[0] on a frame without columns *)
| LibraryError (what : string).  (* an exception raised inside pandas *)

Inductive result (A : Type) : Type :=
| Ok (a : A)
| Raise (e : exn).
Arguments Ok {A} a.
Arguments Raise {A} e.

Definition bind {A B} (r : result A) (k : A -> result B) : result B :=
  match r with
  | Ok a => k a
  | Raise e => Raise e
  end.

(** A field of the CSV as pandas reads it: missing, a number, a text that
    [pd.to_datetime], applied to the column the field is in, reads as the
    timestamp [ns] (it settles on one format for the column), or any other
    text. *)
Inductive cell : Type :=
| NaN
| Num (q : Q)
| Stamp (ns : Z)
| Text (s : string).

Record Column : Type := { name : string; cells : list cell }.

(** A frame is its columns in header order. *)
Definition DataFrame : Type := list Column.

Definition columns (df : DataFrame) : list string := map name df.

(** [c in df.columns] *)
Definition in_columns (c : string) (df : DataFrame) : bool :=
  existsb (String.eqb c) (columns df).

(** [df[c]]: the cells of the first column called [c]. *)
Fixpoint getcol (df : DataFrame) (c : string) : list cell :=
  match df with
  | [] => []
  | col :: rest => if String.eqb (name col) c then cells col else getcol rest c
  end.

Definition is_num_cell (x : cell) : bool :=
  match x with
  | NaN | Num _ => true
  | _ => false
  end.

(** [pd.api.types.is_numeric_dtype(df[c])]: the loader gives a column a
    numeric dtype when every field of it is a number or missing; a column
    of a frame without rows has dtype object. *)
Definition is_numeric_dtype (xs : list cell) : bool :=
  match xs with
  | [] => false
  | _ => forallb is_num_cell xs
  end.

(** Truth value of an [Optional[str]] argument: [None] and the empty
    string are false. *)
Definition truthy (o : option string) : bool :=
  match o with
  | Some s => negb (String.eqb s EmptyString)
  | None => false
  end.

(** [forced and forced in df.columns] *)
Definition forced_valid (forced : option string) (df : DataFrame) : bool :=
  match forced with
  | Some f => truthy forced && in_columns f df
  | None => false
  end.

Definition lower_ascii (c : ascii) : ascii :=
  let n := nat_of_ascii c in
  if (Nat.leb 65 n && Nat.leb n 90)%bool then ascii_of_nat (n + 32) else c.

(** [str.lower] *)
Fixpoint lower (s : string) : string :=
  match s with
  | EmptyString => EmptyString
  | String c r => String (lower_ascii c) (lower r)
  end.

(** [{c.lower(): c for c in df.columns}]: a later column overwrites an
    earlier one with the same lower-cased name. *)
Definition lower_map (cols : list string) : gmap string string :=
  foldl (fun m c => <[lower c := c]> m) ∅ cols.

Definition time_candidates : list string :=
  ["time"; "timestamp"; "date"; "datetime"]%string.

(** [for cand in cands: if cand in m: return m[cand]] *)
Fixpoint first_candidate (m : gmap string string) (cands : list string)
  : option string :=
  match cands with
  | [] => None
  | cand :: rest =>
      match m !! cand with
      | Some c => Some c
      | None => first_candidate m rest
      end
  end.

(** After the loop over the candidates: [return df.columns[0]]. *)
Definition first_column (df : DataFrame) : result string :=
  match columns df with
  | c :: _ => Ok c
  | [] => Raise IndexError
  end.

Definition ts_cell (o : option Z) : cell :=
  match o with
  | Some t => Stamp t
  | None => NaN
  end.

(** A float as a whole number: the fraction is dropped, toward zero. *)
Definition trunc (q : Q) : Z := Z.quot (Qnum q) (Z.pos (Qden q)).

(** One element under [pd.to_datetime(..., errors="raise")]: a missing
    field becomes NaT, a number counts nanoseconds since the epoch (a
    fraction of a nanosecond is dropped), a text that is no timestamp
    raises. *)
Definition parse_ts (x : cell) : result (option Z) :=
  match x with
  | NaN => Ok None
  | Stamp t => Ok (Some t)
  | Num q => Ok (Some (trunc q))
  | Text _ => Raise (LibraryError "to_datetime")
  end.

(** [pd.to_datetime(column)] *)
Fixpoint to_datetime (xs : list cell) : result (list (option Z)) :=
  match xs with
  | [] => Ok []
  | x :: rest =>
      bind (parse_ts x) (fun t =>
        bind (to_datetime rest) (fun ts => Ok (t :: ts)))
  end.

(** [df[c] = values] *)
Fixpoint setcol (df : DataFrame) (c : string) (values : list cell) : DataFrame :=
  match df with
  | [] => []
  | col :: rest =>
      if String.eqb (name col) c
      then {| name := c; cells := values |} :: rest
      else col :: setcol rest c values
  end.

(** The [try: df[tcol] = pd.to_datetime(df[tcol]) except Exception: pass]
    of both plotting scripts.  The boolean is what
    [is_datetime64_any_dtype(df[tcol])] answers afterwards. *)
Definition try_parse_time (df : DataFrame) (tcol : string) : DataFrame * bool :=
  match to_datetime (getcol df tcol) with
  | Ok ts => (setcol df tcol (map ts_cell ts), true)
  | Raise _ => (df, false)
  end.

(** [repr] of a list of column names, for error messages. *)
Definition repr_list (l : list string) : string :=
  ("[" +:+ String.concat ", " (map (fun c => "'" +:+ c +:+ "'") l) +:+ "]")%string.

(** [pd.Series(values, index=index)] as the list of its (index, value)
    pairs. *)
Definition Series : Type := list (cell * cell).

Inductive agg : Type := Sum | Mean | Max | Min.

(** [args.rolling and args.rolling > 1] *)
Definition rolling_on (rolling : option Z) : bool :=
  match rolling with
  | Some w => negb (w =? 0) && (1 <? w)
  | None => false
  end.

End Pandas.

#[global] Instance result_ret : MRet Pandas.result := @Pandas.Ok.
#[global] Instance result_bind : MBind Pandas.result :=
  fun A B k r => Pandas.bind r k.

(* ===================================================================== *)
(** * Binary64 rounding                                                   *)
(* ===================================================================== *)

(** A finite binary64 is the rational it denotes.  Every one of them is a
    whole multiple of 2^-1074, with at most 53 significant bits. *)
Module Float64.

(** The reciprocal of the least positive binary64. *)
Definition TINY_INV : Z := 2 ^ 1074.

(** The nearest whole number, a tie going to the even one. *)
Definition round_half_even (y : Q) : Z :=
  let f := Qfloor y in
  match (y - inject_Z f ?= 1 # 2)%Q with
  | Lt => f
  | Gt => f + 1
  | Eq => if Z.even f then f else f + 1
  end.

(** The binary64 nearest to a positive rational, whatever its magnitude:
    the number is counted in units of 2^-1074 and rounded to a multiple of
    the unit in the last place of its binade. *)
Definition nearest_pos (q : Q) : Q :=
  let n := (q * inject_Z TINY_INV)%Q in
  let ulp := 2 ^ Z.max (Z.log2 (Qfloor n) - 52) 0 in
  (inject_Z (round_half_even (n / inject_Z ulp) * ulp) / inject_Z TINY_INV)%Q.

(** Round to nearest, ties to even: the result of a binary64 operation,
    from its exact result. *)
Definition RN (q : Q) : Q :=
  match (Qred q ?= 0)%Q with
  | Eq => 0%Q
  | Gt => Qred (nearest_pos (Qred q))
  | Lt => Qred (- nearest_pos (- Qred q))
  end.

(** A rounded result of magnitude 2^1024 or more is an infinity. *)
Definition finite (x : Q) : bool :=
  negb (Qle_bool (inject_Z (2 ^ 1024)) (Qabs x)).

(** For comparison, the division of the Standard Library's specification
    of IEEE 754, on the binary64 of two whole numbers, as the rational its
    result denotes. *)
Definition of_spec (x : SpecFloat.spec_float) : Q :=
  match x with
  | SpecFloat.S754_finite s m e =>
      Qred ((if s then -1 else 1) * inject_Z (Z.pos m) * 2 ^ e)%Q
  | _ => 0%Q
  end.

Definition spec_div (a b : Z) : Q :=
  of_spec (SpecFloat.SFdiv 53 1024
             (SpecFloat.binary_normalize 53 1024 a 0 false)
             (SpecFloat.binary_normalize 53 1024 b 0 false)).

End Float64.

(* ===================================================================== *)
(** * plot_base_pcp_metric.py                                             *)
(* ===================================================================== *)

Module PlotBase.
Import Pandas.

Definition detect_time_col (df : DataFrame) (forced : option string)
  : result string :=
  if forced_valid forced df then Ok (default EmptyString forced)
  else
    match first_candidate (lower_map (columns df)) time_candidates with
    | Some c => Ok c
    | None => first_column df
    end.

Definition preferred_metrics : list string :=
  ["ds389.cn.opscompleted"; "ds389.cn.opsCompleted"; "opscompleted"]%string.

(** [[c for c in df.columns if c != time_col and is_numeric_dtype(df[c])]] *)
Definition numeric_cols (df : DataFrame) (time_col : string) : list string :=
  List.filter
    (fun c => negb (String.eqb c time_col) && is_numeric_dtype (getcol df c))
    (columns df).

Definition pick_metric_col (df : DataFrame) (time_col : string)
    (metric : option string) : result string :=
  if forced_valid metric df then Ok (default EmptyString metric)
  else
    match numeric_cols df time_col with
    | [] =>
        Raise (SystemExit
                 "No numeric metric columns found. Pass --metric explicitly.")
    | first :: _ =>
        match List.find
                (fun p => existsb (String.eqb p) (numeric_cols df time_col))
                preferred_metrics with
        | Some p => Ok p
        | None => Ok first
        end
    end.

Record Args : Type := {
  csv_stem : string;          (* Path(args.csv).stem *)
  out_dir : string;
  pdf : option string;
  time_col : option string;
  metric : option string;
  resample : option string;
  rolling : option Z
}.

(** What a completed run leaves behind: the files written, and the two
    sequences handed to [ax.plot(x, y)]. *)
Record Run : Type := {
  files : list string;
  plot_x : list cell;
  plot_y : list cell;
  title : string
}.

(** [metric_col.replace('/', '_')] *)
Fixpoint replace_slash (s : string) : string :=
  match s with
  | EmptyString => EmptyString
  | String c r =>
      String (if Ascii.eqb c "/"%char then "_"%char else c) (replace_slash r)
  end.

Definition png_path (a : Args) (metric_col : string) : string :=
  (out_dir a +:+ "/" +:+ csv_stem a +:+ "." +:+ replace_slash metric_col
     +:+ ".png")%string.

Section Main.
(** The two pandas transformations, which the script only calls:
    [s.resample(freq).sum()] and [s.rolling(w, min_periods=1).mean()]. *)
Variable resample_sum : string -> Series -> result Series.
Variable rolling_mean : Z -> Series -> result Series.

(** Lines 86-101: the two sequences that are plotted. *)
Definition prepare (a : Args) (is_datetime : bool) (x y : list cell)
  : result (list cell * list cell) :=
  if is_datetime then
    s ← (if truthy (resample a)
         then resample_sum (default EmptyString (resample a)) (combine x y)
         else Ok (combine x y));
    s ← (if rolling_on (rolling a)
         then rolling_mean (default 0 (rolling a)) s
         else Ok s);
    Ok (map fst s, map snd s)
  else Ok (x, y).

Definition main (a : Args) (df : DataFrame) : result Run :=
  tcol ← detect_time_col df (time_col a);
  let '(df1, is_datetime) := try_parse_time df tcol in
  mcol ← pick_metric_col df1 tcol (metric a);
  xy ← prepare a is_datetime (getcol df1 tcol) (getcol df1 mcol);
  Ok {| files := png_path a mcol ::
                 (if truthy (pdf a) then [default EmptyString (pdf a)]
                  else []);
        plot_x := fst xy;
        plot_y := snd xy;
        title := mcol |}.
End Main.

End PlotBase.

(* ===================================================================== *)
(** * plot_split_by_observed_predicted.py                                 *)
(* ===================================================================== *)

Module PlotSplit.
Import Pandas.

Definition detect_time_col (df : DataFrame) (forced : option string)
  : result string :=
  if forced_valid forced df then Ok (default EmptyString forced)
  else
    match first_candidate (lower_map (columns df)) time_candidates with
    | Some c => Ok c
    | None => first_column df
    end.

Definition detect_value_col (df : DataFrame) (time_col : string)
    (forced : option string) : result string :=
  if forced_valid forced df then Ok (default EmptyString forced)
  else
    match List.find
            (fun c => negb (String.eqb c time_col)
                      && is_numeric_dtype (getcol df c))
            (columns df) with
    | Some c => Ok c
    | None => Raise (SystemExit "No numeric value column found; pass --value-col.")
    end.

Definition ci_candidates (base : string) : list (string * string) :=
  [ (base +:+ "_lower", base +:+ "_upper");
    (base +:+ ".lower", base +:+ ".upper");
    ("yhat_lower", "yhat_upper");
    ("lower", "upper");
    ("lo", "hi") ]%string.

Definition find_ci_columns (df : DataFrame) (base : string)
  : option (string * string) :=
  List.find (fun lh => in_columns (fst lh) df && in_columns (snd lh) df)
            (ci_candidates base).

Record Args : Type := {
  time_col : option string;
  value_col : option string;
  label_col : string;
  predicted_label : string;
  out : string;
  pdf : option string;
  resample : option string;
  resample_agg : agg;
  rolling : option Z
}.

(** A row of [df.loc[mask, [tcol, vcol]]]. *)
Definition Row : Type := (cell * cell)%type.

(** [pd.concat({"Observed": s_obs, "Predicted": s_pred}, axis=1)]: rows
    (index, Observed, Predicted). *)
Definition Aligned : Type := list (cell * (cell * cell)).

(** What a completed run leaves behind: the files written, the two series
    and their alignment that is plotted, the confidence band if one is
    drawn, and where the vertical line is drawn. *)
Record Run : Type := {
  files : list string;
  observed : Series;       (* s_obs *)
  predicted : Series;      (* s_pred *)
  aligned : Aligned;
  band : option (Series * Series);
  f_start : option cell
}.

Definition isna (x : cell) : bool :=
  match x with
  | NaN => true
  | _ => false
  end.

(** [aligned["Predicted"].first_valid_index()] *)
Definition first_valid_index (al : Aligned) : option cell :=
  option_map fst (List.find (fun r => negb (isna (snd (snd r)))) al).

Section Main.
(** Library calls of the script: the text pandas gives a number or a
    timestamp under [astype(str)], [s.resample(freq).<agg>()],
    [s.rolling(w, min_periods=1).mean()] and [pd.concat(..., axis=1)]. *)
Variable str_of_num : Q -> string.
Variable str_of_stamp : Z -> string.
Variable resample_by : agg -> string -> Series -> result Series.
Variable rolling_mean : Z -> Series -> result Series.
Variable concat_axis1 : Series -> Series -> result Aligned.

(** [astype(str)] on one element. *)
Definition astype_str (x : cell) : string :=
  match x with
  | NaN => "nan"
  | Num q => str_of_num q
  | Stamp t => str_of_stamp t
  | Text s => s
  end.

(** One element of the mask
    [df[label_col].astype(str).str.lower() == str(predicted_label).lower()]. *)
Definition is_pred (predicted_label : string) (label : cell) : bool :=
  String.eqb (lower (astype_str label)) (lower predicted_label).

(** The rows of the frame restricted to [[tcol, vcol]], each with its
    label. *)
Definition labelled_rows (df : DataFrame) (tcol vcol lcol : string)
  : list (cell * Row) :=
  combine (getcol df lcol) (combine (getcol df tcol) (getcol df vcol)).

(** [df.loc[~is_pred, [tcol, vcol]]] *)
Definition df_obs (predicted_label : string) (rows : list (cell * Row))
  : list Row :=
  map snd (List.filter (fun r => negb (is_pred predicted_label (fst r))) rows).

(** [df.loc[is_pred, [tcol, vcol]]] *)
Definition df_pred (predicted_label : string) (rows : list (cell * Row))
  : list Row :=
  map snd (List.filter (fun r => is_pred predicted_label (fst r)) rows).

(** The nested function [process]. *)
Definition process (a : Args) (is_datetime : bool) (ts_df : list Row)
  : result Series :=
  if is_datetime then
    s ← (if truthy (resample a)
         then resample_by (resample_agg a) (default EmptyString (resample a)) ts_df
         else Ok ts_df);
    if rolling_on (rolling a)
    then rolling_mean (default 0 (rolling a)) s
    else Ok s
  else Ok ts_df.

Definition main (a : Args) (df : DataFrame) : result Run :=
  tcol ← detect_time_col df (time_col a);
  let '(df1, is_datetime) := try_parse_time df tcol in
  vcol ← detect_value_col df1 tcol (value_col a);
  if negb (in_columns (label_col a) df1) then
    Raise (SystemExit ("--label-col '" +:+ label_col a
                         +:+ "' not found in CSV columns: "
                         +:+ repr_list (columns df1)))
  else
    let rows := labelled_rows df1 tcol vcol (label_col a) in
    s_obs ← process a is_datetime (df_obs (predicted_label a) rows);
    s_pred ← process a is_datetime (df_pred (predicted_label a) rows);
    al ← concat_axis1 s_obs s_pred;
    ci ← match find_ci_columns df1 vcol with
         | Some (lo_col, hi_col) =>
             if is_datetime then
               let lo_rows := labelled_rows df1 tcol lo_col (label_col a) in
               let hi_rows := labelled_rows df1 tcol hi_col (label_col a) in
               s_lo ← process a true (df_pred (predicted_label a) lo_rows);
               s_hi ← process a true (df_pred (predicted_label a) hi_rows);
               Ok (Some (s_lo, s_hi))
             else Ok None
         | None => Ok None
         end;
    Ok {| files := out a ::
                   (if truthy (pdf a) then [default EmptyString (pdf a)]
                    else []);
          observed := s_obs;
          predicted := s_pred;
          aligned := al;
          band := ci;
          f_start := first_valid_index al |}.
End Main.

End PlotSplit.

(* ===================================================================== *)
(** * ml_trend.py                                                         *)
(* ===================================================================== *)

Module MlTrend.
Import Pandas.

Definition NS_PER_SECOND : Z := 1000000000.
Definition NS_PER_HOUR : Z := 3600 * NS_PER_SECOND.
Definition NS_PER_DAY : Z := 24 * NS_PER_HOUR.

Record Args : Type := {
  metric : string;
  (** [--interval] as pandas reads it: a fixed duration in nanoseconds,
      or [None] for a text that [resample] rejects. *)
  interval : option positive;
  horizon_hours : Z;
  threshold : option Q;
  out_forecast : string
}.

(** [fail(msg)]: the message on stderr and [sys.exit(1)]. *)
Definition fail {A} (msg : string) : result A :=
  Raise (SystemExit ("[ERROR] " +:+ msg)).

(** ** Parse and clean (lines 34-41) *)

(** One element under [pd.to_datetime(..., errors="coerce")]. *)
Definition to_datetime_coerce (x : cell) : option Z :=
  match parse_ts x with
  | Ok t => t
  | Raise _ => None
  end.

(** [df.dropna(subset=["Time"])] on the rows (Time, metric). *)
Fixpoint dropna_time (rows : list (option Z * cell)) : list (Z * cell) :=
  match rows with
  | [] => []
  | (Some t, v) :: rest => (t, v) :: dropna_time rest
  | (None, _) :: rest => dropna_time rest
  end.

(** [df.sort_values("Time")].  The sort is the library's, by default a
    quicksort, which may reorder rows of equal time.  The script relies on
    no more than this: the rows of the table come back in ascending order
    of time. *)
Class TimeSort : Type := {
  sort_values : list (Z * cell) -> list (Z * cell);
  sort_values_perm : forall rows, Permutation (sort_values rows) rows;
  sort_values_sorted :
    forall rows, StronglySorted (fun a b => fst a <= fst b) (sort_values rows)
}.

Fixpoint insert_row (r : Z * cell) (sorted : list (Z * cell)) : list (Z * cell) :=
  match sorted with
  | [] => [r]
  | r' :: rest =>
      if fst r <=? fst r' then r :: sorted else r' :: insert_row r rest
  end.

(** One such sort, which keeps rows of equal time in table order:
    insertion sort, which is how the default sort leaves a table of a few
    rows. *)
Fixpoint insertion_sort (rows : list (Z * cell)) : list (Z * cell) :=
  match rows with
  | [] => []
  | r :: rest => insert_row r (insertion_sort rest)
  end.

Fixpoint drop_duplicates_from (seen : gset Z) (rows : list (Z * cell))
  : list (Z * cell) :=
  match rows with
  | [] => []
  | r :: rest =>
      if decide (fst r ∈ seen) then drop_duplicates_from seen rest
      else r :: drop_duplicates_from ({[fst r]} ∪ seen) rest
  end.

(** [df.drop_duplicates("Time")], with the default [keep="first"]. *)
Definition drop_duplicates (rows : list (Z * cell)) : list (Z * cell) :=
  drop_duplicates_from ∅ rows.

(** Lines 34-36, on the two columns the script goes on to use. *)
Definition clean {sort : TimeSort} (df : DataFrame) (metric : string)
  : list (Z * cell) :=
  drop_duplicates
    (sort_values
       (dropna_time
          (combine (map to_datetime_coerce (getcol df "Time"))
                   (getcol df metric)))).

(** A float series on a time index; [None] is NaN. *)
Definition TimeSeries : Type := list (Z * option Q).

Definition notna (v : option Q) : bool :=
  match v with
  | Some _ => true
  | None => false
  end.

(** One element under [pd.to_numeric(..., errors="coerce")]. *)
Definition to_numeric_coerce (x : cell) : option Q :=
  match x with
  | Num q => Some q
  | _ => None
  end.

(** [pd.to_numeric(df[metric], errors="coerce").dropna()] *)
Definition numeric_series (rows : list (Z * cell)) : TimeSeries :=
  List.filter (fun p => notna (snd p))
              (map (fun r => (fst r, to_numeric_coerce (snd r))) rows).

(** ** Resample on a fixed grid and forward-fill (line 45) *)

(** Midnight of the day of [t]: the origin of the grid
    ([origin="start_day"]). *)
Definition normalize (t : Z) : Z := t / NS_PER_DAY * NS_PER_DAY.

(** The left edge of the bucket of [t] on the grid of step [step] that
    passes through [origin]. *)
Definition floor_to (origin step t : Z) : Z :=
  origin + (t - origin) / step * step.

Definition index_min (t : Z) (rest : TimeSeries) : Z :=
  fold_right Z.min t (map fst rest).

Definition index_max (t : Z) (rest : TimeSeries) : Z :=
  fold_right Z.max t (map fst rest).

(** Membership of the bucket [[e, e + step)] (closed on the left, labelled
    by its left edge). *)
Definition in_bucket (e step : Z) (p : Z * option Q) : bool :=
  (e <=? fst p) && (fst p <? e + step).

(** [.last()] of one bucket: the last value that is not NaN. *)
Definition last_valid (bucket : TimeSeries) : option Q :=
  fold_left (fun acc p => if notna (snd p) then snd p else acc) bucket None.

(** The [n] buckets from the edge [e] on. *)
Fixpoint buckets (s : TimeSeries) (step e : Z) (n : nat) : TimeSeries :=
  match n with
  | O => []
  | S n' =>
      (e, last_valid (List.filter (in_bucket e step) s))
        :: buckets s step (e + step) n'
  end.

(** [s.resample(interval).last()] *)
Definition resample_last (step : Z) (s : TimeSeries) : TimeSeries :=
  match s with
  | [] => []
  | p :: rest =>
      let origin := normalize (index_min (fst p) rest) in
      let lo := floor_to origin step (index_min (fst p) rest) in
      let hi := floor_to origin step (index_max (fst p) rest) in
      buckets s step lo (S (Z.to_nat ((hi - lo) / step)))
  end.

Fixpoint ffill_from (carry : option Q) (s : TimeSeries) : TimeSeries :=
  match s with
  | [] => []
  | (t, v) :: rest =>
      let v' := if notna v then v else carry in
      (t, v') :: ffill_from v' rest
  end.

(** [.ffill()] *)
Definition ffill (s : TimeSeries) : TimeSeries := ffill_from None s.

(** [s.resample(interval).last().ffill()] *)
Definition resample_ffill (step : Z) (s : TimeSeries) : TimeSeries :=
  ffill (resample_last step s).

(** ** Regression variables and fit (lines 53-62) *)

(** [(t - t0).total_seconds() / 3600.0], also at a time between two
    nanoseconds. *)
Definition elapsed_hours (t0 : Z) (t : Q) : Q :=
  Qred ((t - inject_Z t0) / inject_Z NS_PER_SECOND / 3600)%Q.

Definition qsum (l : list Q) : Q := fold_right (fun a b => Qred (a + b)) 0%Q l.

Definition qmean (l : list Q) : Q :=
  (qsum l / inject_Z (Z.of_nat (length l)))%Q.

(** [LinearRegression().fit(X, y)] for one feature: the least-squares
    line, (slope, intercept). *)
Definition fit (X y : list Q) : Q * Q :=
  let mx := qmean X in
  let my := qmean y in
  let sxy := qsum (map (fun xy => (fst xy - mx) * (snd xy - my))%Q (combine X y)) in
  let sxx := qsum (map (fun x => (x - mx) * (x - mx))%Q X) in
  let slope := Qred (sxy / sxx) in
  (slope, Qred (my - slope * mx)%Q).

(** [model.predict]: the fitted line. *)
Definition predict (slope intercept x : Q) : Q := Qred (slope * x + intercept)%Q.

(** [s.to_numpy(dtype=float)], which the fit rejects if a NaN is left. *)
Fixpoint to_numpy (s : TimeSeries) : result (list Q) :=
  match s with
  | [] => Ok []
  | (_, Some v) :: rest => vs ← to_numpy rest; Ok (v :: vs)
  | (_, None) :: _ => Raise (LibraryError "Input contains NaN")
  end.

(** ** Forecast (lines 65-71) *)

(** Python's arithmetic errors; the script catches none of them. *)
Definition OverflowError : exn := LibraryError "OverflowError".
Definition ZeroDivisionError : exn := LibraryError "ZeroDivisionError".

(** [pd.Timedelta(freq_off).total_seconds()], a float: the days and
    seconds, a whole number, plus the microseconds divided by 10^6; what is
    left of a microsecond is dropped.  (Earlier versions of pandas divide
    the nanoseconds, less what is left of a microsecond, by 10^9: the same
    float at a whole number of seconds.) *)
Definition total_seconds (step : Z) : Q :=
  let us := step / 1000 in
  Float64.RN (Float64.RN (inject_Z (us / 1000000))
              + Float64.RN (inject_Z (us mod 1000000) / 1000000))%Q.

(** Python's [int] on a finite float: truncation toward zero. *)
Definition int_of_float (q : Q) : Z := Z.quot (Qnum q) (Zpos (Qden q)).

(** Line 67, [max(int((args.horizon_hours * 3600) / step_seconds), 1)]: the
    whole number of seconds becomes a float, the division is that of
    floats, [int] truncates the quotient. *)
Definition n_steps (horizon_hours step : Z) : result Z :=
  let num := Float64.RN (inject_Z (horizon_hours * 3600)) in
  let den := total_seconds step in
  if negb (Float64.finite num) then Raise OverflowError
  else if Qeq_bool den 0 then Raise ZeroDivisionError
  else
    let q := Float64.RN (num / den) in
    if Float64.finite q then Ok (Z.max (int_of_float q) 1)
    else Raise OverflowError.

(** [pd.date_range(start, periods=n, freq=step)] *)
Definition date_range (start : Z) (n : Z) (step : Z) : list Z :=
  map (fun k => start + Z.of_nat k * step) (seq 0 (Z.to_nat n)).

Inductive label : Type := observed | predicted.

(** A row of the forecast CSV: Time, value, type. *)
Record OutRow : Type := { Time : Z; value : option Q; type : label }.

(** ** Threshold ETA (lines 84-94) *)

Inductive EtaReport : Type :=
| Unreachable                   (* "slope=0, cannot reach threshold" *)
| AlreadyReached (eta_ts : Q)   (* "would have been reached by ... (<= last observed)" *)
| Projected (eta_ts : Q).       (* "ETA to <threshold>: ..." *)

(** The largest count of nanoseconds a [Timedelta] or a [Timestamp]
    holds; the least is its opposite. *)
Definition INT64_MAX : Z := 2 ^ 63 - 1.

Definition in_bounds (ns : Q) : bool :=
  Qle_bool (inject_Z (- INT64_MAX)) ns && Qle_bool ns (inject_Z INT64_MAX).

(** [pd.to_timedelta(x_eta_hours, unit="h")] *)
Definition to_timedelta_hours (x_eta_hours : Q) : result Q :=
  let ns := (x_eta_hours * inject_Z NS_PER_HOUR)%Q in
  if in_bounds ns then Ok ns
  else Raise (LibraryError "OutOfBoundsTimedelta").

(** [pd.to_datetime(t0) + pd.to_timedelta(x_eta_hours, unit="h")] *)
Definition eta_timestamp (t0 : Z) (x_eta_hours : Q) : result Q :=
  delta ← to_timedelta_hours x_eta_hours;
  let ts := (inject_Z t0 + delta)%Q in
  if in_bounds ts then Ok ts
  else Raise (LibraryError "OutOfBoundsDatetime").

(** Lines 85-94; nothing catches what the sum of line 89 raises. *)
Definition eta (threshold slope intercept : Q) (t0 last : Z)
  : result EtaReport :=
  if Qeq_bool slope 0 then Ok Unreachable
  else
    let x_eta_hours := ((threshold - intercept) / slope)%Q in
    eta_ts ← eta_timestamp t0 x_eta_hours;
    if Qle_bool eta_ts (inject_Z last) then Ok (AlreadyReached eta_ts)
    else Ok (Projected eta_ts).

(** ** The script *)

(** A run that gets as far as writing the forecast: the rows written to
    [--out_forecast], the two numbers printed, and what the ETA lines did
    when a threshold was given - the line they printed, or the exception
    that ended the process there, after the forecast was written. *)
Record Run : Type := {
  forecast_path : string;
  forecast : list OutRow;
  slope : Q;
  intercept : Q;
  eta_line : option (result EtaReport)
}.

(** Lines 52-94: fit, forecast, output and ETA, for the resampled series
    [(t0, v0) :: rest] whose values are [y] and the number [n] of forecast
    steps. *)
Definition report (a : Args) (step : Z) (n : Z) (t0 : Z) (v0 : option Q)
    (rest : TimeSeries) (y : list Q) : Run :=
  let s := (t0, v0) :: rest in
  let t_last := fst (List.last rest (t0, v0)) in
  let X := map (fun p => elapsed_hours t0 (inject_Z (fst p))) s in
  let '(slope, intercept) := fit X y in
  let future_idx := date_range (t_last + step) n step in
  let y_pred :=
    map (fun t => predict slope intercept (elapsed_hours t0 (inject_Z t)))
        future_idx in
  let out_hist :=
    map (fun p => {| Time := fst p; value := snd p; type := observed |}) s in
  let out_pred :=
    map (fun tv => {| Time := fst tv; value := Some (snd tv);
                      type := predicted |})
        (combine future_idx y_pred) in
  {| forecast_path := out_forecast a;
     forecast := out_hist ++ out_pred;
     slope := slope;
     intercept := intercept;
     eta_line :=
       option_map (fun thr => eta thr slope intercept t0 t_last) (threshold a) |}.

(** [main], from the loaded table on; [loaded] is what [pd.read_csv]
    returned or raised. *)
Definition main {sort : TimeSort} (a : Args) (loaded : result DataFrame)
  : result Run :=
  match loaded with
  | Raise _ => fail "Cannot read CSV"
  | Ok df =>
      if negb (in_columns "Time" df) then
        fail "CSV must have a 'Time' column."
      else if negb (in_columns (metric a) df) then
        fail ("CSV does not contain metric column '" +:+ metric a +:+ "'.")
      else if String.eqb (metric a) "Time" then
        (* after set_index("Time") the frame has no such column *)
        Raise (LibraryError "KeyError: 'Time'")
      else
        match numeric_series (clean df (metric a)) with
        | [] => fail "No numeric data points found after cleaning."
        | p :: ps =>
            match interval a with
            | None => fail "Invalid interval"
            | Some step =>
                let s := resample_ffill (Z.pos step) (p :: ps) in
                if (length s <? 3)%nat then
                  fail "Not enough points after resampling (need >= 3)."
                else
                  match s with
                  | [] => Raise IndexError
                  | (t0, v0) :: rest =>
                      y ← to_numpy s;
                      n ← n_steps (horizon_hours a) (Z.pos step);
                      Ok (report a (Z.pos step) n t0 v0 rest y)
                  end
            end
        end
  end.

(** The files a run has written when the process ends. *)
Definition files_written (r : result Run) : list string :=
  match r with
  | Ok run => [forecast_path run]
  | Raise _ => []
  end.

(** The exit status of the process: 1 after [sys.exit(1)] and after an
    exception that nothing caught. *)
Definition exit_status (r : result Run) : Z :=
  match r with
  | Ok run =>
      match eta_line run with
      | Some (Raise _) => 1
      | _ => 0
      end
  | Raise _ => 1
  end.

End MlTrend.

(* ===================================================================== *)
(** * Specification vocabulary and sample inputs                          *)
(* ===================================================================== *)

Module Spec.
Import Pandas.

(** [x] is the first element of [l] that satisfies [P]. *)
Definition first_such {A} (P : A -> Prop) (l : list A) (x : A) : Prop :=
  exists pre post, l = pre ++ x :: post /\ P x /\ forall d, In d pre -> ~ P d.

(** A column that can serve as the metric: a column of the table, other
    than the time column, of numeric dtype. *)
Definition eligible (df : DataFrame) (time_col c : string) : Prop :=
  In c (columns df) /\ c <> time_col /\ is_numeric_dtype (getcol df c) = true.

(** The rows (Time, metric) of the table that have a timestamp, in table
    order: what cleaning starts from. *)
Definition timed_rows (df : DataFrame) (metric : string) : list (Z * cell) :=
  MlTrend.dropna_time
    (combine (map MlTrend.to_datetime_coerce (getcol df "Time"))
             (getcol df metric)).

(** The first row of [rows] with the timestamp [t]. *)
Definition first_at (t : Z) (rows : list (Z * cell)) : option (Z * cell) :=
  List.find (fun r => fst r =? t) rows.

(** The last row of [rows] with the timestamp [t]. *)
Definition last_at (t : Z) (rows : list (Z * cell)) : option (Z * cell) :=
  List.find (fun r => fst r =? t) (rev rows).

(** Each sample of [s] falls in its own bucket, the buckets following one
    another from the edge [e] on. *)
Fixpoint one_per_bucket (e step : Z) (s : MlTrend.TimeSeries) : Prop :=
  match s with
  | [] => True
  | p :: rest => e <= fst p < e + step /\ one_per_bucket (e + step) step rest
  end.

(** The samples of [s] stamped with the bucket edges from [e] on. *)
Fixpoint relabel (e step : Z) (s : MlTrend.TimeSeries) : MlTrend.TimeSeries :=
  match s with
  | [] => []
  | p :: rest => (e, snd p) :: relabel (e + step) step rest
  end.

(** The samples of [s] sit on the bucket edges from [e] on. *)
Fixpoint on_grid (e step : Z) (s : MlTrend.TimeSeries) : Prop :=
  match s with
  | [] => True
  | p :: rest => fst p = e /\ on_grid (e + step) step rest
  end.

Definition is_observed (r : MlTrend.OutRow) : bool :=
  match MlTrend.type r with
  | MlTrend.observed => true
  | MlTrend.predicted => false
  end.

(** The rows of the forecast CSV labelled observed, and those labelled
    predicted. *)
Definition observed_rows (run : MlTrend.Run) : list MlTrend.OutRow :=
  List.filter is_observed (MlTrend.forecast run).

Definition predicted_rows (run : MlTrend.Run) : list MlTrend.OutRow :=
  List.filter (fun r => negb (is_observed r)) (MlTrend.forecast run).

(** The length of a resample interval of [step] nanoseconds, in seconds. *)
Definition interval_seconds (step : Z) : Q :=
  (inject_Z step / inject_Z MlTrend.NS_PER_SECOND)%Q.

(** The number of forecast steps in the words of the specification:
    ceil(horizon_hours * 3600 / interval_seconds), at least 1. *)
Definition ceil_steps (horizon_hours step : Z) : Z :=
  Z.max (Qceiling (inject_Z (horizon_hours * 3600) / interval_seconds step)%Q) 1.

(** A count of nanoseconds that fits a [Timedelta] or a [Timestamp]. *)
Definition representable (ns : Q) : Prop :=
  (inject_Z (- MlTrend.INT64_MAX) <= ns /\ ns <= inject_Z MlTrend.INT64_MAX)%Q.

(** The fitted line, value = slope * hours + intercept. *)
Definition line (slope intercept hours : Q) : Q :=
  (slope * hours + intercept)%Q.

(** The test of the two resolvers, as a boolean on a column name. *)
Definition eligibleb (df : DataFrame) (time_col c : string) : bool :=
  negb (String.eqb c time_col) && is_numeric_dtype (getcol df c).

End Spec.

Module Samples.
Import Pandas.

(** Time, a, opscompleted: two numeric columns, the second one with a
    name [pick_metric_col] prefers. *)
Definition two_metrics : DataFrame :=
  [ {| name := "Time"; cells := [Stamp 0; Stamp 60000000000] |};
    {| name := "a"; cells := [Num 1; Num 2] |};
    {| name := "opscompleted"; cells := [Num 3; Num 4] |} ].

(** TIME, host, ops: a time column in upper case, a text column and a
    numeric one. *)
Definition upper_time : DataFrame :=
  [ {| name := "host"; cells := [Text "a"; Text "b"] |};
    {| name := "TIME"; cells := [Stamp 0; Stamp 60000000000] |};
    {| name := "ops"; cells := [Num 1; Num 2] |} ].

(** Two rows with the same timestamp and different values. *)
Definition same_time_twice : DataFrame :=
  [ {| name := "Time"; cells := [Stamp 0; Stamp 0] |};
    {| name := "ops"; cells := [Num 1; Num 2] |} ].

(** A table whose time column holds texts that are no timestamps. *)
Definition unparsed_time : DataFrame :=
  [ {| name := "Time"; cells := [Text "yesterday"; Text "today"; Text "tomorrow"] |};
    {| name := "ops"; cells := [Num 1; Num 2; Num 3] |};
    {| name := "type"; cells := [Text "observed"; Text "observed"; Text "Predicted"] |} ].

(** [n] rows, one minute apart from [t_start] on, with the values
    0, 1, ..., n-1 in the column ops. *)
Definition ramp (t_start : Z) (n : nat) : DataFrame :=
  [ {| name := "Time";
       cells := map (fun k => Stamp (t_start + Z.of_nat k * 60000000000))
                    (seq 0 n) |};
    {| name := "ops";
       cells := map (fun k => Num (inject_Z (Z.of_nat k))) (seq 0 n) |} ].

(** The series of [ramp t_start n]: the value [k] at minute [k]. *)
Definition ramp_series (t_start : Z) (n : nat) : MlTrend.TimeSeries :=
  map (fun k => (t_start + Z.of_nat k * 60000000000, Some (inject_Z (Z.of_nat k))))
      (seq 0 n).

(** 2024-01-01 00:00:00, in nanoseconds since the epoch. *)
Definition new_year : Z := 1704067200000000000.

(** Samples at 00:00:10, 00:00:50 and 00:02:30: two in the first minute,
    none in the second. *)
Definition gappy : MlTrend.TimeSeries :=
  [ (new_year + 10000000000, Some 1%Q);
    (new_year + 50000000000, Some 2%Q);
    (new_year + 150000000000, Some 3%Q) ].

Definition seven_minutes : positive := 420000000000.
Definition one_minute : positive := 60000000000.

Definition trend_args (metric : string) (interval_ns : positive)
    (horizon_hours : Z) (threshold : option Q) : MlTrend.Args :=
  {| MlTrend.metric := metric;
     MlTrend.interval := Some interval_ns;
     MlTrend.horizon_hours := horizon_hours;
     MlTrend.threshold := threshold;
     MlTrend.out_forecast := "/tmp/forecast.csv" |}.

Definition base_args (metric : option string) (resample : option string)
    (rolling : option Z) : PlotBase.Args :=
  {| PlotBase.csv_stem := "pmrep";
     PlotBase.out_dir := "plots";
     PlotBase.pdf := None;
     PlotBase.time_col := None;
     PlotBase.metric := metric;
     PlotBase.resample := resample;
     PlotBase.rolling := rolling |}.

Definition split_args (value_col : option string) (resample : option string)
    (rolling : option Z) : PlotSplit.Args :=
  {| PlotSplit.time_col := None;
     PlotSplit.value_col := value_col;
     PlotSplit.label_col := "type";
     PlotSplit.predicted_label := "predicted";
     PlotSplit.out := "plots/obs_pred.png";
     PlotSplit.pdf := None;
     PlotSplit.resample := resample;
     PlotSplit.resample_agg := Sum;
     PlotSplit.rolling := rolling |}.

(** Stand-ins for the pandas calls, where a lemma needs some. *)
Definition no_resample (freq : string) (s : Series) : result Series :=
  Raise (LibraryError "Invalid frequency").
Definition no_rolling (w : Z) (s : Series) : result Series :=
  Raise (LibraryError "rolling").
Definition align (s_obs s_pred : Series) : result PlotSplit.Aligned :=
  Ok (map (fun r => (fst r, (snd r, NaN))) s_obs
      ++ map (fun r => (fst r, (NaN, snd r))) s_pred).
Definition show_num (q : Q) : string := "0".
Definition show_stamp (t : Z) : string := "1970-01-01".

(** Date, time, host, TIME: a date column before two columns spelled
    time. *)
Definition many_times : DataFrame :=
  [ {| name := "Date"; cells := [Text "2024-01-01"] |};
    {| name := "time"; cells := [Stamp 0] |};
    {| name := "host"; cells := [Text "a"] |};
    {| name := "TIME"; cells := [Stamp 60000000000] |} ].

(** Two rows at timestamp 0, a text and then a number, and one row a minute
    later. *)
Definition text_then_number : DataFrame :=
  [ {| name := "Time"; cells := [Stamp 0; Stamp 0; Stamp 60000000000] |};
    {| name := "ops"; cells := [Text "err"; Num 5; Num 6] |} ].

(** A table whose time column holds texts that are no timestamps, and that
    has no numeric column. *)
Definition texts_only : DataFrame :=
  [ {| name := "Time"; cells := [Text "row one"; Text "row two"] |};
    {| name := "host"; cells := [Text "a"; Text "b"] |};
    {| name := "type"; cells := [Text "observed"; Text "predicted"] |} ].

(** Three hours ahead in steps of 2.7 seconds. *)
Definition two_point_seven_seconds : positive := 2700000000.

(** A forecast table with two pairs of bound columns; only the generic
    pair is complete for the base name "value". *)
Definition with_band : DataFrame :=
  [ {| name := "Time"; cells := [Stamp 0; Stamp 60000000000] |};
    {| name := "value"; cells := [Num 1; Num 2] |};
    {| name := "type"; cells := [Text "observed"; Text "predicted"] |};
    {| name := "value_lower"; cells := [NaN; Num 1] |};
    {| name := "lower"; cells := [NaN; Num 1] |};
    {| name := "upper"; cells := [NaN; Num 3] |} ].

End Samples.

(* ===================================================================== *)
(** * Column resolution                                                   *)
(* ===================================================================== *)

Section ColumnResolver.
Import Pandas.

Lemma find_app_last {A} (f : A -> bool) (l : list A) (x : A) :
  List.find f (l ++ [x]) =
    match List.find f l with
    | Some y => Some y
    | None => if f x then Some x else None
    end.
Proof.
  induction l as [|y l IH]; simpl; [done|]. by destruct (f y).
Qed.

Lemma lower_map_lookup_from (cols : list string) (m : gmap string string)
    (k : string) :
  foldl (fun m c => <[lower c := c]> m) m cols !! k =
    match List.find (fun c => String.eqb (lower c) k) (rev cols) with
    | Some c => Some c
    | None => m !! k
    end.
Proof.
  revert m. induction cols as [|c cols IH]; intros m; simpl; [done|].
  rewrite IH, find_app_last.
  destruct (List.find _ (rev cols)) as [c'|]; [done|]. simpl.
  destruct (String.eqb_spec (lower c) k) as [<-|Hne].
  - by rewrite lookup_insert_eq.
  - by rewrite lookup_insert_ne.
Qed.

(** The dictionary maps a lower-cased name to the last column that has it. *)
Lemma lower_map_lookup (cols : list string) (k : string) :
  lower_map cols !! k = List.find (fun c => String.eqb (lower c) k) (rev cols).
Proof.
  unfold lower_map. rewrite lower_map_lookup_from, lookup_empty.
  by destruct (List.find _ _).
Qed.

Lemma lower_map_Some (cols : list string) (k c : string) :
  lower_map cols !! k = Some c -> In c cols /\ lower c = k.
Proof.
  rewrite lower_map_lookup. intros H. apply find_some in H as [Hin Heq].
  split; [by apply in_rev | by apply String.eqb_eq].
Qed.

Lemma lower_map_None (cols : list string) (k : string) :
  lower_map cols !! k = None <-> (forall c, In c cols -> lower c <> k).
Proof.
  rewrite lower_map_lookup. split.
  - intros H c Hin Heq. apply in_rev in Hin.
    pose proof (find_none _ _ H c Hin) as Hf. simpl in Hf.
    apply String.eqb_neq in Hf. by destruct Hf.
  - intros H. destruct (List.find _ _) as [c|] eqn:E; [|done].
    apply find_some in E as [Hin Heq]. apply in_rev in Hin.
    apply String.eqb_eq in Heq. by destruct (H c Hin).
Qed.

Lemma first_candidate_Some m cands c :
  first_candidate m cands = Some c ->
  exists cand, In cand cands /\ m !! cand = Some c.
Proof.
  induction cands as [|k cands IH]; simpl; [done|].
  destruct (m !! k) eqn:E.
  - intros [= <-]. eauto.
  - intros H. destruct (IH H) as (cand & ? & ?). eauto.
Qed.

Lemma first_candidate_None m cands :
  first_candidate m cands = None <-> (forall cand, In cand cands -> m !! cand = None).
Proof.
  induction cands as [|k cands IH]; simpl.
  - split; [intros _ ? [] | done].
  - destruct (m !! k) eqn:E.
    + split; [done|]. intros H. rewrite <- E. apply H. by left.
    + rewrite IH. split.
      * intros H cand [<-|Hin]; [done | by apply H].
      * intros H cand Hin. apply H. by right.
Qed.

Lemma find_app_or {A} (f : A -> bool) (l1 l2 : list A) :
  List.find f (l1 ++ l2) =
    match List.find f l1 with
    | Some x => Some x
    | None => List.find f l2
    end.
Proof. induction l1 as [|x l1 IH]; simpl; [done|]. by destruct (f x). Qed.

Lemma first_candidate_app m pre k post c :
  (forall k', In k' pre -> m !! k' = None) ->
  m !! k = Some c ->
  first_candidate m (pre ++ k :: post) = Some c.
Proof.
  intros Hpre Hk. induction pre as [|k' pre IH]; simpl.
  - by rewrite Hk.
  - rewrite (Hpre k') by (by left). apply IH. intros k'' Hin. apply Hpre. by right.
Qed.

(** Of the columns with one lower-cased name, the dictionary holds the last. *)
Lemma lower_map_last (before after : list string) (c k : string) :
  lower c = k ->
  (forall d, In d after -> lower d <> k) ->
  lower_map (before ++ c :: after) !! k = Some c.
Proof.
  intros Hc Hafter.
  rewrite lower_map_lookup, rev_app_distr. simpl.
  rewrite <- app_assoc, find_app_or.
  destruct (List.find _ (rev after)) as [d|] eqn:E.
  - apply find_some in E as [Hin Heq]. apply in_rev in Hin.
    apply String.eqb_eq in Heq. by destruct (Hafter d Hin).
  - simpl. apply String.eqb_eq in Hc. by rewrite Hc.
Qed.

Lemma forced_valid_Some forced df :
  forced_valid forced df = true ->
  exists f, forced = Some f /\ f <> EmptyString /\ In f (columns df).
Proof.
  destruct forced as [f|]; simpl; [|done].
  intros [Hne Hin]%andb_prop. exists f. split; [done|]. split.
  - intros ->. by simpl in Hne.
  - unfold in_columns in Hin. apply existsb_exists in Hin as (c & Hc & Heq).
    apply String.eqb_eq in Heq. by subst.
Qed.

Lemma in_columns_In c df : in_columns c df = true <-> In c (columns df).
Proof.
  unfold in_columns. rewrite existsb_exists. split.
  - intros (x & Hx & Heq). apply String.eqb_eq in Heq. by subst.
  - intros H. exists c. split; [done | apply String.eqb_refl].
Qed.

End ColumnResolver.

Section TimeColumn.
Import Pandas.

Example lower_mixed_case : lower "TimeStamp_01" = "timestamp_01"%string.
Proof. reflexivity. Qed.

Lemma detect_time_col_auto df forced :
  forced_valid forced df = false ->
  PlotBase.detect_time_col df forced =
    match first_candidate (lower_map (columns df)) time_candidates with
    | Some c => Ok c
    | None => first_column df
    end.
Proof. unfold PlotBase.detect_time_col. by intros ->. Qed.

(** Without a valid forced name: the first candidate that some column
    spells wins, and of the columns that spell it the last one. *)
Lemma detect_time_col_last_of_first df forced pre k post before c after :
  forced_valid forced df = false ->
  time_candidates = pre ++ k :: post ->
  (forall k' d, In k' pre -> In d (columns df) -> lower d <> k') ->
  columns df = before ++ c :: after ->
  lower c = k ->
  (forall d, In d after -> lower d <> k) ->
  PlotBase.detect_time_col df forced = Ok c.
Proof.
  intros Hv Hcands Hpre Hcols Hc Hafter.
  rewrite (detect_time_col_auto _ _ Hv), Hcands.
  rewrite (first_candidate_app _ pre k post c); [done| |].
  - intros k' Hk'. apply lower_map_None. intros d Hd. by apply (Hpre k' d).
  - rewrite Hcols. by apply lower_map_last.
Qed.

(** C7, as the code has it.  Time column resolution, in both plotting
    scripts, which share the code: the forced name when it is a
    (non-empty) column of the table; otherwise, for the first of the names
    time, timestamp, date, datetime that some column spells in any letter
    case, the last column of the table that spells it; otherwise the first
    column of the table, and an IndexError when the table has no column.
    In particular, with no valid forced name, of the columns spelled
    "time" in any letter case the last one is the time column. *)
Theorem detect_time_col_resolution (df : DataFrame) (forced : option string) :
  PlotSplit.detect_time_col df forced = PlotBase.detect_time_col df forced
  /\ (forall f, forced = Some f -> forced_valid forced df = true ->
        PlotBase.detect_time_col df forced = Ok f)
  /\ (forced_valid forced df = false ->
      forall pre k post before c after,
        time_candidates = pre ++ k :: post ->
        (forall k' d, In k' pre -> In d (columns df) -> lower d <> k') ->
        columns df = before ++ c :: after ->
        lower c = k ->
        (forall d, In d after -> lower d <> k) ->
        PlotBase.detect_time_col df forced = Ok c)
  /\ (forced_valid forced df = false ->
      (forall c, In c (columns df) -> ~ In (lower c) time_candidates) ->
      match columns df with
      | c :: _ => PlotBase.detect_time_col df forced = Ok c
      | [] => PlotBase.detect_time_col df forced = Raise IndexError
      end)
  /\ (forced_valid forced df = false ->
      forall before c after,
        columns df = before ++ c :: after ->
        lower c = "time"%string ->
        (forall d, In d after -> lower d <> "time"%string) ->
        PlotBase.detect_time_col df forced = Ok c).
Proof.
  split; [reflexivity|]. split; [|split; [|split]].
  - intros f -> Hv. unfold PlotBase.detect_time_col. by rewrite Hv.
  - intros Hv pre k post before c after Hcands Hpre Hcols Hc Hafter.
    by apply (detect_time_col_last_of_first df forced pre k post before c after).
  - intros Hv Hno. rewrite (detect_time_col_auto _ _ Hv).
    destruct (first_candidate _ _) as [c'|] eqn:E.
    + apply first_candidate_Some in E as (cand & Hc & Hm).
      apply lower_map_Some in Hm as [Hin <-]. by destruct (Hno c' Hin).
    + unfold first_column. by destruct (columns df).
  - intros Hv before c after Hcols Hc Hafter.
    apply (detect_time_col_last_of_first df forced
             [] "time" ["timestamp"; "date"; "datetime"]%string before c after);
      done.
Qed.

(** C7 as stated fails where two columns are spelled time: of Date, time,
    host, TIME, neither resolver selects the column named time. *)
Lemma detect_time_col_not_the_first_time :
  In "time"%string (columns Samples.many_times)
  /\ forced_valid None Samples.many_times = false
  /\ PlotBase.detect_time_col Samples.many_times None = Ok "TIME"%string
  /\ PlotSplit.detect_time_col Samples.many_times None = Ok "TIME"%string
  /\ PlotBase.detect_time_col Samples.many_times None <> Ok "time"%string.
Proof.
  split; [simpl; tauto|]. split; [reflexivity|].
  split; [reflexivity|]. split; [reflexivity|]. discriminate.
Qed.

End TimeColumn.

Section MetricColumn.
Import Pandas Spec.

Lemma find_first_such {A} (f : A -> bool) (l : list A) (x : A) :
  List.find f l = Some x <-> first_such (fun a => f a = true) l x.
Proof.
  split.
  - induction l as [|y l IH]; simpl; [done|].
    destruct (f y) eqn:E.
    + intros [= <-]. exists [], l. by repeat split.
    + intros (pre & post & -> & Hx & Hpre)%IH.
      exists (y :: pre), post. repeat split; [done|].
      intros d [<-|Hd]; [congruence | by apply Hpre].
  - intros (pre & post & -> & Hx & Hpre).
    induction pre as [|y pre IH]; simpl.
    + by rewrite Hx.
    + destruct (f y) eqn:E.
      * destruct (Hpre y); [by left | done].
      * apply IH. intros d Hd. apply Hpre. by right.
Qed.

Lemma find_none_iff {A} (f : A -> bool) (l : list A) :
  List.find f l = None <-> (forall x, In x l -> f x = false).
Proof.
  split; [apply find_none|].
  induction l as [|y l IH]; simpl; [done|]. intros H.
  rewrite (H y) by (by left). apply IH. intros x Hx. apply H. by right.
Qed.

Lemma eligibleb_spec df time_col c :
  In c (columns df) -> (eligibleb df time_col c = true <-> eligible df time_col c).
Proof.
  intros Hin. unfold eligibleb, eligible.
  rewrite andb_true_iff, negb_true_iff, String.eqb_neq. tauto.
Qed.

Lemma first_such_ext {A} (P Q : A -> Prop) (l : list A) (x : A) :
  (forall a, P a <-> Q a) -> first_such P l x -> first_such Q l x.
Proof.
  intros HPQ (pre & post & Hl & Hx & Hpre). exists pre, post.
  split; [done|]. split; [by apply HPQ|].
  intros d Hd HQ. apply (Hpre d Hd). by apply HPQ.
Qed.

Lemma getcol_absent df c : ~ In c (columns df) -> getcol df c = [].
Proof.
  induction df as [|col df IH]; simpl; [done|]. intros Hout.
  destruct (String.eqb_spec (name col) c) as [Heq|Hne]; [tauto|].
  apply IH. tauto.
Qed.

(** Only a column of the table has a numeric dtype. *)
Lemma eligibleb_iff df time_col c :
  eligibleb df time_col c = true <-> eligible df time_col c.
Proof.
  destruct (in_dec string_dec c (columns df)) as [Hin|Hout];
    [by apply eligibleb_spec|].
  unfold eligibleb, eligible. rewrite (getcol_absent df c Hout). simpl.
  rewrite andb_false_r. split; [done | tauto].
Qed.

Lemma first_eligible_iff df time_col c :
  first_such (fun d => eligibleb df time_col d = true) (columns df) c <->
  first_such (eligible df time_col) (columns df) c.
Proof.
  split; apply first_such_ext; intros d;
    [apply eligibleb_iff | symmetry; apply eligibleb_iff].
Qed.

Lemma numeric_cols_In df time_col c :
  In c (PlotBase.numeric_cols df time_col) <-> eligible df time_col c.
Proof.
  unfold PlotBase.numeric_cols. rewrite filter_In. split.
  - intros [Hin He]. by apply (eligibleb_spec df time_col c Hin).
  - intros He. split; [apply He|]. apply eligibleb_spec; [apply He | done].
Qed.

Lemma numeric_cols_head df time_col :
  List.find (eligibleb df time_col) (columns df) =
    head (PlotBase.numeric_cols df time_col).
Proof.
  unfold PlotBase.numeric_cols, eligibleb.
  induction (columns df) as [|c l IH]; simpl; [done|].
  by destruct (negb _ && _).
Qed.

Lemma existsb_eqb_In (p : string) (l : list string) :
  existsb (String.eqb p) l = true <-> In p l.
Proof.
  rewrite existsb_exists. split.
  - intros (x & Hx & Heq). apply String.eqb_eq in Heq. by subst.
  - intros H. exists p. split; [done | apply String.eqb_refl].
Qed.

Lemma first_such_In {A} (P : A -> Prop) (l : list A) (x : A) :
  first_such P l x -> In x l /\ P x.
Proof. intros (pre & post & -> & Hx & _). split; [apply in_elt | done]. Qed.

(** What [pick_metric_col] does once the forced name is out of the way. *)
Lemma pick_metric_col_auto df time_col forced :
  forced_valid forced df = false ->
  (forall c, first_such (eligible df time_col) (columns df) c ->
     (forall p, first_such (eligible df time_col) PlotBase.preferred_metrics p ->
        PlotBase.pick_metric_col df time_col forced = Ok p)
     /\ ((forall p, In p PlotBase.preferred_metrics -> ~ eligible df time_col p) ->
        PlotBase.pick_metric_col df time_col forced = Ok c))
  /\ ((forall c, ~ eligible df time_col c) ->
      exists msg, PlotBase.pick_metric_col df time_col forced = Raise (SystemExit msg)).
Proof.
  intros Hv. unfold PlotBase.pick_metric_col. rewrite Hv. split.
  - intros c Hc%first_eligible_iff%find_first_such.
    rewrite numeric_cols_head in Hc.
    destruct (PlotBase.numeric_cols df time_col) as [|c0 l] eqn:E; [done|].
    injection Hc as ->. rewrite <- E. split.
    + intros p Hp.
      assert (List.find
                (fun p => existsb (String.eqb p) (PlotBase.numeric_cols df time_col))
                PlotBase.preferred_metrics = Some p) as ->; [|done].
      apply find_first_such. eapply first_such_ext; [|exact Hp].
      intros a. simpl. by rewrite existsb_eqb_In, numeric_cols_In.
    + intros Hnone.
      assert (List.find
                (fun p => existsb (String.eqb p) (PlotBase.numeric_cols df time_col))
                PlotBase.preferred_metrics = None) as ->; [|done].
      apply find_none_iff. intros p Hp.
      destruct (existsb _ _) eqn:Ex; [|done].
      apply existsb_eqb_In, numeric_cols_In in Ex. by destruct (Hnone p Hp).
  - intros Hnone.
    destruct (PlotBase.numeric_cols df time_col) as [|c0 l] eqn:E; [eauto|].
    destruct (Hnone c0). apply numeric_cols_In. rewrite E. by left.
Qed.

Lemma detect_value_col_auto df time_col forced :
  forced_valid forced df = false ->
  (forall c, first_such (eligible df time_col) (columns df) c ->
     PlotSplit.detect_value_col df time_col forced = Ok c)
  /\ ((forall c, ~ eligible df time_col c) ->
      exists msg, PlotSplit.detect_value_col df time_col forced = Raise (SystemExit msg)).
Proof.
  intros Hv. unfold PlotSplit.detect_value_col. rewrite Hv.
  fold (eligibleb df time_col). split.
  - intros c Hc%first_eligible_iff%find_first_such. by rewrite Hc.
  - intros Hnone. destruct (List.find _ _) as [c|] eqn:E; [|eauto].
    apply find_some in E as [Hin He].
    destruct (Hnone c). by apply eligibleb_spec.
Qed.

(** C6, as the code has it.  Both resolvers return the forced name when it
    is a (non-empty) column of the table.  Otherwise the value resolver of
    the observed/predicted script returns the first column, other than the
    time column, of numeric dtype; the metric resolver of the base script
    returns, among those columns, the first of the names
    ds389.cn.opscompleted, ds389.cn.opsCompleted, opscompleted that is one
    of them, and the first of them in table order when none of the three
    is.  Both exit with an error message when the table has no numeric
    column besides the time column. *)
Theorem metric_col_resolution (df : DataFrame) (time_col : string)
    (forced : option string) :
  (forall f, forced = Some f -> forced_valid forced df = true ->
     PlotBase.pick_metric_col df time_col forced = Ok f
     /\ PlotSplit.detect_value_col df time_col forced = Ok f)
  /\ (forced_valid forced df = false ->
      (forall c, first_such (eligible df time_col) (columns df) c ->
         PlotSplit.detect_value_col df time_col forced = Ok c
         /\ (forall p, first_such (eligible df time_col) PlotBase.preferred_metrics p ->
               PlotBase.pick_metric_col df time_col forced = Ok p)
         /\ ((forall p, In p PlotBase.preferred_metrics -> ~ eligible df time_col p) ->
               PlotBase.pick_metric_col df time_col forced = Ok c))
      /\ ((forall c, ~ eligible df time_col c) ->
          exists msg msg',
            PlotBase.pick_metric_col df time_col forced = Raise (SystemExit msg)
            /\ PlotSplit.detect_value_col df time_col forced = Raise (SystemExit msg'))).
Proof.
  split.
  - intros f -> Hv.
    unfold PlotBase.pick_metric_col, PlotSplit.detect_value_col. by rewrite Hv.
  - intros Hv.
    destruct (pick_metric_col_auto df time_col forced Hv) as [Hp Hpn].
    destruct (detect_value_col_auto df time_col forced Hv) as [Hd Hdn].
    split.
    + intros c Hc. destruct (Hp c Hc). split; [by apply Hd | done].
    + intros Hnone. destruct (Hpn Hnone) as [msg ?].
      destruct (Hdn Hnone) as [msg' ?]. by exists msg, msg'.
Qed.

(** C6 as stated fails for the base script: with the columns Time, a,
    opscompleted and no forced name, the first numeric column besides the
    time column is "a", and [pick_metric_col] returns "opscompleted". *)
Lemma pick_metric_col_not_first :
  forced_valid None Samples.two_metrics = false
  /\ first_such (eligible Samples.two_metrics "Time")
                (columns Samples.two_metrics) "a"%string
  /\ PlotBase.pick_metric_col Samples.two_metrics "Time" None
     = Ok "opscompleted"%string
  /\ PlotBase.pick_metric_col Samples.two_metrics "Time" None <> Ok "a"%string.
Proof.
  split; [reflexivity|]. split; [|split; [reflexivity | discriminate]].
  apply first_eligible_iff, find_first_such. reflexivity.
Qed.

End MetricColumn.

(* ===================================================================== *)
(** * The observed / predicted split                                      *)
(* ===================================================================== *)

Section LabelSplit.
Import Pandas PlotSplit.
Variable str_of_num : Q -> string.
Variable str_of_stamp : Z -> string.

Abbreviation is_pred := (PlotSplit.is_pred str_of_num str_of_stamp).
Abbreviation astype_str := (PlotSplit.astype_str str_of_num str_of_stamp).
Abbreviation df_obs := (PlotSplit.df_obs str_of_num str_of_stamp).
Abbreviation df_pred := (PlotSplit.df_pred str_of_num str_of_stamp).

Lemma is_pred_iff (pl : string) (l : cell) :
  is_pred pl l = true <-> lower (astype_str l) = lower pl.
Proof. unfold PlotSplit.is_pred. apply String.eqb_eq. Qed.

Lemma df_pred_app pl (r1 r2 : list (cell * Row)) :
  df_pred pl (r1 ++ r2) = df_pred pl r1 ++ df_pred pl r2.
Proof. unfold PlotSplit.df_pred. by rewrite List.filter_app, List.map_app. Qed.

Lemma df_obs_app pl (r1 r2 : list (cell * Row)) :
  df_obs pl (r1 ++ r2) = df_obs pl r1 ++ df_obs pl r2.
Proof. unfold PlotSplit.df_obs. by rewrite List.filter_app, List.map_app. Qed.

Lemma split_permutation pl (rows : list (cell * Row)) :
  Permutation (df_obs pl rows ++ df_pred pl rows) (map snd rows).
Proof.
  unfold PlotSplit.df_obs, PlotSplit.df_pred.
  induction rows as [|[l r] rows IH]; simpl; [constructor|].
  destruct (is_pred pl l); simpl.
  - rewrite <- Permutation_middle. by constructor.
  - by constructor.
Qed.

(** C9.  The split of the rows by label.  A row goes to the predicted part
    exactly when its label, as a string and lower-cased, equals the
    lower-cased [--predicted-label], and to the observed part otherwise,
    whatever its label is; the split goes row by row, in table order; the
    two parts together hold every row of the table once. *)
Theorem label_split_partition (pl : string) (rows : list (cell * Row)) :
  (forall l r,
      (lower (astype_str l) = lower pl ->
         df_pred pl [(l, r)] = [r] /\ df_obs pl [(l, r)] = [])
      /\ (lower (astype_str l) <> lower pl ->
         df_pred pl [(l, r)] = [] /\ df_obs pl [(l, r)] = [r]))
  /\ (forall r1 r2,
        df_pred pl (r1 ++ r2) = df_pred pl r1 ++ df_pred pl r2
        /\ df_obs pl (r1 ++ r2) = df_obs pl r1 ++ df_obs pl r2)
  /\ Permutation (df_obs pl rows ++ df_pred pl rows) (map snd rows)
  /\ (length (df_obs pl rows) + length (df_pred pl rows) = length rows)%nat.
Proof.
  split; [|split; [|split]].
  - intros l r. unfold PlotSplit.df_pred, PlotSplit.df_obs. simpl. split.
    + intros H%is_pred_iff. by rewrite H.
    + intros H. destruct (is_pred pl l) eqn:E; [|done].
      by apply is_pred_iff in E.
  - intros r1 r2. split; [apply df_pred_app | apply df_obs_app].
  - apply split_permutation.
  - rewrite <- length_app, (Permutation_length (split_permutation pl rows)).
    apply length_map.
Qed.

End LabelSplit.

(* ===================================================================== *)
(** * A time column that does not parse                                   *)
(* ===================================================================== *)

Section UnparsedTime.
Import Pandas.

(** A number in a time column counts nanoseconds; a fraction of a
    nanosecond is dropped, toward zero. *)
Example parse_ts_number :
  parse_ts (Num (5 # 2)) = Ok (Some 2)
  /\ parse_ts (Num (-3 # 2)) = Ok (Some (-1))
  /\ parse_ts NaN = Ok None.
Proof. repeat split. Qed.

Lemma try_parse_time_raise df tcol e :
  to_datetime (getcol df tcol) = Raise e -> try_parse_time df tcol = (df, false).
Proof. unfold try_parse_time. by intros ->. Qed.

(** C10, as the code has it.  When the detected time column does not
    parse, the exception is swallowed and both scripts run on, on the
    table as it was loaded: the failure to parse ends no run.  From there
    on, neither [--resample] nor [--rolling] is looked at, and no
    confidence band is drawn.  The base script completes exactly when the
    metric column resolves, with its image (and the PDF when asked)
    written and the raw metric column plotted against the raw time column;
    otherwise it ends with the error of the resolver.  The
    observed/predicted script completes, in the same way, exactly when the
    value column resolves, the label column exists and pandas aligns the
    two parts; otherwise it ends with the error of the step that failed. *)
Theorem unparsed_time_not_fatal :
  (forall resample_sum rolling_mean a df tcol e,
      PlotBase.detect_time_col df (PlotBase.time_col a) = Ok tcol ->
      to_datetime (getcol df tcol) = Raise e ->
      PlotBase.main resample_sum rolling_mean a df =
        match PlotBase.pick_metric_col df tcol (PlotBase.metric a) with
        | Ok mcol =>
            Ok {| PlotBase.files :=
                    PlotBase.png_path a mcol ::
                      (if truthy (PlotBase.pdf a)
                       then [default EmptyString (PlotBase.pdf a)] else []);
                  PlotBase.plot_x := getcol df tcol;
                  PlotBase.plot_y := getcol df mcol;
                  PlotBase.title := mcol |}
        | Raise err => Raise err
        end)
  /\ (forall str_of_num str_of_stamp resample_by rolling_mean concat_axis1
             a df tcol e,
      PlotSplit.detect_time_col df (PlotSplit.time_col a) = Ok tcol ->
      to_datetime (getcol df tcol) = Raise e ->
      PlotSplit.main str_of_num str_of_stamp resample_by rolling_mean
                     concat_axis1 a df =
        match PlotSplit.detect_value_col df tcol (PlotSplit.value_col a) with
        | Ok vcol =>
            if in_columns (PlotSplit.label_col a) df then
              let rows :=
                PlotSplit.labelled_rows df tcol vcol (PlotSplit.label_col a) in
              let s_obs := PlotSplit.df_obs str_of_num str_of_stamp
                             (PlotSplit.predicted_label a) rows in
              let s_pred := PlotSplit.df_pred str_of_num str_of_stamp
                              (PlotSplit.predicted_label a) rows in
              match concat_axis1 s_obs s_pred with
              | Ok al =>
                  Ok {| PlotSplit.files :=
                          PlotSplit.out a ::
                            (if truthy (PlotSplit.pdf a)
                             then [default EmptyString (PlotSplit.pdf a)]
                             else []);
                        PlotSplit.observed := s_obs;
                        PlotSplit.predicted := s_pred;
                        PlotSplit.aligned := al;
                        PlotSplit.band := None;
                        PlotSplit.f_start := PlotSplit.first_valid_index al |}
              | Raise err => Raise err
              end
            else
              Raise (SystemExit ("--label-col '" +:+ PlotSplit.label_col a
                                   +:+ "' not found in CSV columns: "
                                   +:+ repr_list (columns df)))
        | Raise err => Raise err
        end).
Proof.
  split.
  - intros rs rm a df tcol e Ht Hp. unfold PlotBase.main.
    rewrite Ht. simpl. rewrite (try_parse_time_raise _ _ _ Hp).
    by destruct (PlotBase.pick_metric_col df tcol (PlotBase.metric a)).
  - intros sn ss rb rm cc a df tcol e Ht Hp.
    unfold PlotSplit.main. rewrite Ht. simpl.
    rewrite (try_parse_time_raise _ _ _ Hp).
    destruct (PlotSplit.detect_value_col df tcol (PlotSplit.value_col a))
      as [vcol|err]; [|done]. simpl.
    destruct (in_columns (PlotSplit.label_col a) df); [|done]. simpl.
    destruct (cc _ _) as [al|err]; [|done]. simpl.
    by destruct (PlotSplit.find_ci_columns df vcol) as [[lo hi]|].
Qed.

(** C10 as stated fails: a table whose time column does not parse and that
    has no numeric column ends both scripts with a configuration error,
    and no image is written. *)
Lemma unparsed_time_no_metric :
  PlotBase.detect_time_col Samples.texts_only None = Ok "Time"%string
  /\ to_datetime (getcol Samples.texts_only "Time")
     = Raise (LibraryError "to_datetime")
  /\ (exists msg,
        PlotBase.main Samples.no_resample Samples.no_rolling
          (Samples.base_args None None None) Samples.texts_only
        = Raise (SystemExit msg))
  /\ (exists msg,
        PlotSplit.main Samples.show_num Samples.show_stamp
          (fun _ => Samples.no_resample) Samples.no_rolling Samples.align
          (Samples.split_args None None None) Samples.texts_only
        = Raise (SystemExit msg)).
Proof.
  split; [reflexivity|]. split; [reflexivity|].
  split; eexists; reflexivity.
Qed.

End UnparsedTime.

(* ===================================================================== *)
(** * Cleaning: sort and de-duplicate                                     *)
(* ===================================================================== *)

Section InsertionSort.
Import Pandas MlTrend Spec.

Lemma first_at_insert_row t r l :
  first_at t (insert_row r l) = if fst r =? t then Some r else first_at t l.
Proof.
  unfold first_at. induction l as [|r' l IH]; simpl.
  - by destruct (fst r =? t).
  - destruct (Z.leb_spec (fst r) (fst r')); simpl.
    + done.
    + rewrite IH. destruct (Z.eqb_spec (fst r) t), (Z.eqb_spec (fst r') t);
        try done; lia.
Qed.

(** Insertion sort is stable: the first row of each timestamp stays the
    first. *)
Lemma first_at_insertion_sort t l : first_at t (insertion_sort l) = first_at t l.
Proof.
  induction l as [|r l IH]; simpl; [done|].
  rewrite first_at_insert_row, IH. unfold first_at. simpl. done.
Qed.

Lemma insert_row_perm r l : Permutation (insert_row r l) (r :: l).
Proof.
  induction l as [|r' l IH]; simpl; [done|].
  destruct (fst r <=? fst r'); [done|].
  rewrite IH. apply perm_swap.
Qed.

Lemma insertion_sort_perm l : Permutation (insertion_sort l) l.
Proof.
  induction l as [|r l IH]; simpl; [done|].
  rewrite insert_row_perm. by constructor.
Qed.

Lemma insert_row_sorted r l :
  StronglySorted (fun a b => fst a <= fst b) l ->
  StronglySorted (fun a b => fst a <= fst b) (insert_row r l).
Proof.
  induction 1 as [|r' l Hs IH Hall]; simpl.
  - repeat constructor.
  - destruct (Z.leb_spec (fst r) (fst r')).
    + constructor; [by constructor|]. constructor; [done|].
      eapply List.Forall_impl; [|exact Hall]. simpl. intros. lia.
    + constructor; [done|].
      rewrite List.Forall_forall. intros x Hx.
      apply (Permutation_in _ (insert_row_perm r l)) in Hx.
      destruct Hx as [<-|Hx]; [lia|].
      rewrite List.Forall_forall in Hall. by apply Hall.
Qed.

Lemma insertion_sort_sorted l :
  StronglySorted (fun a b => fst a <= fst b) (insertion_sort l).
Proof.
  induction l as [|r l IH]; simpl; [constructor | by apply insert_row_sorted].
Qed.

(** Insertion sort as the sort of the table. *)
Definition insertion_time_sort : TimeSort :=
  {| sort_values := insertion_sort;
     sort_values_perm := insertion_sort_perm;
     sort_values_sorted := insertion_sort_sorted |}.

End InsertionSort.

Section Cleaning.
Import Pandas MlTrend Spec.
Context {sort : TimeSort}.

Lemma not_seen_after (t t' : Z) (seen : gset Z) :
  t ∉ ({[t']} ∪ seen) <-> t <> t' /\ t ∉ seen.
Proof. rewrite not_elem_of_union, not_elem_of_singleton. tauto. Qed.

Lemma drop_duplicates_from_In seen l t v :
  In (t, v) (drop_duplicates_from seen l) <->
  (t ∉ seen) /\ first_at t l = Some (t, v).
Proof.
  revert seen. unfold first_at.
  induction l as [|[t' v'] l IH]; intros seen; simpl.
  - split; [done | by intros [_ ?]].
  - destruct (decide (t' ∈ seen)) as [Hin|Hnin].
    + rewrite IH. destruct (Z.eqb_spec t' t) as [->|Hne]; [|done].
      split; [by intros [? _] | by intros [? _]].
    + simpl. rewrite IH, not_seen_after.
      destruct (Z.eqb_spec t' t) as [->|Hne].
      * split.
        -- intros [[= ->]|[[? _] _]]; done.
        -- intros [_ [= ->]]. by left.
      * split.
        -- intros [[= ? ?]|[[_ Hn] Hf]]; done.
        -- intros [Hn Hf]. right. done.
Qed.

Lemma drop_duplicates_from_sorted seen l :
  StronglySorted (fun a b => fst a <= fst b) l ->
  StronglySorted (fun a b => fst a < fst b) (drop_duplicates_from seen l).
Proof.
  intros Hs. revert seen.
  induction Hs as [|[t v] l Hs IH Hall]; intros seen; simpl; [constructor|].
  destruct (decide (t ∈ seen)); [apply IH|].
  constructor; [apply IH|].
  rewrite List.Forall_forall. intros [t' v'] Hin. simpl.
  pose proof Hin as [Hn Hf]%drop_duplicates_from_In.
  apply find_some in Hf as [Hin' _].
  rewrite List.Forall_forall in Hall. specialize (Hall _ Hin'). simpl in Hall.
  apply not_seen_after in Hn as [Hne _]. lia.
Qed.

Lemma first_at_Some_In t l r : first_at t l = Some r -> In r l /\ fst r = t.
Proof.
  intros [? ?%Z.eqb_eq]%find_some. done.
Qed.

Lemma first_at_is_Some t l :
  In t (map fst l) -> exists v, first_at t l = Some (t, v).
Proof.
  unfold first_at. induction l as [|[t' v'] l IH]; simpl; [done|].
  destruct (Z.eqb_spec t' t) as [->|Hne].
  - eauto.
  - intros [?|?]; [done | by apply IH].
Qed.

Lemma strictly_sorted_NoDup (l : list (Z * cell)) :
  StronglySorted (fun a b => fst a < fst b) l -> NoDup (map fst l).
Proof.
  induction 1 as [|r l Hs IH Hall]; simpl; constructor; [|done].
  rewrite list_elem_of_In, in_map_iff. intros (r' & Heq & Hin).
  rewrite List.Forall_forall in Hall. specialize (Hall _ Hin). lia.
Qed.

(** What cleaning makes of the timed rows of the table. *)
Lemma clean_timed_rows df metric :
  clean df metric = drop_duplicates (sort_values (timed_rows df metric)).
Proof. reflexivity. Qed.

(** The sorted table has the rows of the table. *)
Lemma sort_values_In (r : Z * cell) rows : In r (sort_values rows) <-> In r rows.
Proof.
  split; apply Permutation_in;
    [apply sort_values_perm | symmetry; apply sort_values_perm].
Qed.

(** A row is kept exactly when it is the first row of its timestamp in the
    sorted table. *)
Lemma clean_row_sorted df metric t v :
  In (t, v) (clean df metric) <->
  first_at t (sort_values (timed_rows df metric)) = Some (t, v).
Proof.
  rewrite clean_timed_rows. unfold drop_duplicates.
  rewrite drop_duplicates_from_In.
  split; [by intros [_ ?] | intros ?; split; [apply not_elem_of_empty | done]].
Qed.

Lemma clean_sorted df metric :
  StronglySorted (fun a b => fst a < fst b) (clean df metric).
Proof.
  rewrite clean_timed_rows. apply drop_duplicates_from_sorted, sort_values_sorted.
Qed.

Lemma clean_row_In df metric t v :
  In (t, v) (clean df metric) -> In (t, v) (timed_rows df metric).
Proof.
  intros [Hin _]%clean_row_sorted%first_at_Some_In. by apply sort_values_In.
Qed.

(** C3, as the code has it.  After cleaning, the timestamps are strictly
    increasing, so each occurs once; they are the timestamps of the table;
    the row kept for a timestamp is a row of the table with that
    timestamp: the first of them in the sorted table ([drop_duplicates]
    keeps the first), whichever the sort has put there; and when the sort
    leaves the rows of equal timestamp in table order, it is the first of
    them in the table. *)
Theorem clean_keeps_first (df : DataFrame) (metric : string) :
  StronglySorted (fun a b => fst a < fst b) (clean df metric)
  /\ NoDup (map fst (clean df metric))
  /\ (forall t, In t (map fst (clean df metric)) <->
                In t (map fst (timed_rows df metric)))
  /\ (forall t v, In (t, v) (clean df metric) -> In (t, v) (timed_rows df metric))
  /\ (forall t v, In (t, v) (clean df metric) <->
                  first_at t (sort_values (timed_rows df metric)) = Some (t, v))
  /\ ((forall t, first_at t (sort_values (timed_rows df metric))
                 = first_at t (timed_rows df metric)) ->
      forall t v, In (t, v) (clean df metric) <->
                  first_at t (timed_rows df metric) = Some (t, v)).
Proof.
  split; [apply clean_sorted|].
  split; [apply strictly_sorted_NoDup, clean_sorted|].
  split; [|split; [apply clean_row_In|split; [apply clean_row_sorted|]]].
  - intros t. split.
    + intros ([t' v] & Heq & Hin)%in_map_iff. simpl in Heq. subst t'.
      apply clean_row_In in Hin. apply in_map_iff. by exists (t, v).
    + intros ([t' v] & Heq & Hin)%in_map_iff. simpl in Heq. subst t'.
      apply sort_values_In in Hin.
      destruct (first_at_is_Some t (sort_values (timed_rows df metric)))
        as [v' Hf].
      { apply in_map_iff. by exists (t, v). }
      apply clean_row_sorted in Hf. apply in_map_iff. by exists (t, v').
  - intros Hstable t v. by rewrite clean_row_sorted, Hstable.
Qed.

End Cleaning.

Section CleaningOnSamples.
Import Pandas MlTrend Spec.
#[local] Existing Instance insertion_time_sort.

(** C3 as stated fails: of two rows with the same timestamp, cleaning keeps
    the first of the table, not the last. *)
Lemma clean_not_last_write_wins :
  clean Samples.same_time_twice "ops" = [(0, Num 1)]
  /\ last_at 0 (timed_rows Samples.same_time_twice "ops") = Some (0, Num 2)
  /\ ~ In (0, Num 2) (clean Samples.same_time_twice "ops").
Proof.
  split; [reflexivity|]. split; [reflexivity|].
  intros Hin. assert (H : clean Samples.same_time_twice "ops" = [(0, Num 1)])
    by reflexivity.
  rewrite H in Hin. destruct Hin as [Heq|[]]. discriminate.
Qed.

End CleaningOnSamples.

(* ===================================================================== *)
(** * Resampling and forward-fill                                         *)
(* ===================================================================== *)

Section Resampling.
Import Pandas MlTrend Spec.

(** The model at work: the last value of the first minute, carried into the
    empty second minute. *)
Example resample_gappy :
  resample_last 60000000000 Samples.gappy
  = [ (Samples.new_year, Some 2%Q);
      (Samples.new_year + 60000000000, None);
      (Samples.new_year + 120000000000, Some 3%Q) ]
  /\ resample_ffill 60000000000 Samples.gappy
     = [ (Samples.new_year, Some 2%Q);
         (Samples.new_year + 60000000000, Some 2%Q);
         (Samples.new_year + 120000000000, Some 3%Q) ].
Proof. split; reflexivity. Qed.

Lemma last_valid_one p : last_valid [p] = snd p.
Proof. unfold last_valid. simpl. by destruct (snd p). Qed.

Lemma one_per_bucket_lower e step s :
  0 < step -> one_per_bucket e step s -> Forall (fun p => e <= fst p) s.
Proof.
  intros Hstep. revert e. induction s as [|p s IH]; intros e; simpl.
  - constructor.
  - intros [Hp Hs]. constructor; [lia|].
    eapply List.Forall_impl; [|apply (IH _ Hs)]. simpl. intros. lia.
Qed.

Lemma filter_none {A} (f : A -> bool) (l : list A) :
  Forall (fun x => f x = false) l -> List.filter f l = [].
Proof. induction 1 as [|x l Hx _ IH]; simpl; [done|]. by rewrite Hx. Qed.

(** The heart of the matter: where every bucket holds one sample, the
    buckets are the samples, stamped with the bucket edges. *)
Lemma buckets_one_per_bucket step tail : forall pre e,
  0 < step ->
  Forall (fun p => fst p < e) pre ->
  one_per_bucket e step tail ->
  buckets (pre ++ tail) step e (length tail) = relabel e step tail.
Proof.
  induction tail as [|p tail IH]; intros pre e Hstep Hpre Htail; simpl; [done|].
  destruct Htail as [Hp Htail].
  assert (Hfilter : List.filter (in_bucket e step) (pre ++ p :: tail) = [p]).
  { rewrite List.filter_app. simpl.
    rewrite (filter_none _ pre), (filter_none _ tail); simpl.
    - unfold in_bucket.
      destruct (Z.leb_spec e (fst p)), (Z.ltb_spec (fst p) (e + step)); simpl;
        try done; lia.
    - eapply List.Forall_impl;
        [|apply (one_per_bucket_lower _ _ _ Hstep Htail)].
      simpl. intros x Hx. unfold in_bucket.
      destruct (Z.ltb_spec (fst x) (e + step)); [lia|]. apply andb_false_r.
    - eapply List.Forall_impl; [|exact Hpre].
      simpl. intros x Hx. unfold in_bucket.
      destruct (Z.leb_spec e (fst x)); [lia | done]. }
  rewrite Hfilter, last_valid_one. f_equal.
  replace (pre ++ p :: tail) with ((pre ++ [p]) ++ tail)
    by (by rewrite <- app_assoc).
  apply IH; [done| |done].
  apply Forall_app. split.
  - eapply List.Forall_impl; [|exact Hpre]. simpl. intros. lia.
  - constructor; [lia | constructor].
Qed.

Lemma on_grid_one_per_bucket e step s :
  0 < step -> on_grid e step s -> one_per_bucket e step s.
Proof.
  intros Hstep. revert e. induction s as [|p s IH]; intros e; simpl; [done|].
  intros [-> Hs]. split; [lia | by apply IH].
Qed.

Lemma on_grid_relabel e step s : on_grid e step s -> relabel e step s = s.
Proof.
  revert e. induction s as [|[t v] s IH]; intros e; simpl; [done|].
  intros [-> Hs]. by rewrite IH.
Qed.

Lemma buckets_on_grid s step e n : on_grid e step (buckets s step e n).
Proof. revert e. induction n as [|n IH]; intros e; simpl; [done|]. by split. Qed.

Lemma buckets_length s step e n : length (buckets s step e n) = n.
Proof. revert e. induction n as [|n IH]; intros e; simpl; [done|]. by rewrite IH. Qed.

Lemma ffill_from_on_grid e step c s :
  on_grid e step s -> on_grid e step (ffill_from c s).
Proof.
  revert e c. induction s as [|[t v] s IH]; intros e c; simpl; [done|].
  intros [-> Hs]. split; [done | by apply IH].
Qed.

Lemma ffill_from_length c s : length (ffill_from c s) = length s.
Proof.
  revert c. induction s as [|[t v] s IH]; intros c; simpl; [done|].
  by rewrite IH.
Qed.

Lemma ffill_from_idem c s : ffill_from c (ffill_from c s) = ffill_from c s.
Proof.
  revert c. induction s as [|[t v] s IH]; intros c; simpl; [done|].
  destruct v as [q|]; simpl.
  - by rewrite IH.
  - destruct c as [q|]; simpl; by rewrite IH.
Qed.

(** *** Arithmetic of the grid *)

Lemma div_sandwich a b q : 0 < b -> q * b <= a < q * b + b -> a / b = q.
Proof.
  intros Hb Ha. symmetry. apply (Z.div_unique_pos a b q (a - q * b)); lia.
Qed.

Lemma floor_to_spec origin step t :
  0 < step ->
  floor_to origin step t <= t < floor_to origin step t + step.
Proof.
  intros Hstep. unfold floor_to.
  pose proof (Z.mul_div_le (t - origin) step Hstep).
  pose proof (Z.mul_succ_div_gt (t - origin) step Hstep). lia.
Qed.

(** Every time of the [k]-th bucket after [lo] is floored to its edge. *)
Lemma floor_to_bucket origin step m k x :
  0 < step ->
  let lo := floor_to origin step m in
  lo + k * step <= x < lo + (k + 1) * step ->
  floor_to origin step x = lo + k * step.
Proof.
  intros Hstep lo Hx. subst lo. unfold floor_to in *.
  set (q := (m - origin) / step) in *.
  rewrite (div_sandwich (x - origin) step (q + k)); lia.
Qed.

Lemma normalize_spec t : normalize t <= t < normalize t + NS_PER_DAY.
Proof.
  unfold normalize. assert (Hd : 0 < NS_PER_DAY) by reflexivity.
  pose proof (Z.mul_div_le t NS_PER_DAY Hd).
  pose proof (Z.mul_succ_div_gt t NS_PER_DAY Hd). lia.
Qed.

(** A bucket edge lies on the day of the sample it was computed from. *)
Lemma normalize_floor_to step m :
  0 < step ->
  normalize (floor_to (normalize m) step m) = normalize m.
Proof.
  intros Hstep.
  pose proof (floor_to_spec (normalize m) step m Hstep) as Hlo.
  pose proof (normalize_spec m) as Hm.
  assert (Hge : normalize m <= floor_to (normalize m) step m).
  { unfold floor_to.
    assert (0 <= (m - normalize m) / step) by (apply Z.div_pos; lia). nia. }
  assert (Hd : 0 < NS_PER_DAY) by reflexivity.
  set (x := floor_to (normalize m) step m) in *.
  unfold normalize in *.
  rewrite (div_sandwich x NS_PER_DAY (m / NS_PER_DAY)); [done | done | lia].
Qed.

(** A bucket edge is its own bucket edge. *)
Lemma floor_to_idem step m :
  0 < step ->
  let lo := floor_to (normalize m) step m in
  floor_to (normalize lo) step lo = lo.
Proof.
  intros Hstep lo. subst lo. rewrite normalize_floor_to by done.
  rewrite (floor_to_bucket (normalize m) step m 0); lia.
Qed.

Lemma fold_min_lower b l : Forall (fun x => b <= x) l -> fold_right Z.min b l = b.
Proof. induction 1 as [|x l Hx _ IH]; simpl; [done|]. rewrite IH. lia. Qed.

Lemma fold_max_bucket step rest : forall e b,
  0 < step -> b < e ->
  one_per_bucket e step rest ->
  let m := fold_right Z.max b (map fst rest) in
  match rest with
  | [] => m = b
  | _ :: _ => e + (Z.of_nat (length rest) - 1) * step <= m
              < e + Z.of_nat (length rest) * step
  end.
Proof.
  induction rest as [|p rest IH]; intros e b Hstep Hb Hs; [done|].
  destruct Hs as [Hp Hs].
  assert (Hb' : b < e + step) by lia.
  specialize (IH (e + step) b Hstep Hb' Hs). simpl in IH.
  cbn [map fold_right length].
  destruct rest as [|p' rest].
  - simpl in *. lia.
  - set (m' := fold_right Z.max b (map fst (p' :: rest))) in *.
    rewrite Nat2Z.inj_succ. lia.
Qed.

(** What [resample(...).last()] makes of a series with one sample per
    bucket: the same values, stamped with the bucket edges. *)
Lemma resample_last_one_per_bucket step p rest :
  0 < step ->
  let lo := floor_to (normalize (fst p)) step (fst p) in
  one_per_bucket lo step (p :: rest) ->
  resample_last step (p :: rest) = relabel lo step (p :: rest).
Proof.
  intros Hstep lo [Hp Hrest]. unfold resample_last.
  assert (Hmin : index_min (fst p) rest = fst p).
  { unfold index_min. apply fold_min_lower.
    apply Forall_map. simpl.
    eapply List.Forall_impl;
      [|apply (one_per_bucket_lower _ _ _ Hstep Hrest)].
    simpl. intros. lia. }
  rewrite Hmin. fold lo.
  assert (Hmax : lo + Z.of_nat (length rest) * step
                 <= index_max (fst p) rest
                 < lo + (Z.of_nat (length rest) + 1) * step).
  { unfold index_max.
    assert (Hb : fst p < lo + step) by lia.
    pose proof (fold_max_bucket step rest (lo + step) (fst p) Hstep Hb Hrest) as Hm.
    destruct rest as [|p' rest]; [simpl in *; lia|].
    cbv zeta in Hm. lia. }
  rewrite (floor_to_bucket (normalize (fst p)) step (fst p)
             (Z.of_nat (length rest)) _ Hstep Hmax).
  fold lo.
  replace (lo + Z.of_nat (length rest) * step - lo)
    with (Z.of_nat (length rest) * step) by lia.
  rewrite Z.div_mul by lia. rewrite Nat2Z.id.
  apply (buckets_one_per_bucket step (p :: rest) [] lo Hstep); [constructor|].
  by split.
Qed.

(** A series on the grid, with a first edge that is a bucket edge, is what
    resampling returns. *)
Lemma resample_last_on_grid step s e :
  0 < step ->
  floor_to (normalize e) step e = e ->
  on_grid e step s ->
  resample_last step s = s.
Proof.
  intros Hstep He Hs. destruct s as [|p rest]; [done|].
  pose proof Hs as [Hp _]. rewrite <- Hp in He.
  rewrite resample_last_one_per_bucket; [|done|].
  - rewrite He, Hp. by apply on_grid_relabel.
  - rewrite He, Hp. by apply on_grid_one_per_bucket.
Qed.

(** The series that resampling returns is on the grid, from a bucket edge
    on. *)
Lemma resample_last_grid step s :
  0 < step ->
  exists e, floor_to (normalize e) step e = e
            /\ on_grid e step (resample_last step s).
Proof.
  intros Hstep. destruct s as [|p rest].
  - exists 0. split; [|done].
    unfold floor_to, normalize. by rewrite !Zdiv_0_l.
  - unfold resample_last. eexists. split; [|apply buckets_on_grid].
    by apply floor_to_idem.
Qed.

(** C4.  Resampling with the last value of each bucket and forward-fill,
    applied to a series that already is the result of that step at the
    same interval, returns the series unchanged: the same timestamps and
    the same values. *)
Theorem resample_ffill_idempotent (step : positive) (s : TimeSeries) :
  resample_ffill (Z.pos step) (resample_ffill (Z.pos step) s)
  = resample_ffill (Z.pos step) s.
Proof.
  assert (Hstep : 0 < Z.pos step) by lia.
  destruct (resample_last_grid (Z.pos step) s Hstep) as (e & He & Hgrid).
  unfold resample_ffill at 1.
  rewrite (resample_last_on_grid (Z.pos step) _ e Hstep He).
  - unfold resample_ffill, ffill. apply ffill_from_idem.
  - unfold resample_ffill, ffill. by apply ffill_from_on_grid.
Qed.

End Resampling.

(* ===================================================================== *)
(** * Binary64: whole numbers and their quotients                         *)
(* ===================================================================== *)

Section Binary64.
Import Float64.

Lemma inject_Z_succ z : (inject_Z (z + 1) == inject_Z z + 1)%Q.
Proof. by rewrite inject_Z_plus. Qed.

Lemma inject_Z_pred z : (inject_Z (z - 1) == inject_Z z - 1)%Q.
Proof.
  unfold Z.sub. rewrite inject_Z_plus, inject_Z_opp. reflexivity.
Qed.

Lemma round_half_even_floor y :
  Qfloor y <= round_half_even y <= Qfloor y + 1.
Proof.
  unfold round_half_even.
  destruct (y - inject_Z (Qfloor y) ?= 1 # 2)%Q; [destruct (Z.even _)| |]; lia.
Qed.

Lemma round_half_even_comp y y' : (y == y')%Q -> round_half_even y = round_half_even y'.
Proof.
  intros H. unfold round_half_even. rewrite (Qfloor_comp _ _ H).
  assert (E : (y - inject_Z (Qfloor y') ?= 1 # 2)%Q = (y' - inject_Z (Qfloor y') ?= 1 # 2)%Q).
  { apply Qcompare_comp; [|reflexivity]. rewrite H. reflexivity. }
  by rewrite E.
Qed.

Lemma round_half_even_Z z : round_half_even (inject_Z z) = z.
Proof.
  unfold round_half_even. rewrite Qfloor_Z.
  assert (E : (inject_Z z - inject_Z z ?= 1 # 2)%Q = Lt).
  { apply (proj1 (Qlt_alt _ _)). generalize (inject_Z z). intros x.
    assert (H : (x - x == 0)%Q) by ring. by rewrite H. }
  by rewrite E.
Qed.

Lemma round_half_even_lower (z : Z) y :
  (inject_Z z <= y)%Q -> z <= round_half_even y.
Proof.
  intros H. pose proof (round_half_even_floor y).
  assert (z <= Qfloor y); [|lia].
  rewrite <- (Qfloor_Z z). by apply Qfloor_resp_le.
Qed.

Lemma round_half_even_upper (z : Z) y :
  (y <= inject_Z z)%Q -> round_half_even y <= z.
Proof.
  intros H. pose proof (round_half_even_floor y) as Hf.
  assert (Hle : Qfloor y <= z).
  { rewrite <- (Qfloor_Z z). by apply Qfloor_resp_le. }
  destruct (Z.eq_dec (Qfloor y) z) as [E|E]; [|lia].
  assert (Hy : (y == inject_Z z)%Q).
  { apply Qle_antisym; [done|]. rewrite <- E. apply Qfloor_le. }
  rewrite (round_half_even_comp _ _ Hy), round_half_even_Z. lia.
Qed.

(** Below the midpoint under a whole number, rounding stays under it. *)
Lemma round_half_even_below (z : Z) y :
  (y < inject_Z z - (1 # 2))%Q -> round_half_even y < z.
Proof.
  intros H. pose proof (round_half_even_floor y) as Hf.
  assert (Hle : Qfloor y <= z).
  { rewrite <- (Qfloor_Z z). apply Qfloor_resp_le. lra. }
  destruct (Z.eq_dec (Qfloor y) z) as [E|E].
  { pose proof (Qfloor_le y) as Hy. rewrite E in Hy. lra. }
  destruct (Z.eq_dec (Qfloor y) (z - 1)) as [E'|E']; [|lia].
  unfold round_half_even.
  assert (Hlt : (y - inject_Z (Qfloor y) ?= 1 # 2)%Q = Lt).
  { apply (proj1 (Qlt_alt _ _)). rewrite E', inject_Z_pred. lra. }
  rewrite Hlt. lia.
Qed.

Lemma pow2_pos (e : Z) : 0 <= e -> 0 < 2 ^ e.
Proof. intros. apply Z.pow_pos_nonneg; lia. Qed.

Lemma inject_Z_pos (z : Z) : 0 < z -> (0 < inject_Z z)%Q.
Proof. intros H. change 0%Q with (inject_Z 0). by rewrite <- Zlt_Qlt. Qed.

(** The nearest binary64 of a positive rational below 2^53, on the grid of
    its binade: a grid of step 1/P for a whole P, fine enough that 2^52
    steps do not exceed the number (or the finest there is). *)
Lemma nearest_pos_grid (q : Q) :
  (0 < q)%Q -> (q < inject_Z (2 ^ 53))%Q ->
  exists P : Z,
    0 < P
    /\ (nearest_pos q == inject_Z (round_half_even (q * inject_Z P)) / inject_Z P)%Q
    /\ ((inject_Z (2 ^ 52) <= q * inject_Z P)%Q \/ P = TINY_INV).
Proof.
  intros Hq Hlt. unfold nearest_pos.
  set (n := (q * inject_Z TINY_INV)%Q).
  assert (HT : (0 < inject_Z TINY_INV)%Q) by done.
  assert (Hn : (0 < n)%Q) by (subst n; nra).
  destruct (Z.le_gt_cases (Z.log2 (Qfloor n) - 52) 0) as [Hsmall|Hbig].
  - exists TINY_INV. rewrite Z.max_r by done. change (2 ^ 0) with 1.
    split; [done|]. split; [|by right].
    rewrite Z.mul_1_r. fold n.
    assert (E : (n / inject_Z 1 == n)%Q) by (change (inject_Z 1) with 1%Q; field).
    by rewrite (round_half_even_comp _ _ E).
  - rewrite Z.max_l by lia.
    assert (HF : 0 < Qfloor n).
    { destruct (Z.le_gt_cases (Qfloor n) 0) as [H|H]; [|done].
      rewrite (Z.log2_nonpos _ H) in Hbig. lia. }
    set (L := Z.log2 (Qfloor n)) in *. set (e := L - 52).
    destruct (Z.log2_spec _ HF) as [Hlo Hhi]. fold L in Hlo, Hhi.
    assert (HnT : (n < inject_Z (2 ^ 53 * TINY_INV))%Q).
    { subst n. rewrite inject_Z_mult. nra. }
    assert (HL : L < 53 + 1074).
    { apply (Z.pow_lt_mono_r_iff 2); [lia | lia |].
      apply Z.le_lt_trans with (Qfloor n); [done|].
      rewrite Zlt_Qlt. eapply Qle_lt_trans; [apply Qfloor_le|].
      change (2 ^ (53 + 1074)) with (2 ^ 53 * TINY_INV). done. }
    set (P := 2 ^ (1074 - e)).
    assert (HP : 0 < P) by (apply pow2_pos; lia).
    assert (He : 0 < 2 ^ e) by (apply pow2_pos; lia).
    assert (HTe : TINY_INV = 2 ^ e * P).
    { subst P. rewrite <- Z.pow_add_r by lia. unfold TINY_INV. f_equal. lia. }
    exists P. split; [done|].
    pose proof (inject_Z_pos _ HP) as HP'. pose proof (inject_Z_pos _ He) as He'.
    assert (E : (n / inject_Z (2 ^ e) == q * inject_Z P)%Q).
    { subst n. rewrite HTe, inject_Z_mult. field. lra. }
    rewrite (round_half_even_comp _ _ E). split.
    + rewrite HTe, !inject_Z_mult. field. split; lra.
    + left. rewrite <- E.
      apply Qle_shift_div_l; [done|]. rewrite <- inject_Z_mult.
      eapply Qle_trans; [|apply Qfloor_le]. rewrite <- Zle_Qle.
      replace (2 ^ 52 * 2 ^ e) with (2 ^ L); [done|].
      rewrite <- Z.pow_add_r by lia. f_equal. lia.
Qed.

(** [RN] on a quotient is the division of the Standard Library's
    specification of IEEE 754, here on the quotients of numbers up to 12
    and on the seconds of an hour, of three hours and of a day over 2.7,
    0.1, 420 and 0.3 seconds. *)
Example RN_is_the_division_of_IEEE_754 :
  forallb (fun a =>
    forallb (fun b =>
      Qeq_bool (RN (inject_Z (Z.of_nat a) / inject_Z (Z.of_nat b)))
               (spec_div (Z.of_nat a) (Z.of_nat b)))
      (seq 1 12)) (seq 0 13) = true
  /\ RN (inject_Z 10800 / RN (27 # 10))
     = of_spec (SpecFloat.SFdiv 53 1024
                  (SpecFloat.binary_normalize 53 1024 10800 0 false)
                  (SpecFloat.SFdiv 53 1024
                     (SpecFloat.binary_normalize 53 1024 27 0 false)
                     (SpecFloat.binary_normalize 53 1024 10 0 false)))
  /\ forallb (fun ab => Qeq_bool (RN (inject_Z (fst ab) / inject_Z (snd ab)))
                                 (spec_div (fst ab) (snd ab)))
       [(3600, 420); (86400, 7); (1, 10); (3, 10); (2 ^ 53 - 1, 3);
        (1, 2 ^ 53 - 1); (2 ^ 60, 3); (10 ^ 30, 7); (-10800, 27)] = true.
Proof. split; [|split]; vm_compute; reflexivity. Qed.

(** Above 2^53 only every other whole number is a binary64, and a tie goes
    to the even significand; the largest binary64 is 2^1024 - 2^971, and
    what rounds beyond it is an infinity. *)
Example RN_ties_and_overflow :
  RN (inject_Z (2 ^ 53 + 1)) = inject_Z (2 ^ 53)
  /\ RN (inject_Z (2 ^ 53 + 3)) = inject_Z (2 ^ 53 + 4)
  /\ RN (1 # 2 ^ 1075) = 0%Q
  /\ finite (RN (inject_Z (2 ^ 1024 - 2 ^ 970 - 1))) = true
  /\ finite (RN (inject_Z (2 ^ 1024 - 2 ^ 970))) = false.
Proof. repeat (split; [vm_compute; reflexivity|]). vm_compute. reflexivity. Qed.

Lemma RN_comp q q' : (q == q')%Q -> RN q = RN q'.
Proof. intros H. unfold RN. by rewrite (Qred_complete _ _ H). Qed.

Lemma RN_pos q : (0 < q)%Q -> (RN q == nearest_pos (Qred q))%Q.
Proof.
  intros H. unfold RN.
  assert (E : (Qred q ?= 0)%Q = Gt).
  { apply (proj1 (Qgt_alt _ _)). by rewrite Qred_correct. }
  rewrite E. apply Qred_correct.
Qed.

Lemma RN_neg q : (q < 0)%Q -> (RN q == - nearest_pos (- Qred q))%Q.
Proof.
  intros H. unfold RN.
  assert (E : (Qred q ?= 0)%Q = Lt).
  { apply (proj1 (Qlt_alt _ _)). by rewrite Qred_correct. }
  rewrite E. apply Qred_correct.
Qed.

Lemma RN_zero q : (q == 0)%Q -> RN q = 0%Q.
Proof.
  intros H. unfold RN.
  assert (E : (Qred q ?= 0)%Q = Eq).
  { apply (proj1 (Qeq_alt _ _)). by rewrite Qred_correct. }
  by rewrite E.
Qed.

Lemma RN_reduced q : Qred (RN q) = RN q.
Proof.
  unfold RN. destruct (Qred q ?= 0)%Q; [done| |];
    apply Qred_complete, Qred_correct.
Qed.

Lemma nearest_pos_nonneg q : (0 <= q)%Q -> (0 <= nearest_pos q)%Q.
Proof.
  intros Hq. unfold nearest_pos.
  set (u := 2 ^ _). assert (Hu : 0 < u) by (apply pow2_pos; lia).
  pose proof (inject_Z_pos _ Hu) as Hu'.
  apply Qle_shift_div_l; [done|]. rewrite Qmult_0_l.
  change 0%Q with (inject_Z 0). rewrite <- Zle_Qle.
  apply Z.mul_nonneg_nonneg; [|lia].
  apply round_half_even_lower. change (inject_Z 0) with 0%Q.
  apply Qle_shift_div_l; [done|].
  assert (0 < inject_Z TINY_INV)%Q by done. nra.
Qed.

(** Rounding keeps the sign. *)
Lemma RN_sign q :
  ((0 <= q)%Q -> (0 <= RN q)%Q) /\ ((q <= 0)%Q -> (RN q <= 0)%Q).
Proof.
  destruct (Q_dec q 0) as [[Hlt|Hgt]|Heq].
  - split; [lra|]. intros _. rewrite (RN_neg _ Hlt).
    assert (0 <= nearest_pos (- Qred q))%Q; [|lra].
    apply nearest_pos_nonneg. rewrite Qred_correct. lra.
  - split; [|lra]. intros _. rewrite (RN_pos _ Hgt).
    apply nearest_pos_nonneg. rewrite Qred_correct. lra.
  - rewrite (RN_zero _ Heq). split; intros _; lra.
Qed.

(** A whole number below 2^53 is a binary64. *)
Lemma RN_Z (z : Z) : 0 <= z < 2 ^ 53 -> RN (inject_Z z) = inject_Z z.
Proof.
  intros Hz.
  assert (Hred : Qred (inject_Z z) = inject_Z z).
  { apply Qcanon.Qred_identity. simpl. apply Z.gcd_1_r. }
  rewrite <- Hred at 2. rewrite <- RN_reduced. apply Qred_complete.
  destruct (Z.eq_dec z 0) as [->|Hne]; [by rewrite RN_zero|].
  assert (Hpos : (0 < inject_Z z)%Q) by (apply inject_Z_pos; lia).
  rewrite (RN_pos _ Hpos), Hred.
  destruct (nearest_pos_grid (inject_Z z) Hpos) as (P & HP & -> & _).
  { rewrite <- Zlt_Qlt. lia. }
  pose proof (inject_Z_pos _ HP).
  rewrite <- inject_Z_mult, round_half_even_Z, inject_Z_mult. field. lra.
Qed.

(** The quotient of two whole numbers below 2^53, rounded to binary64,
    has the whole part of the exact quotient. *)
Lemma RN_quotient_floor (A k : Z) :
  0 <= A < 2 ^ 53 -> 0 < k < 2 ^ 53 ->
  (0 <= RN (inject_Z A / inject_Z k))%Q
  /\ Qfloor (RN (inject_Z A / inject_Z k)) = A / k.
Proof.
  intros HA Hk. pose proof (inject_Z_pos _ (proj1 Hk)) as Hk'.
  split.
  { apply RN_sign. apply Qle_shift_div_l; [done|]. rewrite Qmult_0_l.
    change 0%Q with (inject_Z 0). rewrite <- Zle_Qle. lia. }
  destruct (Z.eq_dec A 0) as [->|Hne].
  { rewrite RN_zero; [done | by field; lra]. }
  set (q := (inject_Z A / inject_Z k)%Q).
  assert (HA' : (0 < inject_Z A)%Q) by (apply inject_Z_pos; lia).
  assert (Hq : (0 < q)%Q).
  { apply Qlt_shift_div_l; [done|]. by rewrite Qmult_0_l. }
  assert (Hqk : (q * inject_Z k == inject_Z A)%Q) by (subst q; field; lra).
  assert (Hq53 : (q < inject_Z (2 ^ 53))%Q).
  { apply Qlt_shift_div_r; [done|].
    apply Qlt_le_trans with (inject_Z (2 ^ 53)); [rewrite <- Zlt_Qlt; lia|].
    rewrite <- inject_Z_mult, <- Zle_Qle. nia. }
  set (n := A / k).
  assert (Hn : n = Qfloor q) by (subst n q; apply Zdiv_Qdiv).
  assert (Hlo : (inject_Z n <= q)%Q) by (rewrite Hn; apply Qfloor_le).
  assert (Hhi : (q <= inject_Z (n + 1) - 1 / inject_Z k)%Q).
  { assert (Hd : (inject_Z (n + 1) - 1 / inject_Z k
                  == (inject_Z ((n + 1) * k - 1)) / inject_Z k)%Q).
    { rewrite inject_Z_pred, inject_Z_mult. field. lra. }
    rewrite Hd. subst q. unfold Qdiv. apply Qmult_le_compat_r.
    - rewrite <- Zle_Qle. subst n.
      pose proof (Z.mul_succ_div_gt A k (proj1 Hk)). lia.
    - by apply Qlt_le_weak, Qinv_lt_0_compat. }
  rewrite (RN_pos _ Hq).
  assert (Hr : (Qred q == q)%Q) by apply Qred_correct.
  destruct (nearest_pos_grid (Qred q)) as (P & HP & -> & Hfine).
  { by rewrite Hr. } { by rewrite Hr. }
  pose proof (inject_Z_pos _ HP) as HP'.
  assert (HkP : k < 2 * P).
  { destruct Hfine as [H52| ->]; [|unfold TINY_INV; lia].
    rewrite Hr in H52.
    assert (H : (inject_Z (2 ^ 52 * k) <= inject_Z (A * P))%Q).
    { rewrite !inject_Z_mult, <- Hqk. nra. }
    rewrite <- Zle_Qle in H. nia. }
  assert (E : (Qred q * inject_Z P == q * inject_Z P)%Q) by (by rewrite Hr).
  rewrite (round_half_even_comp _ _ E).
  set (m := round_half_even (q * inject_Z P)).
  assert (Hm1 : n * P <= m).
  { apply round_half_even_lower. rewrite inject_Z_mult. nra. }
  assert (Hm2 : m < (n + 1) * P).
  { apply round_half_even_below. rewrite inject_Z_mult.
    assert (Hgap : (1 # 2 < inject_Z P / inject_Z k)%Q).
    { apply Qlt_shift_div_l; [done|].
      assert (H : (inject_Z k < inject_Z (2 * P))%Q) by (by rewrite <- Zlt_Qlt).
      rewrite inject_Z_mult in H. change (inject_Z 2) with 2%Q in H. lra. }
    assert (Hmul : (q * inject_Z P <= (inject_Z (n + 1) - 1 / inject_Z k) * inject_Z P)%Q)
      by (apply Qmult_le_compat_r; [done | lra]).
    assert (Hexp : ((inject_Z (n + 1) - 1 / inject_Z k) * inject_Z P
                    == inject_Z (n + 1) * inject_Z P - inject_Z P / inject_Z k)%Q)
      by (field; lra).
    lra. }
  rewrite <- Zdiv_Qdiv. symmetry.
  apply (Z.div_unique_pos m P n (m - n * P)); lia.
Qed.

End Binary64.

(* ===================================================================== *)
(** * The trend script as a whole                                         *)
(* ===================================================================== *)

Section TrendRun.
Import Pandas MlTrend Spec.
Context {sort : TimeSort}.

(** What a run that wrote its forecast went through. *)
Lemma main_Ok a loaded run :
  main a loaded = Ok run ->
  exists df step n t0 v0 rest y,
    loaded = Ok df
    /\ in_columns "Time" df = true
    /\ in_columns (metric a) df = true
    /\ interval a = Some step
    /\ resample_ffill (Z.pos step) (numeric_series (clean df (metric a)))
       = (t0, v0) :: rest
    /\ (3 <= length ((t0, v0) :: rest))%nat
    /\ to_numpy ((t0, v0) :: rest) = Ok y
    /\ n_steps (horizon_hours a) (Z.pos step) = Ok n
    /\ run = report a (Z.pos step) n t0 v0 rest y.
Proof.
  unfold main. destruct loaded as [df|e]; [|done].
  destruct (in_columns "Time" df) eqn:Ht; [|done].
  destruct (in_columns (metric a) df) eqn:Hm; [|done]. cbn [negb].
  destruct (String.eqb (metric a) "Time"); [done|].
  destruct (numeric_series (clean df (metric a))) as [|p ps] eqn:Hs; [done|].
  destruct (interval a) as [step|]; [|done].
  destruct (Nat.ltb_spec (length (resample_ffill (Z.pos step) (p :: ps))) 3);
    [done|].
  destruct (resample_ffill (Z.pos step) (p :: ps)) as [|[t0 v0] rest] eqn:Hr;
    [done|].
  destruct (to_numpy ((t0, v0) :: rest)) as [y|e] eqn:Hy; [|done].
  destruct (n_steps (horizon_hours a) (Z.pos step)) as [n|e] eqn:Hn; [|done].
  unfold mbind, result_bind, bind. intros [= <-].
  exists df, step, n, t0, v0, rest, y. by rewrite Hs.
Qed.

Lemma map_const_repeat {A B} (b : B) (l : list A) :
  map (fun _ => b) l = repeat b (length l).
Proof. induction l as [|x l IH]; simpl; [done|]. by rewrite IH. Qed.

Lemma report_forecast a step n t0 v0 rest y :
  let run := report a step n t0 v0 rest y in
  observed_rows run =
    map (fun p => {| Time := fst p; value := snd p; type := observed |})
        ((t0, v0) :: rest)
  /\ length (predicted_rows run) = Z.to_nat n
  /\ map type (forecast run) =
       repeat observed (S (length rest)) ++ repeat predicted (Z.to_nat n).
Proof.
  unfold report, observed_rows, predicted_rows.
  destruct (fit _ y) as [sl ic]. cbn [forecast].
  set (s := (t0, v0) :: rest).
  set (fut := date_range _ _ _).
  set (yp := map _ fut).
  assert (Hlen : length (combine fut yp) = Z.to_nat n).
  { rewrite length_combine. subst yp. rewrite length_map, Nat.min_id.
    subst fut. unfold date_range. by rewrite length_map, length_seq. }
  rewrite !List.filter_app. split; [|split].
  - rewrite (filter_none _ (map _ (combine fut yp))).
    + rewrite app_nil_r. generalize s. intros l.
      induction l as [|x l IH]; simpl; [done|]. by rewrite IH.
    + apply Forall_map. by apply Forall_forall.
  - rewrite (filter_none _ (map _ s)).
    + simpl. rewrite <- Hlen. generalize (combine fut yp). intros l.
      induction l as [|x l IH]; simpl; [done|]. by rewrite IH.
    + apply Forall_map. by apply Forall_forall.
  - rewrite List.map_app, !List.map_map. simpl. rewrite <- Hlen.
    by rewrite !map_const_repeat.
Qed.

(** *** The number of forecast steps *)

(** The defaults, 24 hours in steps of five minutes; and a horizon that is
    shorter than a step, or negative. *)
Example n_steps_defaults :
  n_steps 24 300000000000 = Ok 288
  /\ n_steps 1 7200000000000 = Ok 1
  /\ n_steps (-3) 300000000000 = Ok 1.
Proof. split; [|split]; vm_compute; reflexivity. Qed.

(** Three hours in steps of 2.7 seconds are 4000 steps; the quotient of the
    floats 10800.0 and 2.7 is just below 4000, and line 67 makes 3999 of
    it.  An interval below a microsecond has 0.0 seconds, and line 67
    divides by zero.  A horizon too large for a float, or a quotient too
    large for one, is an overflow. *)
Example n_steps_fraction :
  n_steps 3 (Z.pos Samples.two_point_seven_seconds) = Ok 3999
  /\ Qfloor (inject_Z (3 * 3600)
             / interval_seconds (Z.pos Samples.two_point_seven_seconds))%Q = 4000
  /\ n_steps 24 500 = Raise ZeroDivisionError
  /\ n_steps (10 ^ 320) 1000000000 = Raise OverflowError
  /\ n_steps (10 ^ 305) 1000 = Raise OverflowError.
Proof. repeat (split; [vm_compute; reflexivity|]). vm_compute. reflexivity. Qed.

Lemma int_of_float_nonneg q : (0 <= q)%Q -> int_of_float q = Qfloor q.
Proof.
  destruct q as [n d]. unfold Qle. simpl. intros Hn.
  apply Z.quot_div_nonneg; lia.
Qed.

Lemma int_of_float_nonpos q : (q <= 0)%Q -> int_of_float q <= 0.
Proof.
  destruct q as [n d]. unfold Qle, int_of_float. simpl. intros Hn.
  rewrite Z.mul_1_r in Hn.
  assert (H : Z.quot n (Z.pos d) = - Z.quot (- n) (Z.pos d))
    by (rewrite Z.quot_opp_l; lia).
  assert (0 <= Z.quot (- n) (Z.pos d)) by (apply Z.quot_pos; lia).
  lia.
Qed.

Lemma finite_below (x : Q) (b : Z) :
  (0 <= x)%Q -> (x <= inject_Z b)%Q -> b < 2 ^ 1024 -> Float64.finite x = true.
Proof.
  intros H0 Hb Hlt. unfold Float64.finite.
  destruct (Qle_bool _ _) eqn:E; [|done].
  apply Qle_bool_iff in E. rewrite (Qabs_pos _ H0) in E.
  assert (H : (inject_Z (2 ^ 1024) <= inject_Z b)%Q) by (by apply Qle_trans with x).
  rewrite <- Zle_Qle in H. lia.
Qed.

(** An interval of a whole number of seconds has that number of seconds,
    exactly. *)
Lemma total_seconds_whole (k : Z) :
  0 <= k < 2 ^ 53 -> total_seconds (k * NS_PER_SECOND) = inject_Z k.
Proof.
  intros Hk. unfold total_seconds, NS_PER_SECOND.
  replace (k * 1000000000) with (k * 1000000 * 1000) by lia.
  rewrite (Z.div_mul (k * 1000000)), Z.div_mul, Z.mod_mul by lia.
  rewrite (RN_Z k Hk), (RN_zero (inject_Z 0 / 1000000)) by reflexivity.
  rewrite (RN_comp _ (inject_Z k)) by ring. by apply RN_Z.
Qed.

(** Line 67 at an interval of [k] seconds: the whole quotient, at least
    1.  The numbers are below 2^53, where every whole number is a float. *)
Lemma n_steps_whole_seconds (h k : Z) :
  0 <= h * 3600 < 2 ^ 53 -> 0 < k < 2 ^ 53 ->
  n_steps h (k * NS_PER_SECOND) = Ok (Z.max (h * 3600 / k) 1).
Proof.
  intros Hh Hk. unfold n_steps.
  rewrite (RN_Z _ Hh), total_seconds_whole by lia.
  assert (Hfin : Float64.finite (inject_Z (h * 3600)) = true).
  { apply (finite_below _ (2 ^ 53));
      [change 0%Q with (inject_Z 0)| |done]; rewrite <- Zle_Qle; lia. }
  rewrite Hfin. cbn [negb].
  destruct (Qeq_bool (inject_Z k) 0) eqn:E.
  { apply Qeq_bool_iff in E. unfold Qeq in E. simpl in E. lia. }
  destruct (RN_quotient_floor (h * 3600) k Hh Hk) as [H0 Hfl].
  set (q := Float64.RN (inject_Z (h * 3600) / inject_Z k)) in *.
  assert (Hq : (q <= inject_Z (2 ^ 53))%Q).
  { apply Qlt_le_weak. eapply Qlt_le_trans; [apply Qlt_floor|].
    rewrite Hfl, <- Zle_Qle.
    assert (h * 3600 / k <= h * 3600) by (apply Z.div_le_upper_bound; nia).
    lia. }
  rewrite (finite_below q (2 ^ 53) H0 Hq) by done.
  by rewrite (int_of_float_nonneg _ H0), Hfl.
Qed.

Lemma n_steps_at_least_1 (h step n : Z) : n_steps h step = Ok n -> 1 <= n.
Proof.
  unfold n_steps. destruct (negb _); [done|]. destruct (Qeq_bool _ _); [done|].
  destruct (Float64.finite (Float64.RN _)); [|done]. intros [= <-]. lia.
Qed.

(** A horizon of zero or less gives one step, whatever the interval. *)
Lemma n_steps_nonpos (h step n : Z) :
  h <= 0 -> 0 < step -> n_steps h step = Ok n -> n = 1.
Proof.
  intros Hh Hstep. unfold n_steps. destruct (negb _); [done|].
  destruct (Qeq_bool _ _) eqn:E; [done|].
  destruct (Float64.finite (Float64.RN _)); [|done]. intros [= <-].
  assert (Hden : (0 <= total_seconds step)%Q).
  { unfold total_seconds. apply RN_sign.
    assert (0 <= step / 1000) by (apply Z.div_pos; lia).
    assert (H1 : (0 <= Float64.RN (inject_Z (step / 1000 / 1000000)))%Q).
    { apply RN_sign. change 0%Q with (inject_Z 0). rewrite <- Zle_Qle.
      apply Z.div_pos; lia. }
    assert (H2 : (0 <= Float64.RN
                        (inject_Z ((step / 1000) mod 1000000) / 1000000))%Q).
    { apply RN_sign. apply Qle_shift_div_l; [done|]. rewrite Qmult_0_l.
      change 0%Q with (inject_Z 0). rewrite <- Zle_Qle.
      apply Z.mod_pos_bound. lia. }
    lra. }
  assert (Hden' : (0 < total_seconds step)%Q).
  { destruct (Qeq_dec (total_seconds step) 0) as [H0|H0].
    - apply Qeq_bool_iff in H0. congruence.
    - lra. }
  assert (Hnum : (Float64.RN (inject_Z (h * 3600)) <= 0)%Q).
  { apply RN_sign. change 0%Q with (inject_Z 0). rewrite <- Zle_Qle. lia. }
  assert (Hq : (Float64.RN (Float64.RN (inject_Z (h * 3600))
                            / total_seconds step) <= 0)%Q).
  { apply RN_sign. apply Qle_shift_div_r; [done|]. by rewrite Qmult_0_l. }
  pose proof (int_of_float_nonpos _ Hq). lia.
Qed.

Lemma steps_quotient (A k : Z) :
  0 < k ->
  (inject_Z A / interval_seconds (k * NS_PER_SECOND)
   == inject_Z A / inject_Z k)%Q.
Proof.
  intros Hk. unfold interval_seconds. rewrite inject_Z_mult.
  pose proof (inject_Z_pos _ Hk).
  change (inject_Z NS_PER_SECOND) with (1000000000 # 1)%Q. field. lra.
Qed.

Lemma steps_floor (A k : Z) :
  0 < k -> Qfloor (inject_Z A / interval_seconds (k * NS_PER_SECOND))%Q = A / k.
Proof. intros Hk. by rewrite steps_quotient, <- Zdiv_Qdiv. Qed.

(** C2, as the code has it.  The number of rows labelled predicted is what
    line 67 computes: the quotient of two floats, truncated by [int], and 1
    if that is less than 1.  For an interval of a whole number of seconds
    and a positive horizon it is the quotient horizon_hours * 3600 /
    interval_seconds rounded down, at least 1: it never exceeds the
    rounded-up quotient, and equals it when the horizon is a whole number
    of steps. *)
Theorem forecast_length (a : Args) (loaded : result DataFrame) (run : Run)
    (step : positive) :
  main a loaded = Ok run ->
  interval a = Some step ->
  let n := Z.of_nat (length (predicted_rows run)) in
  n_steps (horizon_hours a) (Z.pos step) = Ok n
  /\ 1 <= n
  /\ (forall k : Z,
        Z.pos step = k * NS_PER_SECOND -> k < 2 ^ 53 ->
        0 < horizon_hours a -> horizon_hours a * 3600 < 2 ^ 53 ->
        let q := (inject_Z (horizon_hours a * 3600)
                  / interval_seconds (Z.pos step))%Q in
        n = Z.max (Qfloor q) 1
        /\ Qfloor q = horizon_hours a * 3600 / k
        /\ n <= ceil_steps (horizon_hours a) (Z.pos step)
        /\ ((horizon_hours a * 3600) mod k = 0 ->
            n = ceil_steps (horizon_hours a) (Z.pos step))).
Proof.
  intros Hmain Hint n.
  apply main_Ok in Hmain
    as (df & step' & n' & t0 & v0 & rest & y
        & _ & _ & _ & Hint' & _ & _ & _ & Hn & ->).
  rewrite Hint in Hint'. injection Hint' as <-.
  destruct (report_forecast a (Z.pos step) n' t0 v0 rest y) as (_ & Hlen & _).
  pose proof (n_steps_at_least_1 _ _ _ Hn) as Hn1.
  assert (En : n = n') by (subst n; rewrite Hlen; lia).
  clearbody n. subst n'. clear Hlen.
  split; [done|]. split; [done|].
  intros k Hk Hk53 Hh Hh53 q.
  assert (Hk0 : 0 < k) by (unfold NS_PER_SECOND in Hk; lia).
  rewrite Hk in Hn. rewrite n_steps_whole_seconds in Hn by lia.
  injection Hn as Hn.
  assert (Hfl : Qfloor q = horizon_hours a * 3600 / k).
  { subst q. rewrite Hk. by apply steps_floor. }
  split; [by rewrite Hfl|]. split; [done|].
  unfold ceil_steps. fold q. split.
  - rewrite <- Hn, <- Hfl. apply Z.max_le_compat_r.
    rewrite Zle_Qle. apply Qle_floor_ceiling.
  - intros Hmod. rewrite <- Hn. f_equal.
    apply Z.div_exact in Hmod; [|lia].
    assert (Hq : (q == inject_Z (horizon_hours a * 3600 / k))%Q).
    { subst q. rewrite Hk, steps_quotient by done.
      rewrite Hmod at 1. rewrite inject_Z_mult.
      pose proof (inject_Z_pos _ Hk0). field. lra. }
    by rewrite Hq, Qceiling_Z.
Qed.

(** *** Threshold ETA *)

Lemma in_bounds_iff (ns : Q) : in_bounds ns = true <-> representable ns.
Proof.
  unfold in_bounds, representable.
  by rewrite andb_true_iff, !Qle_bool_iff.
Qed.

Lemma eta_timestamp_Ok t0 x :
  representable (x * inject_Z NS_PER_HOUR)%Q ->
  representable (inject_Z t0 + x * inject_Z NS_PER_HOUR)%Q ->
  eta_timestamp t0 x = Ok (inject_Z t0 + x * inject_Z NS_PER_HOUR)%Q.
Proof.
  intros H1%in_bounds_iff H2%in_bounds_iff.
  unfold eta_timestamp, to_timedelta_hours. rewrite H1. simpl. by rewrite H2.
Qed.

Lemma eta_timestamp_Raise t0 x :
  ~ (representable (x * inject_Z NS_PER_HOUR)%Q
     /\ representable (inject_Z t0 + x * inject_Z NS_PER_HOUR)%Q) ->
  exists e, eta_timestamp t0 x = Raise e.
Proof.
  intros H. unfold eta_timestamp, to_timedelta_hours.
  destruct (in_bounds (x * _)) eqn:E1; [|by eexists]. simpl.
  destruct (in_bounds (_ + _)) eqn:E2; [|by eexists].
  apply in_bounds_iff in E1, E2. by destruct H.
Qed.

Lemma eta_unreachable thr sl ic t0 t_last :
  (sl == 0)%Q -> eta thr sl ic t0 t_last = Ok Unreachable.
Proof. unfold eta. intros H%Qeq_bool_iff. by rewrite H. Qed.

Lemma eta_crossing thr sl ic t0 t_last :
  ~ (sl == 0)%Q ->
  let delta := ((thr - ic) / sl * inject_Z NS_PER_HOUR)%Q in
  let eta_ts := (inject_Z t0 + delta)%Q in
  representable delta -> representable eta_ts ->
  (eta_ts <= inject_Z t_last ->
   eta thr sl ic t0 t_last = Ok (AlreadyReached eta_ts))%Q
  /\ (inject_Z t_last < eta_ts ->
      eta thr sl ic t0 t_last = Ok (Projected eta_ts))%Q.
Proof.
  intros Hsl delta eta_ts Hd Hts. unfold eta.
  destruct (Qeq_bool sl 0) eqn:E; [by apply Qeq_bool_iff in E|].
  rewrite (eta_timestamp_Ok _ _ Hd Hts). simpl. fold delta. fold eta_ts.
  split.
  - intros H%Qle_bool_iff. by rewrite H.
  - intros H. destruct (Qle_bool eta_ts (inject_Z t_last)) eqn:E'; [|done].
    apply Qle_bool_iff in E'. by apply Qlt_not_le in H.
Qed.

Lemma eta_out_of_bounds thr sl ic t0 t_last :
  ~ (sl == 0)%Q ->
  let delta := ((thr - ic) / sl * inject_Z NS_PER_HOUR)%Q in
  ~ (representable delta /\ representable (inject_Z t0 + delta)%Q) ->
  exists e, eta thr sl ic t0 t_last = Raise e.
Proof.
  intros Hsl delta Hout. unfold eta.
  destruct (Qeq_bool sl 0) eqn:E; [by apply Qeq_bool_iff in E|].
  destruct (eta_timestamp_Raise t0 _ Hout) as [e ->]. by exists e.
Qed.

(** The fitted line, at the ETA, is at the threshold. *)
Lemma line_at_eta thr sl ic t0 :
  ~ (sl == 0)%Q ->
  (line sl ic (elapsed_hours t0
                 (inject_Z t0 + (thr - ic) / sl * inject_Z NS_PER_HOUR))
   == thr)%Q.
Proof.
  intros Hsl. unfold line, elapsed_hours.
  rewrite Qred_correct.
  change (inject_Z NS_PER_HOUR) with (3600000000000 # 1)%Q.
  change (inject_Z NS_PER_SECOND) with (1000000000 # 1)%Q.
  field. done.
Qed.

(** At a whole nanosecond next to the ETA, the line is within one
    nanosecond's worth of slope of the threshold. *)
Lemma line_near_eta thr sl ic t0 (ns : Z) :
  ~ (sl == 0)%Q ->
  let eta_ts := (inject_Z t0 + (thr - ic) / sl * inject_Z NS_PER_HOUR)%Q in
  (Qabs (inject_Z ns - eta_ts) <= 1)%Q ->
  (Qabs (line sl ic (elapsed_hours t0 (inject_Z ns)) - thr)
   <= Qabs sl / inject_Z NS_PER_HOUR)%Q.
Proof.
  intros Hsl eta_ts Hns.
  assert (E : (line sl ic (elapsed_hours t0 (inject_Z ns)) - thr
               == sl * (inject_Z ns - eta_ts) * / inject_Z NS_PER_HOUR)%Q).
  { subst eta_ts. unfold line, elapsed_hours.
    rewrite Qred_correct.
    change (inject_Z NS_PER_HOUR) with (3600000000000 # 1)%Q.
    change (inject_Z NS_PER_SECOND) with (1000000000 # 1)%Q.
    field. done. }
  rewrite E, !Qabs_Qmult.
  assert (Hh : (Qabs (/ inject_Z NS_PER_HOUR) == / inject_Z NS_PER_HOUR)%Q)
    by (apply Qabs_pos; done).
  rewrite Hh. unfold Qdiv. apply Qmult_le_compat_r; [|done].
  rewrite <- (Qmult_1_r (Qabs sl)) at 2.
  apply Qmult_le_compat_nonneg; split;
    [apply Qabs_nonneg | apply Qle_refl | apply Qabs_nonneg | exact Hns].
Qed.

Lemma last_map_fst (rest : TimeSeries) (p : Z * option Q) :
  List.last (map fst rest) (fst p) = fst (List.last rest p).
Proof.
  induction rest as [|x rest IH]; [done|].
  destruct rest as [|x' rest]; [done|]. exact IH.
Qed.

(** C1, as the code has it.  When a threshold is given, a run that wrote
    its forecast goes on to the ETA lines, for the line it fitted.  If the
    slope is zero it reports that the threshold cannot be reached.
    Otherwise the crossing lies (threshold - intercept) / slope hours from
    the first sample, and the line evaluated there is the threshold.  When
    that number of hours, in nanoseconds, and the time of the crossing both
    fit the 64-bit nanoseconds of a timestamp, the crossing is reported as
    already reached when it is at or before the last observed sample, and
    as the projected ETA otherwise.  When one of them does not fit, the sum
    of line 89 raises: no ETA is reported, and the process ends with a
    non-zero status, the forecast being written. *)
Theorem eta_threshold (a : Args) (loaded : result DataFrame) (run : Run)
    (thr : Q) :
  main a loaded = Ok run ->
  threshold a = Some thr ->
  exists t0 later,
    map Time (observed_rows run) = t0 :: later
    /\ let t_last := List.last later t0 in
       let delta :=
         ((thr - intercept run) / slope run * inject_Z NS_PER_HOUR)%Q in
       let eta_ts := (inject_Z t0 + delta)%Q in
       ((slope run == 0)%Q -> eta_line run = Some (Ok Unreachable))
       /\ (~ (slope run == 0)%Q ->
           (line (slope run) (intercept run) (elapsed_hours t0 eta_ts) == thr)%Q
           /\ (representable delta -> representable eta_ts ->
               ((eta_ts <= inject_Z t_last)%Q ->
                eta_line run = Some (Ok (AlreadyReached eta_ts)))
               /\ ((inject_Z t_last < eta_ts)%Q ->
                   eta_line run = Some (Ok (Projected eta_ts))))
           /\ (~ (representable delta /\ representable eta_ts) ->
               (exists e, eta_line run = Some (Raise e))
               /\ exit_status (Ok run) = 1
               /\ files_written (Ok run) = [forecast_path run])).
Proof.
  intros Hmain Hthr.
  apply main_Ok in Hmain
    as (df & step & n & t0 & v0 & rest & y & _ & _ & _ & _ & _ & _ & _ & _ & ->).
  destruct (report_forecast a (Z.pos step) n t0 v0 rest y) as (Hobs & _ & _).
  exists t0, (map fst rest). split.
  { rewrite Hobs, List.map_map. done. }
  intros t_last delta eta_ts.
  assert (Ht : t_last = fst (List.last rest (t0, v0)))
    by apply (last_map_fst rest (t0, v0)).
  clearbody t_last. subst t_last delta eta_ts. clear Hobs.
  unfold exit_status, files_written, report. destruct (fit _ y) as [sl ic].
  cbn [slope intercept eta_line forecast_path]. rewrite Hthr. cbn [option_map].
  split.
  - intros H. by rewrite eta_unreachable.
  - intros H. split; [by apply line_at_eta|]. split.
    + intros Hd Hts.
      destruct (eta_crossing thr sl ic t0 (fst (List.last rest (t0, v0))) H Hd Hts)
        as [Hle Hgt].
      split; intros H'; f_equal; [by apply Hle | by apply Hgt].
    + intros Hout.
      destruct (eta_out_of_bounds thr sl ic t0 (fst (List.last rest (t0, v0)))
                  H Hout) as [e ->].
      split; [by exists e | done].
Qed.

(** *** A metric name that is not in the header *)

Lemma forced_valid_absent name df :
  in_columns name df = false -> forced_valid (Some name) df = false.
Proof. unfold forced_valid. intros ->. apply andb_false_r. Qed.

(** C5, as the code has it.  The trend script, given a metric name that is
    not a column of the table it loaded, ends with an error message and
    exit status 1 and writes no forecast CSV.  The two plotting scripts
    ignore a metric (value) name that is not a column: their resolvers
    answer as if no name had been passed, so the run goes on with the
    detected column and fails only where detection fails. *)
Theorem missing_metric_column :
  (forall a loaded,
      (forall df, loaded = Ok df -> in_columns (metric a) df = false) ->
      exists msg,
        main a loaded = Raise (SystemExit msg)
        /\ files_written (main a loaded) = []
        /\ exit_status (main a loaded) = 1)
  /\ (forall df time_col name,
        in_columns name df = false ->
        PlotBase.pick_metric_col df time_col (Some name)
        = PlotBase.pick_metric_col df time_col None
        /\ PlotSplit.detect_value_col df time_col (Some name)
           = PlotSplit.detect_value_col df time_col None).
Proof.
  split.
  - intros a loaded Habs. unfold main. destruct loaded as [df|e].
    + rewrite (Habs df eq_refl).
      destruct (in_columns "Time" df); cbn [negb]; eauto.
    + eauto.
  - intros df time_col name Habs.
    unfold PlotBase.pick_metric_col, PlotSplit.detect_value_col.
    by rewrite (forced_valid_absent _ _ Habs).
Qed.

(** C5 as stated fails for the plotting scripts: the base script, asked
    for a metric that the table does not have, plots the column it
    detects and writes its image. *)
Lemma missing_metric_still_plots :
  in_columns "nope" Samples.two_metrics = false
  /\ exists run,
       PlotBase.main Samples.no_resample Samples.no_rolling
         (Samples.base_args (Some "nope"%string) None None)
         Samples.two_metrics = Ok run
       /\ PlotBase.files run = ["plots/pmrep.opscompleted.png"%string]
       /\ PlotBase.title run = "opscompleted"%string.
Proof. split; [reflexivity|]. eexists. split; [reflexivity|]. done. Qed.

End TrendRun.

Section TrendRunOnSamples.
Import Pandas MlTrend Spec.
#[local] Existing Instance insertion_time_sort.

(** C2 as stated fails: one hour ahead in steps of seven minutes gives
    eight predicted rows, where rounding up gives nine. *)
Lemma forecast_length_not_ceil :
  exists run,
    main (Samples.trend_args "ops" Samples.seven_minutes 1 None)
         (Ok (Samples.ramp Samples.new_year 30)) = Ok run
    /\ length (predicted_rows run) = 8%nat
    /\ ceil_steps 1 (Z.pos Samples.seven_minutes) = 9.
Proof. eexists. split; [vm_compute; reflexivity|]. split; reflexivity. Qed.

(** C1 as stated fails where the crossing is out of reach of a timestamp:
    the ramp, rising by 60 an hour, would reach 10^15 in some 10^9 years;
    the run writes its forecast, reports no ETA and ends with status 1. *)
Lemma eta_far_threshold_raises :
  exists run,
    main (Samples.trend_args "ops" Samples.one_minute 1
            (Some (inject_Z (10 ^ 15))))
         (Ok (Samples.ramp Samples.new_year 10)) = Ok run
    /\ ~ (slope run == 0)%Q
    /\ eta_line run = Some (Raise (LibraryError "OutOfBoundsTimedelta"))
    /\ exit_status (Ok run) = 1.
Proof.
  eexists. split; [vm_compute; reflexivity|].
  split; [discriminate|]. split; reflexivity.
Qed.

End TrendRunOnSamples.

(* ===================================================================== *)
(** * End to end: ten minutes of a ramp                                   *)
(* ===================================================================== *)

Section EndToEnd.
Import Pandas MlTrend Spec.
Context {sort : TimeSort}.





(** The converse of [main_Ok]: a run that passes every check writes its
    forecast. *)
Lemma main_complete a df step n p ps t0 v0 rest y :
  in_columns "Time" df = true ->
  in_columns (metric a) df = true ->
  String.eqb (metric a) "Time" = false ->
  interval a = Some step ->
  numeric_series (clean df (metric a)) = p :: ps ->
  resample_ffill (Z.pos step) (p :: ps) = (t0, v0) :: rest ->
  (3 <= length ((t0, v0) :: rest))%nat ->
  to_numpy ((t0, v0) :: rest) = Ok y ->
  n_steps (horizon_hours a) (Z.pos step) = Ok n ->
  main a (Ok df) = Ok (report a (Z.pos step) n t0 v0 rest y).
Proof.
  intros Ht Hm Hne Hi Hs Hr Hlen Hy Hn. unfold main.
  rewrite Ht, Hm, Hne, Hs, Hi. cbn [negb]. cbv zeta. rewrite Hr.
  destruct (Nat.ltb_spec (length ((t0, v0) :: rest)) 3); [lia|].
  by rewrite Hy, Hn.
Qed.

Lemma report_fit a step n t0 v0 rest y :
  let X := map (fun p => elapsed_hours t0 (inject_Z (fst p))) ((t0, v0) :: rest) in
  slope (report a step n t0 v0 rest y) = fst (fit X y)
  /\ intercept (report a step n t0 v0 rest y) = snd (fit X y).
Proof. intros X. unfold report. fold X. by destruct (fit X y). Qed.










End EndToEnd.

(* ===================================================================== *)
(** * The theorems at work on the sample inputs                           *)
(* ===================================================================== *)

Section OnSamples.
Import Pandas MlTrend Spec.
#[local] Existing Instance insertion_time_sort.

(** The time column of host, TIME, ops is TIME. *)
Lemma detect_time_col_upper_time :
  In "TIME"%string (columns Samples.upper_time)
  /\ lower "TIME" = "time"%string
  /\ PlotBase.detect_time_col Samples.upper_time None = Ok "TIME"%string.
Proof.
  destruct (detect_time_col_resolution Samples.upper_time None)
    as (_ & _ & _ & _ & H).
  split; [simpl; tauto|]. split; [reflexivity|].
  apply (H eq_refl ["host"%string] "TIME"%string ["ops"%string]);
    [reflexivity | reflexivity |].
  intros d [<-|[]]. discriminate.
Defined.

(** With Time, a, opscompleted, the value resolver takes a and the metric
    resolver takes opscompleted. *)
Lemma metric_col_two_metrics :
  PlotSplit.detect_value_col Samples.two_metrics "Time" None = Ok "a"%string
  /\ PlotBase.pick_metric_col Samples.two_metrics "Time" None
     = Ok "opscompleted"%string.
Proof.
  destruct (metric_col_resolution Samples.two_metrics "Time" None) as [_ H].
  destruct (H eq_refl) as [Hfirst _].
  destruct (Hfirst "a"%string) as (Hv & Hp & _).
  { apply first_eligible_iff, find_first_such. reflexivity. }
  split; [exact Hv|]. apply Hp.
  apply (first_such_ext (fun p => eligibleb Samples.two_metrics "Time" p = true)).
  - intros p. apply eligibleb_iff.
  - apply find_first_such. reflexivity.
Defined.

(** The label Predicted counts as predicted, the label observed does not. *)
Lemma label_split_sample :
  PlotSplit.df_pred Samples.show_num Samples.show_stamp "predicted"
    [(Text "Predicted", (Text "tomorrow", Num 3))] = [(Text "tomorrow", Num 3)]
  /\ PlotSplit.df_obs Samples.show_num Samples.show_stamp "predicted"
       [(Text "observed", (Text "today", Num 2))] = [(Text "today", Num 2)].
Proof.
  destruct (label_split_partition Samples.show_num Samples.show_stamp
              "predicted" []) as (H & _).
  split.
  - apply (H (Text "Predicted") (Text "tomorrow", Num 3)). reflexivity.
  - apply (H (Text "observed") (Text "today", Num 2)). discriminate.
Defined.

(** Both plotting scripts complete on a table whose time column holds
    texts, although the resampling and the rolling mean at hand would
    raise if they were called. *)
Lemma unparsed_time_sample :
  (exists run,
      PlotBase.main Samples.no_resample Samples.no_rolling
        (Samples.base_args None (Some "1min"%string) (Some 5))
        Samples.unparsed_time = Ok run
      /\ PlotBase.files run = ["plots/pmrep.ops.png"%string]
      /\ PlotBase.plot_x run = [Text "yesterday"; Text "today"; Text "tomorrow"]
      /\ PlotBase.plot_y run = [Num 1; Num 2; Num 3])
  /\ (exists run,
      PlotSplit.main Samples.show_num Samples.show_stamp
        (fun _ => Samples.no_resample) Samples.no_rolling Samples.align
        (Samples.split_args None (Some "1min"%string) (Some 5))
        Samples.unparsed_time = Ok run
      /\ PlotSplit.files run = ["plots/obs_pred.png"%string]
      /\ PlotSplit.observed run
         = [(Text "yesterday", Num 1); (Text "today", Num 2)]
      /\ PlotSplit.predicted run = [(Text "tomorrow", Num 3)]
      /\ PlotSplit.band run = None).
Proof.
  destruct unparsed_time_not_fatal as [Hbase Hsplit]. split.
  - pose proof (Hbase Samples.no_resample Samples.no_rolling
                  (Samples.base_args None (Some "1min"%string) (Some 5))
                  Samples.unparsed_time "Time"%string
                  (LibraryError "to_datetime") eq_refl eq_refl) as E.
    eexists. split; [rewrite E; reflexivity|]. repeat split.
  - pose proof (Hsplit Samples.show_num Samples.show_stamp
                  (fun _ => Samples.no_resample) Samples.no_rolling Samples.align
                  (Samples.split_args None (Some "1min"%string) (Some 5))
                  Samples.unparsed_time "Time"%string
                  (LibraryError "to_datetime") eq_refl eq_refl) as E.
    eexists. split; [rewrite E; reflexivity|]. repeat split.
Defined.

(** Of two rows with the same timestamp, the first is in the cleaned
    table. *)
Lemma clean_same_time_twice :
  In (0, Num 1) (clean Samples.same_time_twice "ops")
  /\ NoDup (map fst (clean Samples.same_time_twice "ops")).
Proof.
  destruct (clean_keeps_first Samples.same_time_twice "ops")
    as (_ & Hnd & _ & _ & _ & Hrow).
  split; [|exact Hnd]. apply Hrow; [|reflexivity].
  intros t. apply first_at_insertion_sort.
Defined.

(** The trend script stops on a metric name that the ramp does not have;
    the plotting resolvers fall back to detection. *)
Lemma missing_metric_sample :
  (exists msg,
      main (Samples.trend_args "nope" Samples.one_minute 1 None)
           (Ok (Samples.ramp Samples.new_year 10)) = Raise (SystemExit msg)
      /\ files_written
           (main (Samples.trend_args "nope" Samples.one_minute 1 None)
                 (Ok (Samples.ramp Samples.new_year 10))) = []
      /\ exit_status
           (main (Samples.trend_args "nope" Samples.one_minute 1 None)
                 (Ok (Samples.ramp Samples.new_year 10))) = 1)
  /\ PlotSplit.detect_value_col Samples.two_metrics "Time" (Some "nope"%string)
     = PlotSplit.detect_value_col Samples.two_metrics "Time" None.
Proof.
  destruct missing_metric_column as [Htrend Hplot]. split.
  - apply Htrend. intros df [= <-]. reflexivity.
  - apply (Hplot Samples.two_metrics "Time"%string "nope"%string). reflexivity.
Defined.

(** One hour ahead in steps of seven minutes, 420 seconds: eight predicted
    rows. *)
Lemma forecast_length_seven_minutes :
  exists run,
    main (Samples.trend_args "ops" Samples.seven_minutes 1 None)
         (Ok (Samples.ramp Samples.new_year 30)) = Ok run
    /\ Z.of_nat (length (predicted_rows run)) = 8.
Proof.
  assert (H : exists run,
             main (Samples.trend_args "ops" Samples.seven_minutes 1 None)
                  (Ok (Samples.ramp Samples.new_year 30)) = Ok run)
    by (eexists; vm_compute; reflexivity).
  destruct H as [run H]. exists run. split; [exact H|].
  destruct (forecast_length _ _ run Samples.seven_minutes H eq_refl)
    as (_ & _ & Hwhole).
  destruct (Hwhole 420) as (Hn & Hq & _); [reflexivity | done | done | done |].
  rewrite Hn, Hq. reflexivity.
Defined.


(** The ramp reaches 100 one hundred minutes after its start, which is
    after its last sample. *)
Lemma eta_threshold_ramp :
  exists run eta_ts,
    main (Samples.trend_args "ops" Samples.one_minute 1 (Some 100%Q))
         (Ok (Samples.ramp Samples.new_year 10)) = Ok run
    /\ eta_line run = Some (Ok (Projected eta_ts))
    /\ (eta_ts == inject_Z (Samples.new_year + 6000000000000))%Q.
Proof.
  assert (H : exists run,
             main (Samples.trend_args "ops" Samples.one_minute 1 (Some 100%Q))
                  (Ok (Samples.ramp Samples.new_year 10)) = Ok run
             /\ map Time (observed_rows run)
                = map (fun k => Samples.new_year + Z.of_nat k * 60000000000)
                      (seq 0 10)
             /\ slope run = 60%Q /\ intercept run = 0%Q)
    by (eexists; split; [vm_compute; reflexivity|]; repeat split).
  destruct H as (run & H & Hobs & Hsl & Hic).
  destruct (eta_threshold _ _ run 100%Q H eq_refl)
    as (t0 & later & Ht & _ & Hcross).
  rewrite Hobs in Ht. injection Ht as <- <-.
  rewrite Hsl, Hic in Hcross.
  destruct Hcross as (_ & Hin & _); [discriminate|].
  destruct Hin as [_ Hproj]; [split; discriminate | split; discriminate |].
  eexists run, _. split; [exact H|]. split; [apply Hproj|]; reflexivity.
Defined.

End OnSamples.


(* ===================================================================== *)
(** * Further properties: what the resolvers return                       *)
(* ===================================================================== *)

Section ResolverResults.
Import Pandas Spec.

(** The time column a resolver returns is a column of the table; the only
    way for it to raise is a table without columns. *)
Theorem detect_time_col_result (df : DataFrame) (forced : option string) :
  match PlotBase.detect_time_col df forced with
  | Ok c => In c (columns df)
  | Raise e => e = IndexError /\ columns df = []
  end
  /\ match PlotSplit.detect_time_col df forced with
     | Ok c => In c (columns df)
     | Raise e => e = IndexError /\ columns df = []
     end.
Proof.
  assert (H : match PlotBase.detect_time_col df forced with
              | Ok c => In c (columns df)
              | Raise e => e = IndexError /\ columns df = []
              end); [|by split].
  unfold PlotBase.detect_time_col.
  destruct (forced_valid forced df) eqn:Hv.
  - apply forced_valid_Some in Hv as (f & -> & _ & Hin). done.
  - destruct (first_candidate _ _) as [c|] eqn:E.
    + apply first_candidate_Some in E as (cand & _ & Hm).
      by apply lower_map_Some in Hm as [? _].
    + unfold first_column. destruct (columns df) as [|c cs]; [done | by left].
Qed.

(** Which column wins.  Without a valid forced name, the candidates are tried
    in the order time, timestamp, date, datetime, whatever the order of the
    columns; and among the columns that spell the winning candidate, in any
    letter case, the last one of the table is returned. *)
Theorem detect_time_col_precedence (df : DataFrame) (forced : option string)
    (pre post : list string) (k : string) (before after : list string)
    (c : string) :
  forced_valid forced df = false ->
  time_candidates = pre ++ k :: post ->
  (forall k' d, In k' pre -> In d (columns df) -> lower d <> k') ->
  columns df = before ++ c :: after ->
  lower c = k ->
  (forall d, In d after -> lower d <> k) ->
  PlotBase.detect_time_col df forced = Ok c
  /\ PlotSplit.detect_time_col df forced = Ok c.
Proof.
  intros Hv Hcands Hpre Hcols Hc Hafter.
  assert (H : PlotBase.detect_time_col df forced = Ok c); [|by split].
  rewrite (detect_time_col_auto _ _ Hv), Hcands.
  rewrite (first_candidate_app _ pre k post c); [done| |].
  - intros k' Hk'. apply lower_map_None. intros d Hd. by apply (Hpre k' d).
  - rewrite lower_map_lookup, Hcols, rev_app_distr. simpl.
    rewrite <- app_assoc, find_app_or.
    destruct (List.find _ (rev after)) as [d|] eqn:E.
    + apply find_some in E as [Hin Heq]. apply in_rev in Hin.
      apply String.eqb_eq in Heq. by destruct (Hafter d Hin).
    + simpl. apply String.eqb_eq in Hc. by rewrite Hc.
Qed.

Lemma resolved_metric_col df time_col forced c :
  PlotBase.pick_metric_col df time_col forced = Ok c
  \/ PlotSplit.detect_value_col df time_col forced = Ok c ->
  In c (columns df)
  /\ (forced_valid forced df = false -> eligible df time_col c).
Proof.
  intros H.
  destruct (forced_valid forced df) eqn:Hv.
  - split; [|done].
    apply forced_valid_Some in Hv as Hf. destruct Hf as (f & -> & _ & Hin).
    unfold PlotBase.pick_metric_col, PlotSplit.detect_value_col in H.
    rewrite Hv in H. simpl in H. by destruct H as [[= <-]|[= <-]].
  - assert (He : eligible df time_col c).
    { unfold PlotBase.pick_metric_col, PlotSplit.detect_value_col in H.
      rewrite Hv in H. destruct H as [H|H].
      - destruct (PlotBase.numeric_cols df time_col) as [|c0 l] eqn:E; [done|].
        rewrite <- E in H. apply numeric_cols_In.
        destruct (List.find _ PlotBase.preferred_metrics) as [p|] eqn:Ep.
        + injection H as <-. apply find_some in Ep as [_ Hp].
          by apply existsb_eqb_In in Hp.
        + injection H as <-. rewrite E. by left.
      - fold (eligibleb df time_col) in H.
        destruct (List.find _ (columns df)) as [c0|] eqn:E; [|done].
        injection H as <-. apply find_some in E as [_ E].
        by apply eligibleb_iff. }
    split; [apply He | done].
Qed.

(** The metric (value) column a resolver returns is a column of the table;
    when it was detected rather than forced, it is not the time column and
    has a numeric dtype. *)
Theorem metric_col_result (df : DataFrame) (time_col : string)
    (forced : option string) (c : string) :
  PlotBase.pick_metric_col df time_col forced = Ok c
  \/ PlotSplit.detect_value_col df time_col forced = Ok c ->
  In c (columns df)
  /\ (forced_valid forced df = false ->
      c <> time_col /\ is_numeric_dtype (getcol df c) = true).
Proof.
  intros H. destruct (resolved_metric_col df time_col forced c H) as [Hin He].
  split; [done|]. intros Hv. destruct (He Hv) as (_ & Hne & Hnum). done.
Qed.

(** The bound columns [find_ci_columns] returns are both columns of the
    table and form one of the five known pairs; the pair named after the
    value column wins over the generic ones; and nothing is returned
    exactly when no pair is complete. *)
Theorem find_ci_columns_result (df : DataFrame) (base : string) :
  (forall lo hi, PlotSplit.find_ci_columns df base = Some (lo, hi) ->
     In lo (columns df) /\ In hi (columns df)
     /\ In (lo, hi) (PlotSplit.ci_candidates base))
  /\ (In (base +:+ "_lower")%string (columns df) ->
      In (base +:+ "_upper")%string (columns df) ->
      PlotSplit.find_ci_columns df base
      = Some (base +:+ "_lower", base +:+ "_upper")%string)
  /\ (PlotSplit.find_ci_columns df base = None <->
      forall lo hi, In (lo, hi) (PlotSplit.ci_candidates base) ->
                    ~ (In lo (columns df) /\ In hi (columns df))).
Proof.
  unfold PlotSplit.find_ci_columns. split; [|split].
  - intros lo hi [Hin Hb]%find_some. simpl in Hb.
    apply andb_prop in Hb as [Hlo Hhi].
    by rewrite !in_columns_In in *.
  - intros Hlo Hhi. unfold PlotSplit.ci_candidates. simpl.
    apply in_columns_In in Hlo, Hhi. by rewrite Hlo, Hhi.
  - rewrite find_none_iff. split.
    + intros H lo hi Hin [Hlo Hhi]. specialize (H (lo, hi) Hin). simpl in H.
      apply in_columns_In in Hlo, Hhi. by rewrite Hlo, Hhi in H.
    + intros H [lo hi] Hin. simpl.
      destruct (in_columns lo df) eqn:Elo; [|done].
      destruct (in_columns hi df) eqn:Ehi; [|done].
      destruct (H lo hi Hin). by rewrite <- !in_columns_In.
Qed.

(** Date, time, host, TIME: the time column is TIME. *)
Lemma detect_time_col_many_times :
  PlotBase.detect_time_col Samples.many_times None = Ok "TIME"%string
  /\ PlotSplit.detect_time_col Samples.many_times None = Ok "TIME"%string.
Proof.
  apply (detect_time_col_precedence Samples.many_times None
           [] ["timestamp"; "date"; "datetime"]%string "time"
           ["Date"; "time"; "host"]%string []); try reflexivity.
  - intros k' d [].
  - intros d [].
Defined.

(** With Time, a, opscompleted, the detected metric is a numeric column of
    the table other than Time. *)
Lemma metric_col_result_two_metrics :
  In "opscompleted"%string (columns Samples.two_metrics)
  /\ (forced_valid None Samples.two_metrics = false ->
      "opscompleted"%string <> "Time"%string
      /\ is_numeric_dtype (getcol Samples.two_metrics "opscompleted") = true).
Proof.
  apply (metric_col_result Samples.two_metrics "Time" None). left. reflexivity.
Defined.

(** With value_lower but no value_upper, the generic pair lower, upper is
    taken. *)
Lemma find_ci_columns_with_band :
  In "lower"%string (columns Samples.with_band)
  /\ In "upper"%string (columns Samples.with_band)
  /\ In ("lower", "upper")%string (PlotSplit.ci_candidates "value").
Proof.
  destruct (find_ci_columns_result Samples.with_band "value") as (H & _ & _).
  apply H. reflexivity.
Defined.

End ResolverResults.

(* ===================================================================== *)
(** * Further properties: parsing the time column, and what is written    *)
(* ===================================================================== *)

Section PlotRuns.
Import Pandas Spec.

Lemma columns_setcol df c values : columns (setcol df c values) = columns df.
Proof.
  induction df as [|col df IH]; simpl; [done|].
  destruct (String.eqb_spec (name col) c) as [<-|Hne]; simpl; [done|].
  by rewrite IH.
Qed.

Lemma getcol_setcol_ne df c c' values :
  c' <> c -> getcol (setcol df c values) c' = getcol df c'.
Proof.
  intros Hne. induction df as [|col df IH]; simpl; [done|].
  destruct (String.eqb_spec (name col) c) as [Heq|Hnc]; simpl.
  - destruct (String.eqb_spec c c') as [->|_]; [done|].
    destruct (String.eqb_spec (name col) c') as [Heq'|_]; [congruence | done].
  - destruct (String.eqb_spec (name col) c'); [done | exact IH].
Qed.

Lemma getcol_setcol_eq df c values :
  In c (columns df) -> getcol (setcol df c values) c = values.
Proof.
  induction df as [|col df IH]; simpl; [done|].
  destruct (String.eqb_spec (name col) c) as [Heq|Hnc]; simpl.
  - by rewrite String.eqb_refl.
  - destruct (String.eqb_spec (name col) c) as [|_]; [done|].
    intros [?|Hin]; [done | by apply IH].
Qed.

Lemma to_datetime_Ok xs ts :
  to_datetime xs = Ok ts ->
  length ts = length xs /\ forall s, ~ In (Text s) xs.
Proof.
  revert ts. induction xs as [|x xs IH]; intros ts; simpl.
  - intros [= <-]. split; [done | by intros s []].
  - destruct x as [|q|t|s]; simpl; [| | |done];
      (destruct (to_datetime xs) as [ts'|e]; simpl; [|done];
       intros [= <-]; destruct (IH ts' eq_refl) as [Hlen Hno];
       split; [simpl; by rewrite Hlen | intros s [?|Hin]; [done | by apply (Hno s)]]).
Qed.

Lemma to_datetime_Raise xs e :
  to_datetime xs = Raise e -> exists s, In (Text s) xs.
Proof.
  revert e. induction xs as [|x xs IH]; intros e; simpl; [done|].
  destruct x as [|q|t|s]; simpl; [| | |by eauto];
    (destruct (to_datetime xs) as [ts'|e']; simpl; [done|];
     intros _; destruct (IH e' eq_refl) as [s Hs]; eauto).
Qed.

(** The [try: ... except: pass] around the parsing of the time column is all
    or nothing.  It never changes the header, nor any other column.  If a
    cell of the column is a text that is no timestamp, the table stays as it
    was and the column does not count as a datetime column; otherwise the
    column - if it is one of the table - keeps its length, holds timestamps
    and missing values only, and counts as a datetime column. *)
Theorem try_parse_time_all_or_nothing (df : DataFrame) (tcol : string) :
  columns (fst (try_parse_time df tcol)) = columns df
  /\ (forall c, c <> tcol ->
        getcol (fst (try_parse_time df tcol)) c = getcol df c)
  /\ ((exists s, In (Text s) (getcol df tcol)) ->
      try_parse_time df tcol = (df, false))
  /\ ((forall s, ~ In (Text s) (getcol df tcol)) ->
      snd (try_parse_time df tcol) = true
      /\ (In tcol (columns df) ->
          length (getcol (fst (try_parse_time df tcol)) tcol)
          = length (getcol df tcol)
          /\ forall x, In x (getcol (fst (try_parse_time df tcol)) tcol) ->
                       x = NaN \/ exists t, x = Stamp t)).
Proof.
  unfold try_parse_time.
  destruct (to_datetime (getcol df tcol)) as [ts|e] eqn:E; simpl.
  - apply to_datetime_Ok in E as [Hlen Hno].
    split; [apply columns_setcol|]. split; [intros c Hc; by apply getcol_setcol_ne|].
    split; [intros [s Hs]; by destruct (Hno s)|].
    intros _. split; [done|]. intros Hin. rewrite getcol_setcol_eq by done.
    split; [by rewrite length_map|].
    intros x [[t|] [<- _]]%in_map_iff; simpl; eauto.
  - apply to_datetime_Raise in E as [s Hs].
    split; [done|]. split; [done|]. split; [done|].
    intros Hno. by destruct (Hno s).
Qed.

Lemma try_parse_time_columns df tcol df1 b :
  try_parse_time df tcol = (df1, b) -> columns df1 = columns df.
Proof.
  unfold try_parse_time. destruct (to_datetime (getcol df tcol)) as [ts|e].
  - intros [= <- _]. apply columns_setcol.
  - by intros [= <- _].
Qed.

Lemma in_columns_ext c df df' :
  columns df' = columns df -> in_columns c df' = in_columns c df.
Proof. unfold in_columns. by intros ->. Qed.

(** The part of the image name that comes from the metric holds no slash:
    every slash of the metric name has become an underscore, and nothing
    else has changed. *)
Theorem replace_slash_no_slash (s : string) :
  String.length (PlotBase.replace_slash s) = String.length s
  /\ ~ In "/"%char (list_ascii_of_string (PlotBase.replace_slash s))
  /\ (forall i c, String.get i s = Some c -> c <> "/"%char ->
        String.get i (PlotBase.replace_slash s) = Some c)
  /\ (forall i, String.get i s = Some "/"%char ->
        String.get i (PlotBase.replace_slash s) = Some "_"%char).
Proof.
  induction s as [|c s (Hlen & Hno & Hkeep & Hrep)]; simpl.
  - repeat split; try done. by intros [].
  - split; [by rewrite Hlen|]. split; [|split].
    + intros [Heq|Hin]; [|done].
      destruct (Ascii.eqb_spec c "/"%char); [discriminate | done].
    + intros [|i] c' Hget Hne; simpl in *.
      * injection Hget as ->.
        by destruct (Ascii.eqb_spec c' "/"%char).
      * by apply Hkeep.
    + intros [|i] Hget; simpl in *.
      * by injection Hget as ->.
      * by apply Hrep.
Qed.

End PlotRuns.

Section PlotOutputs.
Import Pandas Spec.

Lemma rolling_on_small (rolling : option Z) :
  (forall w, rolling = Some w -> w <= 1) -> rolling_on rolling = false.
Proof.
  destruct rolling as [w|]; simpl; [|done]. intros H.
  specialize (H w eq_refl). destruct (Z.ltb_spec 1 w); [lia|].
  apply andb_false_r.
Qed.

(** In the base script, [--resample] left out or empty means that no
    resampling is made, and [--rolling] left out or at most 1 means that no
    rolling mean is made: the run is the same whatever those two
    operations would do. *)
Theorem plot_base_optional_steps
    (resample_sum resample_sum' : string -> Series -> result Series)
    (rolling_mean rolling_mean' : Z -> Series -> result Series)
    (a : PlotBase.Args) (df : DataFrame) :
  (truthy (PlotBase.resample a) = false ->
   PlotBase.main resample_sum rolling_mean a df
   = PlotBase.main resample_sum' rolling_mean a df)
  /\ ((forall w, PlotBase.rolling a = Some w -> w <= 1) ->
      PlotBase.main resample_sum rolling_mean a df
      = PlotBase.main resample_sum rolling_mean' a df).
Proof.
  split.
  - intros Hr. unfold PlotBase.main, PlotBase.prepare. by rewrite Hr.
  - intros Hw%rolling_on_small. unfold PlotBase.main, PlotBase.prepare.
    by rewrite Hw.
Qed.

(** The same in the observed/predicted script, for both parts and for the
    bounds of the confidence band. *)
Theorem plot_split_optional_steps
    (str_of_num : Q -> string) (str_of_stamp : Z -> string)
    (resample_by resample_by' : agg -> string -> Series -> result Series)
    (rolling_mean rolling_mean' : Z -> Series -> result Series)
    (concat_axis1 : Series -> Series -> result PlotSplit.Aligned)
    (a : PlotSplit.Args) (df : DataFrame) :
  (truthy (PlotSplit.resample a) = false ->
   PlotSplit.main str_of_num str_of_stamp resample_by rolling_mean
                  concat_axis1 a df
   = PlotSplit.main str_of_num str_of_stamp resample_by' rolling_mean
                    concat_axis1 a df)
  /\ ((forall w, PlotSplit.rolling a = Some w -> w <= 1) ->
      PlotSplit.main str_of_num str_of_stamp resample_by rolling_mean
                     concat_axis1 a df
      = PlotSplit.main str_of_num str_of_stamp resample_by rolling_mean'
                       concat_axis1 a df).
Proof.
  split.
  - intros Hr. unfold PlotSplit.main, PlotSplit.process. by rewrite Hr.
  - intros Hw%rolling_on_small. unfold PlotSplit.main, PlotSplit.process.
    by rewrite Hw.
Qed.

(** What a completed run of the base script has written: one image, named
    after the stem of the CSV and the metric column, and the PDF exactly
    when [--pdf] names one.  The metric column, which is also the title of
    the chart, is a column of the table. *)
Theorem plot_base_outputs
    (resample_sum : string -> Series -> result Series)
    (rolling_mean : Z -> Series -> result Series)
    (a : PlotBase.Args) (df : DataFrame) (run : PlotBase.Run) :
  PlotBase.main resample_sum rolling_mean a df = Ok run ->
  In (PlotBase.title run) (columns df)
  /\ PlotBase.files run
     = PlotBase.png_path a (PlotBase.title run)
         :: (if truthy (PlotBase.pdf a)
             then [default EmptyString (PlotBase.pdf a)] else []).
Proof.
  unfold PlotBase.main.
  destruct (PlotBase.detect_time_col df (PlotBase.time_col a)) as [tcol|e];
    [|done]. simpl.
  destruct (try_parse_time df tcol) as [df1 is_dt] eqn:Ep.
  destruct (PlotBase.pick_metric_col df1 tcol (PlotBase.metric a))
    as [mcol|e] eqn:Em; [|done]. simpl.
  destruct (PlotBase.prepare _ _ _ _ _ _) as [xy|e]; [|done]. simpl.
  intros [= <-]. simpl. split; [|done].
  rewrite <- (try_parse_time_columns _ _ _ _ Ep).
  exact (proj1 (resolved_metric_col df1 tcol (PlotBase.metric a) mcol
                  (or_introl Em))).
Qed.

(** What a completed run of the observed/predicted script shows.  The label
    column is a column of the table (without it the script stops); one
    image is written, and the PDF exactly when [--pdf] names one; what is
    plotted is the alignment of the observed and the predicted part; and a
    confidence band is drawn only over a time column that parsed. *)
Theorem plot_split_outputs
    (str_of_num : Q -> string) (str_of_stamp : Z -> string)
    (resample_by : agg -> string -> Series -> result Series)
    (rolling_mean : Z -> Series -> result Series)
    (concat_axis1 : Series -> Series -> result PlotSplit.Aligned)
    (a : PlotSplit.Args) (df : DataFrame) (run : PlotSplit.Run) :
  PlotSplit.main str_of_num str_of_stamp resample_by rolling_mean
                 concat_axis1 a df = Ok run ->
  in_columns (PlotSplit.label_col a) df = true
  /\ PlotSplit.files run
     = PlotSplit.out a
         :: (if truthy (PlotSplit.pdf a)
             then [default EmptyString (PlotSplit.pdf a)] else [])
  /\ concat_axis1 (PlotSplit.observed run) (PlotSplit.predicted run)
     = Ok (PlotSplit.aligned run)
  /\ PlotSplit.f_start run = PlotSplit.first_valid_index (PlotSplit.aligned run)
  /\ (PlotSplit.band run <> None ->
      exists tcol ts,
        PlotSplit.detect_time_col df (PlotSplit.time_col a) = Ok tcol
        /\ to_datetime (getcol df tcol) = Ok ts).
Proof.
  unfold PlotSplit.main.
  destruct (PlotSplit.detect_time_col df (PlotSplit.time_col a)) as [tcol|e]
    eqn:Et; [|done]. simpl.
  destruct (try_parse_time df tcol) as [df1 is_dt] eqn:Ep.
  destruct (PlotSplit.detect_value_col df1 tcol (PlotSplit.value_col a))
    as [vcol|e]; [|done]. simpl.
  rewrite (in_columns_ext _ df df1 (try_parse_time_columns _ _ _ _ Ep)).
  destruct (in_columns (PlotSplit.label_col a) df); [|done]. simpl.
  destruct (PlotSplit.process _ _ a is_dt (PlotSplit.df_obs _ _ _ _))
    as [s_obs|e]; [|done]. simpl.
  destruct (PlotSplit.process _ _ a is_dt (PlotSplit.df_pred _ _ _ _))
    as [s_pred|e]; [|done]. simpl.
  destruct (concat_axis1 s_obs s_pred) as [al|e] eqn:Ec; [|done]. simpl.
  match goal with
  | |- context [mbind _ ?ci] =>
      destruct ci as [b|e] eqn:Eci; [|done]
  end.
  simpl. intros [= <-]. simpl. repeat split; try done.
  intros Hb. exists tcol. unfold try_parse_time in Ep.
  destruct (to_datetime (getcol df tcol)) as [ts|e]; [by exists ts|].
  injection Ep as <- <-.
  destruct (PlotSplit.find_ci_columns df vcol) as [[lo hi]|];
    simpl in Eci; by injection Eci as <-.
Qed.

(** A run of the base script on the table Time, a, opscompleted. *)
Lemma plot_base_outputs_two_metrics :
  exists run,
    PlotBase.main Samples.no_resample Samples.no_rolling
      (Samples.base_args None None None) Samples.two_metrics = Ok run
    /\ In (PlotBase.title run) (columns Samples.two_metrics)
    /\ PlotBase.files run
       = [PlotBase.png_path (Samples.base_args None None None)
            (PlotBase.title run)].
Proof.
  eexists. split; [reflexivity|].
  apply (plot_base_outputs Samples.no_resample Samples.no_rolling
           (Samples.base_args None None None) Samples.two_metrics).
  reflexivity.
Defined.

(** A run of the observed/predicted script on the table with texts as
    times. *)
Lemma plot_split_outputs_unparsed :
  exists run,
    PlotSplit.main Samples.show_num Samples.show_stamp
      (fun _ => Samples.no_resample) Samples.no_rolling Samples.align
      (Samples.split_args None None None) Samples.unparsed_time = Ok run
    /\ in_columns "type" Samples.unparsed_time = true
    /\ PlotSplit.files run = ["plots/obs_pred.png"%string]
    /\ Samples.align (PlotSplit.observed run) (PlotSplit.predicted run)
       = Ok (PlotSplit.aligned run).
Proof.
  eexists. split; [reflexivity|].
  destruct (plot_split_outputs Samples.show_num Samples.show_stamp
              (fun _ => Samples.no_resample) Samples.no_rolling Samples.align
              (Samples.split_args None None None) Samples.unparsed_time _
              eq_refl) as (H1 & H2 & H3 & _).
  split; [exact H1|]. split; [exact H2 | exact H3].
Defined.

End PlotOutputs.

(* ===================================================================== *)
(** * Further properties: the series that is resampled                    *)
(* ===================================================================== *)

Section CleanSeries.
Import Pandas MlTrend Spec.
Context {sort : TimeSort}.

Lemma sorted_map_fst {A B} (f : Z * A -> Z * B) (R : Z -> Z -> Prop)
    (l : list (Z * A)) :
  (forall x, fst (f x) = fst x) ->
  StronglySorted (fun a b => R (fst a) (fst b)) l ->
  StronglySorted (fun a b => R (fst a) (fst b)) (map f l).
Proof.
  intros Hf. induction 1 as [|x l Hs IH Hall]; simpl; constructor; [done|].
  apply Forall_map. eapply List.Forall_impl; [|exact Hall].
  simpl. intros y Hy. by rewrite !Hf.
Qed.

Lemma sorted_filter {A} (R : A -> A -> Prop) (f : A -> bool) (l : list A) :
  StronglySorted R l -> StronglySorted R (List.filter f l).
Proof.
  induction 1 as [|x l Hs IH Hall]; simpl; [constructor|].
  destruct (f x); [|done]. constructor; [done|].
  rewrite List.Forall_forall in *. intros y [Hy _]%filter_In. by apply Hall.
Qed.

Lemma numeric_series_sorted df metric :
  StronglySorted (fun a b => fst a < fst b) (numeric_series (clean df metric)).
Proof.
  unfold numeric_series. apply sorted_filter.
  apply (sorted_map_fst (fun r => (fst r, to_numeric_coerce (snd r))) Z.lt);
    [done | apply clean_sorted].
Qed.

Lemma numeric_series_notna df metric :
  Forall (fun p => notna (snd p) = true) (numeric_series (clean df metric)).
Proof.
  unfold numeric_series. apply List.Forall_forall. by intros x [_ Hx]%filter_In.
Qed.

Lemma numeric_series_In rows t q :
  In (t, Some q) (numeric_series rows) <-> In (t, Num q) rows.
Proof.
  unfold numeric_series. rewrite filter_In, in_map_iff. simpl. split.
  - intros [([t' v] & [= -> Hv] & Hin) _]. simpl in Hv.
    destruct v as [|q'|ns|s]; try done. by injection Hv as ->.
  - intros Hin. split; [|done]. by exists (t, Num q).
Qed.

(** The series handed to the resampling.  Its timestamps are strictly
    increasing and none of its values is missing.  Each of its values is
    the number of a row of the table at that timestamp.  It has a value
    at a timestamp exactly when the row that the de-duplication kept for
    that timestamp - the first one in the sorted table - holds a number in
    the metric column: where that row holds no number the timestamp is
    dropped, even if another row of that timestamp has one. *)
Theorem numeric_series_clean (df : DataFrame) (metric : string) :
  StronglySorted (fun a b => fst a < fst b) (numeric_series (clean df metric))
  /\ Forall (fun p => notna (snd p) = true) (numeric_series (clean df metric))
  /\ (forall t q, In (t, Some q) (numeric_series (clean df metric)) ->
                  In (t, Num q) (timed_rows df metric))
  /\ (forall t q, In (t, Some q) (numeric_series (clean df metric)) <->
                  first_at t (sort_values (timed_rows df metric))
                  = Some (t, Num q)).
Proof.
  split; [apply numeric_series_sorted|]. split; [apply numeric_series_notna|].
  split.
  - intros t q Hin%numeric_series_In. by apply clean_row_In.
  - intros t q. by rewrite numeric_series_In, clean_row_sorted.
Qed.

End CleanSeries.

Section CleanSeriesOnSamples.
Import Pandas MlTrend Spec.
#[local] Existing Instance insertion_time_sort.

(** A timestamp whose first row holds a text is not in the series, although
    its second row holds a number. *)
Lemma numeric_series_first_row_decides :
  first_at 0 (sort_values (timed_rows Samples.text_then_number "ops"))
  = Some (0, Text "err")
  /\ ~ In (0, Some 5%Q) (numeric_series (clean Samples.text_then_number "ops"))
  /\ In (60000000000, Some 6%Q)
        (numeric_series (clean Samples.text_then_number "ops")).
Proof.
  destruct (numeric_series_clean Samples.text_then_number "ops")
    as (_ & _ & _ & H).
  split; [reflexivity|]. split.
  - intros Hin%H. discriminate.
  - apply H. reflexivity.
Defined.

End CleanSeriesOnSamples.

(* ===================================================================== *)
(** * Further properties: the resampled series                            *)
(* ===================================================================== *)

Section ResampledSeries.
Import Pandas MlTrend Spec.

Lemma index_min_spec t rest :
  In (index_min t rest) (t :: map fst rest)
  /\ Forall (fun x => index_min t rest <= x) (t :: map fst rest).
Proof.
  unfold index_min. induction rest as [|p rest [Hin Hall]]; simpl.
  - split; [by left|]. repeat constructor. lia.
  - set (m := fold_right Z.min t (map fst rest)) in *. split.
    + destruct (Z.min_spec (fst p) m) as [[_ ->]|[_ ->]].
      * right. by left.
      * destruct Hin as [<-|Hin]; [by left | right; by right].
    + apply Forall_inv in Hall as Ht. apply Forall_inv_tail in Hall.
      constructor; [lia|]. constructor; [lia|].
      eapply List.Forall_impl; [|exact Hall]. simpl. intros. lia.
Qed.

Lemma index_max_spec t rest :
  In (index_max t rest) (t :: map fst rest)
  /\ Forall (fun x => x <= index_max t rest) (t :: map fst rest).
Proof.
  unfold index_max. induction rest as [|p rest [Hin Hall]]; simpl.
  - split; [by left|]. repeat constructor. lia.
  - set (m := fold_right Z.max t (map fst rest)) in *. split.
    + destruct (Z.max_spec (fst p) m) as [[_ ->]|[_ ->]].
      * destruct Hin as [<-|Hin]; [by left | right; by right].
      * right. by left.
    + apply Forall_inv in Hall as Ht. apply Forall_inv_tail in Hall.
      constructor; [lia|]. constructor; [lia|].
      eapply List.Forall_impl; [|exact Hall]. simpl. intros. lia.
Qed.

Lemma floor_to_mono origin step t t' :
  0 < step -> t <= t' -> floor_to origin step t <= floor_to origin step t'.
Proof.
  intros Hstep Ht. unfold floor_to.
  assert ((t - origin) / step <= (t' - origin) / step)
    by (apply Z.div_le_mono; lia). nia.
Qed.

Lemma on_grid_times e step (s : TimeSeries) :
  on_grid e step s ->
  map fst s = map (fun k => e + Z.of_nat k * step) (seq 0 (length s)).
Proof.
  revert e. induction s as [|p s IH]; intros e; simpl; [done|].
  intros [-> Hs]. f_equal; [lia|].
  rewrite (IH _ Hs), <- seq_shift, List.map_map.
  apply map_ext. intros k. lia.
Qed.

(** The resampled series lies on a grid of the step of the interval: it
    starts at the edge of the bucket that holds the earliest sample, a
    whole number of steps after midnight of that sample's day, goes on edge
    by edge without a gap, and ends at the edge of the bucket that holds
    the latest sample. *)
Theorem resample_ffill_grid (step : positive) (p : Z * option Q)
    (rest : TimeSeries) :
  let r := resample_ffill (Z.pos step) (p :: rest) in
  let n := Z.of_nat (length r) in
  exists lo,
    map fst r = map (fun k => lo + Z.of_nat k * Z.pos step) (seq 0 (length r))
    /\ 1 <= n
    /\ (exists k, 0 <= k
                  /\ lo = normalize (index_min (fst p) rest) + k * Z.pos step)
    /\ lo <= index_min (fst p) rest < lo + Z.pos step
    /\ lo + (n - 1) * Z.pos step <= index_max (fst p) rest < lo + n * Z.pos step.
Proof.
  intros r n. assert (Hstep : 0 < Z.pos step) by lia.
  set (tmin := index_min (fst p) rest). set (tmax := index_max (fst p) rest).
  set (lo := floor_to (normalize tmin) (Z.pos step) tmin).
  set (hi := floor_to (normalize tmin) (Z.pos step) tmax).
  assert (Hr : r = ffill (buckets (p :: rest) (Z.pos step) lo
                            (S (Z.to_nat ((hi - lo) / Z.pos step))))) by done.
  assert (Hle : tmin <= tmax).
  { destruct (index_min_spec (fst p) rest) as [_ Hmin].
    destruct (index_max_spec (fst p) rest) as [_ Hmax].
    apply Forall_inv in Hmin, Hmax. subst tmin tmax. lia. }
  pose proof (floor_to_spec (normalize tmin) (Z.pos step) tmin Hstep) as Hlo.
  pose proof (floor_to_spec (normalize tmin) (Z.pos step) tmax Hstep) as Hhi.
  pose proof (floor_to_mono (normalize tmin) (Z.pos step) tmin tmax Hstep Hle)
    as Hlohi.
  fold lo in Hlo, Hlohi. fold hi in Hhi, Hlohi.
  assert (Hk : exists k, 0 <= k /\ hi = lo + k * Z.pos step).
  { exists ((tmax - normalize tmin) / Z.pos step
            - (tmin - normalize tmin) / Z.pos step).
    subst lo hi. unfold floor_to in *. split; nia. }
  destruct Hk as (k & Hk0 & Hk).
  assert (Hlen : n = k + 1).
  { subst n. rewrite Hr. unfold ffill.
    rewrite ffill_from_length, buckets_length.
    replace (hi - lo) with (k * Z.pos step) by lia.
    rewrite Z.div_mul by lia. lia. }
  exists lo. split; [|split; [lia|split; [|lia]]].
  - apply on_grid_times. rewrite Hr. apply ffill_from_on_grid, buckets_on_grid.
  - exists ((tmin - normalize tmin) / Z.pos step). split; [|done].
    pose proof (normalize_spec tmin). apply Z.div_pos; lia.
Qed.

Lemma last_valid_app (l1 l2 : TimeSeries) :
  last_valid (l1 ++ l2)
  = if notna (last_valid l2) then last_valid l2 else last_valid l1.
Proof.
  unfold last_valid. rewrite fold_left_app.
  generalize (fold_left (fun acc p => if notna (snd p) then snd p else acc) l1 None).
  induction l2 as [|[t v] l2 IH] using rev_ind; intros c; simpl.
  - by destruct c.
  - rewrite !fold_left_app. simpl. destruct v as [q|]; simpl; [done|].
    apply IH.
Qed.

Lemma last_valid_notna (l : TimeSeries) :
  l <> [] -> Forall (fun p => notna (snd p) = true) l ->
  notna (last_valid l) = true.
Proof.
  destruct l as [|p l] using rev_ind; [done|]. intros _ Hall.
  apply Forall_app in Hall as [_ Hp]. apply Forall_inv in Hp.
  rewrite last_valid_app, last_valid_one, Hp. exact Hp.
Qed.

Lemma ffill_from_notna c (s : TimeSeries) :
  notna c = true -> Forall (fun p => notna (snd p) = true) (ffill_from c s).
Proof.
  revert c. induction s as [|[t v] s IH]; intros c Hc; simpl; constructor.
  - simpl. by destruct v.
  - apply IH. by destruct v.
Qed.

Lemma to_numpy_notna (s : TimeSeries) :
  Forall (fun p => notna (snd p) = true) s ->
  exists y, to_numpy s = Ok y /\ length y = length s.
Proof.
  induction 1 as [|[t [v|]] s Hp _ (y & Hy & Hlen)]; simpl; [by exists []| |done].
  rewrite Hy. simpl. exists (v :: y). split; [done|]. simpl. by rewrite Hlen.
Qed.

Lemma resample_ffill_notna (step : positive) (s : TimeSeries) :
  s <> [] ->
  Forall (fun p => notna (snd p) = true) s ->
  Forall (fun p => notna (snd p) = true) (resample_ffill (Z.pos step) s).
Proof.
  intros Hne Hall.
  destruct s as [|p rest]; [done|].
  assert (Hstep : 0 < Z.pos step) by lia.
  unfold resample_ffill, resample_last, ffill.
  set (tmin := index_min (fst p) rest).
  set (lo := floor_to (normalize tmin) (Z.pos step) tmin).
  cbn [buckets ffill_from].
  set (b := List.filter (in_bucket lo (Z.pos step)) (p :: rest)).
  assert (Hb : notna (last_valid b) = true).
  { apply last_valid_notna.
    - destruct (index_min_spec (fst p) rest) as [Hin _]. fold tmin in Hin.
      change (fst p :: map fst rest) with (map fst (p :: rest)) in Hin.
      apply in_map_iff in Hin as (x & Hx & Hin).
      assert (Hxb : In x b).
      { apply filter_In. split; [done|]. unfold in_bucket. rewrite Hx.
        pose proof (floor_to_spec (normalize tmin) (Z.pos step) tmin Hstep).
        fold lo in H.
        destruct (Z.leb_spec lo tmin), (Z.ltb_spec tmin (lo + Z.pos step));
          try done; lia. }
      intros Hnil. by rewrite Hnil in Hxb.
    - rewrite List.Forall_forall in *. intros x [Hx _]%filter_In. by apply Hall. }
  constructor.
  - simpl. by rewrite Hb.
  - rewrite Hb. by apply ffill_from_notna.
Qed.

(** Forward-filling after resampling leaves no gap: a series without
    missing values that is not empty is resampled to a series without
    missing values, which the fit accepts. *)
Theorem resample_ffill_no_nan (step : positive) (s : TimeSeries) :
  s <> [] ->
  Forall (fun p => notna (snd p) = true) s ->
  Forall (fun p => notna (snd p) = true) (resample_ffill (Z.pos step) s)
  /\ exists y, to_numpy (resample_ffill (Z.pos step) s) = Ok y
               /\ length y = length (resample_ffill (Z.pos step) s).
Proof.
  intros Hne Hall.
  pose proof (resample_ffill_notna step s Hne Hall) as H.
  split; [done | by apply to_numpy_notna].
Qed.

End ResampledSeries.

Section CarriedForward.
Import Pandas MlTrend Spec.

Lemma filter_before_split e step (s : TimeSeries) :
  0 < step ->
  StronglySorted (fun a b => fst a <= fst b) s ->
  List.filter (fun p => fst p <? e + step) s
  = List.filter (fun p => fst p <? e) s ++ List.filter (in_bucket e step) s.
Proof.
  intros Hstep. induction 1 as [|x l Hs IH Hall]; simpl; [done|].
  unfold in_bucket at 1.
  destruct (Z.ltb_spec (fst x) (e + step)), (Z.ltb_spec (fst x) e),
    (Z.leb_spec e (fst x)); simpl; try lia.
  - by rewrite IH.
  - rewrite IH. rewrite (filter_none (fun p => fst p <? e) l); [done|].
    eapply List.Forall_impl; [|exact Hall]. simpl. intros y Hy.
    destruct (Z.ltb_spec (fst y) e); [lia | done].
  - exact IH.
Qed.

Lemma ffill_buckets_carried (s : TimeSeries) step :
  0 < step ->
  StronglySorted (fun a b => fst a <= fst b) s ->
  forall n e,
    ffill_from (last_valid (List.filter (fun p => fst p <? e) s))
               (buckets s step e n)
    = map (fun k => (e + Z.of_nat k * step,
                     last_valid
                       (List.filter
                          (fun p => fst p <? e + Z.of_nat k * step + step) s)))
          (seq 0 n).
Proof.
  intros Hstep Hs. induction n as [|n IH]; intros e; [done|].
  cbn [buckets ffill_from seq map].
  assert (Hv : (if notna (last_valid (List.filter (in_bucket e step) s))
                then last_valid (List.filter (in_bucket e step) s)
                else last_valid (List.filter (fun p => fst p <? e) s))
               = last_valid (List.filter (fun p => fst p <? e + step) s)).
  { by rewrite (filter_before_split e step s Hstep Hs), last_valid_app. }
  rewrite Hv, (IH (e + step)). f_equal.
  - simpl. by rewrite Z.add_0_r.
  - rewrite <- seq_shift, List.map_map. apply map_ext. intros k.
    replace (e + step + Z.of_nat k * step) with (e + Z.of_nat (S k) * step)
      by lia.
    done.
Qed.

(** Last observation carried forward.  On a series in time order, every
    point of the resampled series holds the value of the latest sample
    (with a value) taken before the end of its bucket. *)
Theorem resample_ffill_carries_last (step : positive) (s : TimeSeries)
    (e : Z) (v : option Q) :
  StronglySorted (fun a b => fst a <= fst b) s ->
  In (e, v) (resample_ffill (Z.pos step) s) ->
  v = last_valid (List.filter (fun p => fst p <? e + Z.pos step) s).
Proof.
  intros Hs Hin. assert (Hstep : 0 < Z.pos step) by lia.
  destruct s as [|p rest]; [done|].
  unfold resample_ffill, resample_last, ffill in Hin.
  set (tmin := index_min (fst p) rest) in *.
  set (lo := floor_to (normalize tmin) (Z.pos step) tmin) in *.
  assert (Hnone : None = last_valid (List.filter (fun q => fst q <? lo) (p :: rest))).
  { rewrite filter_none; [done|].
    destruct (index_min_spec (fst p) rest) as [_ Hmin]. fold tmin in Hmin.
    pose proof (floor_to_spec (normalize tmin) (Z.pos step) tmin Hstep) as Hlo.
    fold lo in Hlo.
    change (fst p :: map fst rest) with (map fst (p :: rest)) in Hmin.
    rewrite List.Forall_forall in *. intros x Hx.
    specialize (Hmin (fst x) (in_map fst _ _ Hx)). simpl in Hmin.
    destruct (Z.ltb_spec (fst x) lo); [lia | done]. }
  rewrite Hnone, (ffill_buckets_carried _ _ Hstep Hs) in Hin.
  apply in_map_iff in Hin as (k & [= <- <-] & _). done.
Qed.

(** In the gappy series, the empty second minute holds the last value of
    the first minute. *)
Lemma resample_ffill_carries_last_gappy :
  In (Samples.new_year + 60000000000, Some 2%Q)
     (resample_ffill (Z.pos Samples.one_minute) Samples.gappy)
  /\ Some 2%Q
     = last_valid
         (List.filter
            (fun p => fst p <? Samples.new_year + 60000000000
                               + Z.pos Samples.one_minute)
            Samples.gappy).
Proof.
  assert (Hin : In (Samples.new_year + 60000000000, Some 2%Q)
                   (resample_ffill (Z.pos Samples.one_minute) Samples.gappy))
    by (right; left; reflexivity).
  split; [exact Hin|].
  apply (resample_ffill_carries_last Samples.one_minute Samples.gappy _ _);
    [|exact Hin].
  unfold Samples.gappy, Samples.new_year. repeat (constructor; simpl); lia.
Defined.

(** The gappy series has no missing value after resampling. *)
Lemma resample_ffill_no_nan_gappy :
  Forall (fun p => notna (snd p) = true)
         (resample_ffill (Z.pos Samples.one_minute) Samples.gappy)
  /\ exists y,
       to_numpy (resample_ffill (Z.pos Samples.one_minute) Samples.gappy) = Ok y
       /\ length y
          = length (resample_ffill (Z.pos Samples.one_minute) Samples.gappy).
Proof.
  apply (resample_ffill_no_nan Samples.one_minute Samples.gappy).
  - discriminate.
  - repeat constructor.
Defined.

End CarriedForward.

(* ===================================================================== *)
(** * Further properties: when the trend script writes its forecast       *)
(* ===================================================================== *)

Section TrendCompletes.
Import Pandas MlTrend Spec.
Context {sort : TimeSort}.

(** The number of points of the resampled series, from the bucket of the
    earliest sample to the bucket of the latest. *)
Lemma resample_ffill_span (step : positive) (p : Z * option Q) (rest : TimeSeries) :
  let lo := floor_to (normalize (index_min (fst p) rest)) (Z.pos step)
                     (index_min (fst p) rest) in
  let n := Z.of_nat (length (resample_ffill (Z.pos step) (p :: rest))) in
  1 <= n
  /\ lo + (n - 1) * Z.pos step <= index_max (fst p) rest < lo + n * Z.pos step.
Proof.
  intros lo n. assert (Hstep : 0 < Z.pos step) by lia.
  set (tmin := index_min (fst p) rest) in *.
  set (tmax := index_max (fst p) rest).
  set (hi := floor_to (normalize tmin) (Z.pos step) tmax).
  assert (Hle : tmin <= tmax).
  { destruct (index_min_spec (fst p) rest) as [_ Hmin].
    destruct (index_max_spec (fst p) rest) as [_ Hmax].
    apply Forall_inv in Hmin, Hmax. subst tmin tmax. lia. }
  pose proof (floor_to_spec (normalize tmin) (Z.pos step) tmax Hstep) as Hhi.
  pose proof (floor_to_mono (normalize tmin) (Z.pos step) tmin tmax Hstep Hle)
    as Hlohi.
  fold lo in Hlohi. fold hi in Hhi, Hlohi.
  assert (Hk : exists k, 0 <= k /\ hi = lo + k * Z.pos step).
  { exists ((tmax - normalize tmin) / Z.pos step
            - (tmin - normalize tmin) / Z.pos step).
    subst lo hi. unfold floor_to in *. split; nia. }
  destruct Hk as (k & Hk0 & Hk).
  assert (Hlen : n = k + 1).
  { subst n. unfold resample_ffill, resample_last, ffill.
    rewrite ffill_from_length, buckets_length.
    fold tmin. fold lo. fold tmax. fold hi.
    replace (hi - lo) with (k * Z.pos step) by lia.
    rewrite Z.div_mul by lia. lia. }
  lia.
Qed.

Lemma sorted_index_min (p : Z * option Q) (rest : TimeSeries) :
  StronglySorted (fun a b => fst a < fst b) (p :: rest) ->
  index_min (fst p) rest = fst p.
Proof.
  intros Hs. apply StronglySorted_inv in Hs as [_ Hall].
  unfold index_min. apply fold_min_lower. apply Forall_map.
  eapply List.Forall_impl; [|exact Hall]. simpl. intros. lia.
Qed.

Lemma last_cons {A} (r : list A) : forall x p, List.last (x :: r) p = List.last r x.
Proof.
  induction r as [|y r IH]; intros x p; [done|].
  change (List.last (x :: y :: r) p) with (List.last (y :: r) p).
  by rewrite !IH.
Qed.

Lemma sorted_last_max (rest : TimeSeries) : forall p,
  StronglySorted (fun a b => fst a < fst b) (p :: rest) ->
  In (List.last rest p) (p :: rest)
  /\ Forall (fun x => fst x <= fst (List.last rest p)) (p :: rest).
Proof.
  induction rest as [|x rest IH]; intros p Hs.
  - split; [by left|]. repeat constructor. simpl. lia.
  - apply StronglySorted_inv in Hs as [Hs Hall].
    destruct (IH x Hs) as [Hin Hmax]. rewrite last_cons.
    split; [by right|]. constructor; [|done].
    apply Forall_inv in Hall, Hmax. lia.
Qed.

Lemma sorted_index_max (rest : TimeSeries) (p : Z * option Q) :
  StronglySorted (fun a b => fst a < fst b) (p :: rest) ->
  index_max (fst p) rest = fst (List.last rest p).
Proof.
  intros Hs. destruct (sorted_last_max rest p Hs) as [Hin Hmax].
  destruct (index_max_spec (fst p) rest) as [Hin' Hmax'].
  change (fst p :: map fst rest) with (map fst (p :: rest)) in Hin', Hmax'.
  apply in_map_iff in Hin' as (x & Hx & Hxin).
  rewrite List.Forall_forall in Hmax, Hmax'.
  specialize (Hmax x Hxin).
  specialize (Hmax' _ (in_map fst _ _ Hin)). simpl in Hmax'. lia.
Qed.

Lemma main_Ok_metric a loaded run :
  main a loaded = Ok run -> metric a <> "Time"%string.
Proof.
  unfold main. destruct loaded as [df|e]; [|done].
  destruct (in_columns "Time" df); [|done].
  destruct (in_columns (metric a) df); [|done]. cbn [negb].
  destruct (String.eqb_spec (metric a) "Time"); done.
Qed.

(** When the trend script writes its forecast.  A run that gets there has
    a table with a column Time and the metric column (which is not Time
    itself), an interval that pandas accepts, some row with both a
    timestamp and a number, the latest such row at least two steps after
    the start of the bucket of the earliest one - so that three buckets are
    spanned - and a number of steps that line 67 computes without an
    error.  These conditions are also all it takes, for a forecast index
    that ends within the timestamps of 64-bit nanoseconds. *)
Theorem main_writes_forecast (a : Args) (df : DataFrame) :
  ((exists run, main a (Ok df) = Ok run) ->
   in_columns "Time" df = true
   /\ in_columns (metric a) df = true
   /\ metric a <> "Time"%string
   /\ exists step p ps n,
        interval a = Some step
        /\ numeric_series (clean df (metric a)) = p :: ps
        /\ floor_to (normalize (fst p)) (Z.pos step) (fst p) + 2 * Z.pos step
           <= fst (List.last ps p)
        /\ n_steps (horizon_hours a) (Z.pos step) = Ok n)
  /\ (forall step p ps n,
        in_columns "Time" df = true ->
        in_columns (metric a) df = true ->
        metric a <> "Time"%string ->
        interval a = Some step ->
        numeric_series (clean df (metric a)) = p :: ps ->
        floor_to (normalize (fst p)) (Z.pos step) (fst p) + 2 * Z.pos step
        <= fst (List.last ps p) ->
        n_steps (horizon_hours a) (Z.pos step) = Ok n ->
        fst (List.last ps p) + n * Z.pos step <= INT64_MAX ->
        exists run,
          main a (Ok df) = Ok run
          /\ files_written (main a (Ok df)) = [out_forecast a]).
Proof.
  pose proof (numeric_series_sorted df (metric a)) as Hsorted.
  pose proof (numeric_series_notna df (metric a)) as Hnotna.
  split.
  - intros [run Hrun]. pose proof (main_Ok_metric _ _ _ Hrun) as Hne.
    apply main_Ok in Hrun
      as (df' & step & n & t0 & v0 & rest & y
          & [= <-] & Ht & Hm & Hi & Hr & Hlen & _ & Hn & _).
    split; [done|]. split; [done|]. split; [done|].
    destruct (numeric_series (clean df (metric a))) as [|p ps] eqn:Es; [done|].
    exists step, p, ps, n. split; [done|]. split; [done|]. split; [|done].
    pose proof (resample_ffill_span step p ps) as [_ Hspan].
    rewrite Hr, (sorted_index_min p ps Hsorted),
      (sorted_index_max ps p Hsorted) in Hspan.
    cbv zeta in Hspan. nia.
  - intros step p ps n Ht Hm Hne Hi Es Hspan Hn _.
    rewrite Es in Hsorted, Hnotna.
    destruct (to_numpy_notna (resample_ffill (Z.pos step) (p :: ps)))
      as (y & Hy & _); [by apply resample_ffill_notna|].
    pose proof (resample_ffill_span step p ps) as [Hn1 Hlen].
    rewrite (sorted_index_min p ps Hsorted),
      (sorted_index_max ps p Hsorted) in Hlen.
    cbv zeta in Hlen, Hn1.
    destruct (resample_ffill (Z.pos step) (p :: ps)) as [|[t0 v0] rest] eqn:Er;
      [simpl in Hn1; lia|].
    exists (report a (Z.pos step) n t0 v0 rest y).
    assert (E : main a (Ok df) = Ok (report a (Z.pos step) n t0 v0 rest y)).
    { apply (main_complete a df step n p ps); try done.
      + by apply String.eqb_neq.
      + assert (3 <= Z.of_nat (length ((t0, v0) :: rest))) by nia. lia. }
    split; [done|]. rewrite E. unfold files_written, report.
    by destruct (fit _ y).
Qed.

End TrendCompletes.

Section TrendCompletesOnSamples.
Import Pandas MlTrend Spec.
#[local] Existing Instance insertion_time_sort.

(** The ramp of ten minutes at one minute: nine steps from the first bucket
    to the last sample, and sixty steps of forecast. *)
Lemma main_writes_forecast_ramp :
  exists run,
    main (Samples.trend_args "ops" Samples.one_minute 1 None)
         (Ok (Samples.ramp Samples.new_year 10)) = Ok run
    /\ files_written
         (main (Samples.trend_args "ops" Samples.one_minute 1 None)
               (Ok (Samples.ramp Samples.new_year 10)))
       = ["/tmp/forecast.csv"%string].
Proof.
  apply (proj2 (main_writes_forecast
                  (Samples.trend_args "ops" Samples.one_minute 1 None)
                  (Samples.ramp Samples.new_year 10))
               Samples.one_minute (Samples.new_year, Some 0%Q)
               (tl (Samples.ramp_series Samples.new_year 10)) 60).
  - reflexivity.
  - reflexivity.
  - discriminate.
  - reflexivity.
  - vm_compute. reflexivity.
  - vm_compute. discriminate.
  - vm_compute. reflexivity.
  - vm_compute. discriminate.
Defined.

End TrendCompletesOnSamples.

(* ===================================================================== *)
(** * Further properties: the forecast that is written                    *)
(* ===================================================================== *)

Section ForecastRows.
Import Pandas MlTrend Spec.
Context {sort : TimeSort}.

Lemma seq_offset (i m n : nat) :
  seq (i + m) n = map (fun k => (k + m)%nat) (seq i n).
Proof.
  revert i. induction n as [|n IH]; intros i; simpl; [done|].
  f_equal. apply (IH (S i)).
Qed.

Lemma combine_map_r {A B} (g : A -> B) (l : list A) :
  combine l (map g l) = map (fun x => (x, g x)) l.
Proof. induction l as [|x l IH]; simpl; [done|]. by rewrite IH. Qed.

Lemma to_numpy_Ok_notna (s : TimeSeries) y :
  to_numpy s = Ok y -> Forall (fun p => notna (snd p) = true) s.
Proof.
  revert y. induction s as [|[t [v|]] s IH]; intros y; simpl; [constructor| |done].
  destruct (to_numpy s) as [y'|e]; [|done]. intros _.
  constructor; [done|]. by apply (IH y').
Qed.

Lemma on_grid_last e step (rest : TimeSeries) : forall p,
  on_grid e step (p :: rest) ->
  fst (List.last rest p) = e + Z.of_nat (length rest) * step.
Proof.
  revert e. induction rest as [|x rest IH]; intros e p [Hp Hrest].
  - simpl. lia.
  - rewrite last_cons, (IH (e + step) x Hrest). simpl length. lia.
Qed.

Lemma resample_ffill_on_grid (step : positive) (s : TimeSeries) t0 v0 rest :
  resample_ffill (Z.pos step) s = (t0, v0) :: rest ->
  on_grid t0 (Z.pos step) ((t0, v0) :: rest).
Proof.
  intros Hr. destruct (resample_last_grid (Z.pos step) s) as (e & _ & Hgrid);
    [lia|].
  apply (ffill_from_on_grid _ _ None) in Hgrid.
  change (ffill_from None (resample_last (Z.pos step) s))
    with (resample_ffill (Z.pos step) s) in Hgrid.
  rewrite Hr in Hgrid. pose proof Hgrid as [He _]. simpl in He. by subst e.
Qed.

(** The time column of the forecast is one grid: from the first observed
    row to the last predicted row, each row is one step of the interval
    after the row before it. *)
Theorem forecast_times_on_grid (a : Args) (loaded : result DataFrame)
    (run : Run) (step : positive) :
  main a loaded = Ok run ->
  interval a = Some step ->
  exists t0,
    map Time (forecast run)
    = map (fun k => t0 + Z.of_nat k * Z.pos step)
          (seq 0 (length (forecast run))).
Proof.
  intros Hmain Hint.
  apply main_Ok in Hmain
    as (df & step' & n & t0 & v0 & rest & y
        & _ & _ & _ & Hint' & Hr & _ & _ & _ & ->).
  rewrite Hint in Hint'. injection Hint' as <-.
  apply resample_ffill_on_grid in Hr as Hgrid.
  exists t0. unfold report. destruct (fit _ y) as [sl ic]. cbn [forecast].
  rewrite (on_grid_last _ _ _ _ Hgrid).
  rewrite combine_map_r, length_app, !length_map, List.map_app, !List.map_map.
  cbn [Time fst]. unfold date_range. rewrite length_map, length_seq.
  rewrite seq_app, List.map_app. f_equal.
  - change (map (fun x : Z * option Q => fst x) ((t0, v0) :: rest))
      with (map fst ((t0, v0) :: rest)).
    by rewrite (on_grid_times _ _ _ Hgrid).
  - rewrite (seq_offset 0), !List.map_map. apply map_ext. intros k.
    simpl length. lia.
Qed.

End ForecastRows.

Section ForecastReach.
Import Pandas MlTrend Spec.
Context {sort : TimeSort}.

(** How far the forecast goes.  There are at least three observed rows and
    at least one predicted row, and exactly one for a horizon of zero or
    less.  At an interval of a whole number of seconds, a horizon shorter
    than two steps gives exactly one predicted row, and a horizon of at
    least one step gives as many steps as fit into it, and not one more. *)
Theorem forecast_reach (a : Args) (loaded : result DataFrame) (run : Run)
    (step : positive) :
  main a loaded = Ok run ->
  interval a = Some step ->
  let n := Z.of_nat (length (predicted_rows run)) in
  let horizon_ns := horizon_hours a * 3600 * NS_PER_SECOND in
  (3 <= length (observed_rows run))%nat
  /\ 1 <= n
  /\ (horizon_hours a <= 0 -> n = 1)
  /\ (forall k : Z,
        Z.pos step = k * NS_PER_SECOND -> k < 2 ^ 53 ->
        0 <= horizon_hours a -> horizon_hours a * 3600 < 2 ^ 53 ->
        (horizon_ns < 2 * Z.pos step -> n = 1)
        /\ (Z.pos step <= horizon_ns ->
            n * Z.pos step <= horizon_ns < (n + 1) * Z.pos step)).
Proof.
  intros Hmain Hint n horizon_ns.
  apply main_Ok in Hmain
    as (df & step' & n' & t0 & v0 & rest & y
        & _ & _ & _ & Hint' & _ & Hlen & _ & Hn & ->).
  rewrite Hint in Hint'. injection Hint' as <-.
  destruct (report_forecast a (Z.pos step) n' t0 v0 rest y) as (Hobs & Hpred & _).
  pose proof (n_steps_at_least_1 _ _ _ Hn) as Hn1.
  assert (En : n = n') by (subst n; rewrite Hpred; lia).
  clearbody n. subst n'. clear Hpred.
  rewrite Hobs, length_map.
  split; [done|]. split; [done|]. split.
  { intros Hh. apply (n_steps_nonpos _ _ _ Hh (Pos2Z.is_pos step) Hn). }
  intros k Hk Hk53 Hh Hh53.
  assert (Hk0 : 0 < k) by (unfold NS_PER_SECOND in Hk; lia).
  rewrite Hk in Hn. rewrite n_steps_whole_seconds in Hn by lia.
  injection Hn as Hn.
  assert (Hq : horizon_ns / Z.pos step = horizon_hours a * 3600 / k).
  { subst horizon_ns. rewrite Hk. unfold NS_PER_SECOND.
    rewrite Z.div_mul_cancel_r by lia. done. }
  rewrite <- Hq in Hn. subst n. split.
  - intros Hlt. assert (horizon_ns / Z.pos step < 2); [|lia].
    apply Z.div_lt_upper_bound; lia.
  - intros Hle.
    assert (1 <= horizon_ns / Z.pos step)
      by (apply Z.div_le_lower_bound; lia).
    rewrite Z.max_l by lia.
    pose proof (Z.mul_div_le horizon_ns (Z.pos step)).
    pose proof (Z.mul_succ_div_gt horizon_ns (Z.pos step)). lia.
Qed.

(** No row of the forecast has a missing value, and the value of every
    predicted row is slope * hours + intercept, for the slope and the
    intercept that are printed and the hours between the first observed
    row and that row. *)
Theorem forecast_values (a : Args) (loaded : result DataFrame) (run : Run) :
  main a loaded = Ok run ->
  (forall r, In r (forecast run) -> value r <> None)
  /\ exists t0 later,
       map Time (observed_rows run) = t0 :: later
       /\ forall r, In r (predicted_rows run) ->
            exists v,
              value r = Some v
              /\ (v == slope run
                       * (inject_Z (Time r - t0) / 3600000000000)
                       + intercept run)%Q.
Proof.
  intros Hmain.
  apply main_Ok in Hmain
    as (df & step & n & t0 & v0 & rest & y
        & _ & _ & _ & _ & _ & _ & Hy & _ & ->).
  destruct (report_forecast a (Z.pos step) n t0 v0 rest y) as (Hobs & _ & _).
  apply to_numpy_Ok_notna in Hy.
  set (run := report a (Z.pos step) n t0 v0 rest y) in *.
  assert (Hpred : forall r,
             In r (forecast run) ->
             type r = predicted ->
             exists v,
               value r = Some v
               /\ (v == slope run
                        * (inject_Z (Time r - t0) / 3600000000000)
                        + intercept run)%Q).
  { subst run. unfold report. destruct (fit _ y) as [sl ic].
    cbn [forecast slope intercept].
    intros r [Hin|Hin]%in_app_or Ht.
    - apply in_map_iff in Hin as (p & <- & _). discriminate.
    - rewrite combine_map_r, List.map_map in Hin.
      apply in_map_iff in Hin as (t & <- & _). cbn [value Time fst snd].
      eexists. split; [reflexivity|].
      unfold predict, elapsed_hours. rewrite !Qred_correct.
      unfold Z.sub. rewrite inject_Z_plus, inject_Z_opp.
      change (inject_Z NS_PER_SECOND) with (1000000000 # 1)%Q. field. }
  split.
  - intros r Hin. destruct (type r) eqn:Ht.
    + assert (Hr : In r (observed_rows run)).
      { apply filter_In. split; [done|]. unfold is_observed. by rewrite Ht. }
      rewrite Hobs in Hr. apply in_map_iff in Hr as (p & <- & Hp). simpl.
      rewrite List.Forall_forall in Hy. specialize (Hy p Hp).
      by destruct (snd p).
    + destruct (Hpred r Hin Ht) as (v & -> & _). done.
  - exists t0, (map fst rest). split; [by rewrite Hobs, List.map_map|].
    intros r [Hin Ht]%filter_In. apply (Hpred r Hin).
    unfold is_observed in Ht. by destruct (type r).
Qed.

End ForecastReach.

Section ForecastOnSamples.
Import Pandas MlTrend Spec.
#[local] Existing Instance insertion_time_sort.

(** One hour ahead in steps of seven minutes: eight steps fit, the ninth
    does not. *)
Lemma forecast_reach_seven_minutes :
  exists run,
    main (Samples.trend_args "ops" Samples.seven_minutes 1 None)
         (Ok (Samples.ramp Samples.new_year 30)) = Ok run
    /\ (3 <= length (observed_rows run))%nat
    /\ Z.of_nat (length (predicted_rows run)) * Z.pos Samples.seven_minutes
       <= 1 * 3600 * NS_PER_SECOND
       < (Z.of_nat (length (predicted_rows run)) + 1) * Z.pos Samples.seven_minutes.
Proof.
  assert (H : exists run,
             main (Samples.trend_args "ops" Samples.seven_minutes 1 None)
                  (Ok (Samples.ramp Samples.new_year 30)) = Ok run)
    by (eexists; vm_compute; reflexivity).
  destruct H as [run H]. exists run. split; [exact H|].
  destruct (forecast_reach _ _ run Samples.seven_minutes H eq_refl)
    as (Hobs & _ & _ & Hwhole).
  split; [exact Hobs|].
  destruct (Hwhole 420) as [_ Hfit]; [reflexivity | done | done | done |].
  apply Hfit. vm_compute. discriminate.
Defined.

(** No row of the forecast of the ramp has a missing value. *)
Lemma forecast_values_ramp :
  exists run,
    main (Samples.trend_args "ops" Samples.one_minute 1 None)
         (Ok (Samples.ramp Samples.new_year 10)) = Ok run
    /\ (forall r, In r (forecast run) -> value r <> None).
Proof.
  assert (H : exists run,
             main (Samples.trend_args "ops" Samples.one_minute 1 None)
                  (Ok (Samples.ramp Samples.new_year 10)) = Ok run)
    by (eexists; vm_compute; reflexivity).
  destruct H as [run H]. exists run. split; [exact H|].
  exact (proj1 (forecast_values _ _ run H)).
Defined.

(** The rows of the forecast of the ramp are one minute apart. *)
Lemma forecast_times_ramp :
  exists run,
    main (Samples.trend_args "ops" Samples.one_minute 1 None)
         (Ok (Samples.ramp Samples.new_year 10)) = Ok run
    /\ exists t0,
         map Time (forecast run)
         = map (fun k => t0 + Z.of_nat k * Z.pos Samples.one_minute)
               (seq 0 (length (forecast run))).
Proof.
  assert (H : exists run,
             main (Samples.trend_args "ops" Samples.one_minute 1 None)
                  (Ok (Samples.ramp Samples.new_year 10)) = Ok run)
    by (eexists; vm_compute; reflexivity).
  destruct H as [run H]. exists run. split; [exact H|].
  exact (forecast_times_on_grid _ _ run Samples.one_minute H eq_refl).
Defined.

End ForecastOnSamples.

(* ===================================================================== *)
(** * Further properties: which way the threshold is crossed              *)
(* ===================================================================== *)

Section EtaDirection.
Import Pandas MlTrend Spec.

Lemma elapsed_hours_ns t0 (t : Q) :
  (elapsed_hours t0 t * inject_Z NS_PER_HOUR == t - inject_Z t0)%Q.
Proof.
  unfold elapsed_hours. rewrite Qred_correct.
  change (inject_Z NS_PER_HOUR) with (3600000000000 # 1)%Q.
  change (inject_Z NS_PER_SECOND) with (1000000000 # 1)%Q.
  field.
Qed.

(** The ETA report follows the direction of the trend.  With a slope other
    than zero the threshold is never reported as unreachable.  The ETA
    lines raise exactly when the hours to the crossing, in nanoseconds, or
    the time of the crossing do not fit 64-bit nanoseconds.  Otherwise the
    threshold is reported as already reached exactly when the fitted line,
    at the last observed sample, is at or beyond the threshold in the
    direction of the slope - at or above it on a rising line, at or below
    it on a falling line - and as a projected ETA otherwise. *)
Theorem eta_follows_slope (thr sl ic : Q) (t0 t_last : Z) :
  ~ (sl == 0)%Q ->
  let y_last := line sl ic (elapsed_hours t0 (inject_Z t_last)) in
  let delta := ((thr - ic) / sl * inject_Z NS_PER_HOUR)%Q in
  let eta_ts := (inject_Z t0 + delta)%Q in
  let in_reach := representable delta /\ representable eta_ts in
  eta thr sl ic t0 t_last <> Ok Unreachable
  /\ ((exists e, eta thr sl ic t0 t_last = Raise e) <-> ~ in_reach)
  /\ (eta thr sl ic t0 t_last = Ok (AlreadyReached eta_ts) <->
      in_reach
      /\ ((0 < sl /\ thr <= y_last)%Q \/ (sl < 0 /\ y_last <= thr)%Q))
  /\ (eta thr sl ic t0 t_last = Ok (Projected eta_ts) <->
      in_reach
      /\ ((0 < sl /\ y_last < thr)%Q \/ (sl < 0 /\ thr < y_last)%Q)).
Proof.
  intros Hsl y_last delta eta_ts in_reach.
  pose proof (elapsed_hours_ns t0 (inject_Z t_last)) as Hh.
  set (h := elapsed_hours t0 (inject_Z t_last)) in *.
  assert (Hx : ((thr - ic) / sl * sl == thr - ic)%Q) by (field; done).
  set (x := ((thr - ic) / sl)%Q) in *.
  assert (Hcmp : (eta_ts <= inject_Z t_last <-> x <= h)%Q).
  { subst eta_ts delta.
    change (inject_Z NS_PER_HOUR) with (3600000000000 # 1)%Q in *.
    split; intros H; lra. }
  assert (Hdir : (x <= h <-> (0 < sl /\ thr <= y_last) \/ (sl < 0 /\ y_last <= thr))%Q).
  { subst y_last. unfold line. fold h.
    destruct (Q_dec sl 0) as [[Hneg|Hpos]|Hz]; [| |done].
    - split.
      + intros H. right. split; [done|]. nra.
      + intros [[Hp _]|[_ H]]; [lra | nra].
    - split.
      + intros H. left. split; [done|]. nra.
      + intros [[_ H]|[Hn _]]; [nra | lra]. }
  assert (Hdir' : (~ x <= h <-> (0 < sl /\ y_last < thr) \/ (sl < 0 /\ thr < y_last))%Q).
  { rewrite Hdir. destruct (Q_dec sl 0) as [[Hneg|Hpos]|Hz]; [| |done].
    - split.
      + intros H. right. split; [done|]. apply Qnot_le_lt. intros Hle.
        apply H. right. done.
      + intros [[Hp _]|[_ H]]; [lra|]. intros [[Hp _]|[_ Hle]]; lra.
    - split.
      + intros H. left. split; [done|]. apply Qnot_le_lt. intros Hle.
        apply H. left. done.
      + intros [[_ H]|[Hn _]]; [|lra]. intros [[_ Hle]|[Hn _]]; lra. }
  unfold eta. fold x.
  destruct (Qeq_bool sl 0) eqn:E; [by apply Qeq_bool_iff in E|].
  unfold eta_timestamp, to_timedelta_hours. fold delta.
  destruct (in_bounds delta) eqn:E1; simpl.
  - fold eta_ts. destruct (in_bounds eta_ts) eqn:E2; simpl.
    + apply in_bounds_iff in E1, E2.
      assert (Hreach : in_reach) by done.
      destruct (Qle_bool eta_ts (inject_Z t_last)) eqn:E'.
      * apply Qle_bool_iff in E'. apply Hcmp in E' as Hxh.
        split; [done|]. split; [|split].
        -- split; [by intros [e ?] | done].
        -- split; [intros _; split; [done | by apply Hdir] | done].
        -- split; [done|]. intros [_ H%Hdir']. done.
      * assert (Hn : ~ (x <= h)%Q).
        { intros H%Hcmp%Qle_bool_iff. congruence. }
        split; [done|]. split; [|split].
        -- split; [by intros [e ?] | done].
        -- split; [done|]. intros [_ H%Hdir]. done.
        -- split; [intros _; split; [done | by apply Hdir'] | done].
    + assert (Hout : ~ in_reach).
      { intros [_ H%in_bounds_iff]. congruence. }
      split; [done|]. split; [|split].
      * split; [done | by eexists].
      * split; [done | by intros [? _]].
      * split; [done | by intros [? _]].
  - assert (Hout : ~ in_reach).
    { intros [H%in_bounds_iff _]. congruence. }
    split; [done|]. split; [|split].
    + split; [done | by eexists].
    + split; [done | by intros [? _]].
    + split; [done | by intros [? _]].
Qed.

(** A falling line that starts at 10 was at 20 ten hours before the first
    sample: already reached. *)
Lemma eta_follows_slope_falling :
  eta 20 (-1) 10 0 3600000000000
  = Ok (AlreadyReached
          (inject_Z 0 + (20 - 10) / -1 * inject_Z NS_PER_HOUR)%Q).
Proof.
  destruct (eta_follows_slope 20 (-1) 10 0 3600000000000) as (_ & _ & H & _);
    [discriminate|].
  apply H. split.
  - split; split; discriminate.
  - right. split; reflexivity || discriminate.
Defined.

End EtaDirection.

(* ===================================================================== *)
(** * Further properties: the fit of a series that is a line              *)
(* ===================================================================== *)

Section FitOfALine.
Import Pandas MlTrend Spec.
Context {sort : TimeSort}.

Lemma qsum_cons x l : (qsum (x :: l) == x + qsum l)%Q.
Proof. unfold qsum. simpl. apply Qred_correct. Qed.

Lemma qsum_linear a b X y :
  Forall2 (fun x v => (v == a * x + b)%Q) X y ->
  (qsum y == a * qsum X + inject_Z (Z.of_nat (length X)) * b)%Q.
Proof.
  induction 1 as [|x v X y Hv _ IH].
  - simpl. change (qsum []) with 0%Q. change (inject_Z 0) with 0%Q. ring.
  - rewrite !qsum_cons, IH, Hv. simpl length.
    rewrite Nat2Z.inj_succ, <- Z.add_1_r, inject_Z_plus.
    change (inject_Z 1) with 1%Q. ring.
Qed.

Lemma qsum_products a b mx my X y :
  (my == a * mx + b)%Q ->
  Forall2 (fun x v => (v == a * x + b)%Q) X y ->
  (qsum (map (fun xy => (fst xy - mx) * (snd xy - my))%Q (combine X y))
   == a * qsum (map (fun x => (x - mx) * (x - mx))%Q X))%Q.
Proof.
  intros Hmy. induction 1 as [|x v X y Hv _ IH]; cbn [combine map fst snd].
  - change (qsum []) with 0%Q. ring.
  - rewrite !qsum_cons, IH, Hv, Hmy. ring.
Qed.

Lemma square_nonneg (d : Q) : (0 <= d * d)%Q.
Proof. nra. Qed.

Lemma square_pos (d : Q) : ~ (d == 0)%Q -> (0 < d * d)%Q.
Proof.
  intros Hd. destruct (Q_dec d 0) as [[Hlt|Hgt]|Heq]; [| |done]; nra.
Qed.

Lemma qsum_squares_nonneg mx X :
  (0 <= qsum (map (fun x => (x - mx) * (x - mx))%Q X))%Q.
Proof.
  induction X as [|x X IH]; cbn [map]; [done|].
  rewrite qsum_cons. pose proof (square_nonneg (x - mx)) as Hsq. lra.
Qed.

Lemma qsum_squares_pos mx X x :
  In x X -> ~ (x == mx)%Q ->
  (0 < qsum (map (fun x => (x - mx) * (x - mx))%Q X))%Q.
Proof.
  intros Hin Hne. induction X as [|x' X IH]; [done|]. cbn [map].
  rewrite qsum_cons. pose proof (qsum_squares_nonneg mx X) as Hrest.
  destruct Hin as [->|Hin].
  - assert (Hd : ~ (x - mx == 0)%Q) by (intros Hd; apply Hne; lra).
    pose proof (square_pos (x - mx) Hd). lra.
  - specialize (IH Hin). pose proof (square_nonneg (x' - mx)) as Hsq. lra.
Qed.

(** The least-squares line through points that lie on a line is that
    line. *)
Lemma fit_of_line a b X y :
  Forall2 (fun x v => (v == a * x + b)%Q) X y ->
  (exists x1 x2, In x1 X /\ In x2 X /\ ~ (x1 == x2)%Q) ->
  (fst (fit X y) == a)%Q /\ (snd (fit X y) == b)%Q.
Proof.
  intros Hline (x1 & x2 & H1 & H2 & Hne).
  assert (Hlen : length y = length X) by (symmetry; apply (Forall2_length _ _ _ Hline)).
  assert (Hn : ~ (inject_Z (Z.of_nat (length X)) == 0)%Q).
  { destruct X as [|x X]; [done|]. simpl length.
    intros H. unfold Qeq in H. simpl in H. lia. }
  assert (Hmy : (qmean y == a * qmean X + b)%Q).
  { unfold qmean. rewrite Hlen, (qsum_linear a b X y Hline). field. done. }
  pose proof (qsum_products a b (qmean X) (qmean y) X y Hmy Hline) as Hxy.
  assert (Hxx : (0 < qsum (map (fun x => (x - qmean X) * (x - qmean X))%Q X))%Q).
  { destruct (Qeq_dec x1 (qmean X)) as [Heq|Hd].
    - apply (qsum_squares_pos _ _ x2 H2). intros Heq2. apply Hne.
      by rewrite Heq, Heq2.
    - by apply (qsum_squares_pos _ _ x1 H1). }
  unfold fit. cbn [fst snd]. rewrite !Qred_correct.
  set (sxx := qsum (map (fun x => (x - qmean X) * (x - qmean X))%Q X)) in *.
  assert (Hslope : (qsum (map (fun xy => (fst xy - qmean X) * (snd xy - qmean y))%Q
                              (combine X y)) / sxx == a)%Q).
  { rewrite Hxy. field. lra. }
  split; [done|]. rewrite Hslope, Hmy. ring.
Qed.

Lemma series_on_line a b t0 (s : TimeSeries) y :
  to_numpy s = Ok y ->
  (forall p, In p s ->
     exists v, snd p = Some v
               /\ (v == a * elapsed_hours t0 (inject_Z (fst p)) + b)%Q) ->
  Forall2 (fun x v => (v == a * x + b)%Q)
          (map (fun p => elapsed_hours t0 (inject_Z (fst p))) s) y.
Proof.
  revert y. induction s as [|[t [v|]] s IH]; intros y; simpl.
  - intros [= <-] _. constructor.
  - destruct (to_numpy s) as [y'|e]; [|done]. intros [= <-] Hs.
    constructor.
    + destruct (Hs (t, Some v)) as (v' & [= <-] & Hv); [by left | done].
    + apply IH; [done|]. intros p Hp. apply Hs. by right.
  - done.
Qed.

(** A series that is a line is fitted by that line: when every observed
    value is a * hours + b, for the hours elapsed since the first observed
    row, the slope that is reported is a and the intercept is b. *)
Theorem trend_of_a_line (p : Args) (loaded : result DataFrame) (run : Run)
    (a b : Q) (t0 : Z) (later : list Z) :
  main p loaded = Ok run ->
  map Time (observed_rows run) = t0 :: later ->
  (forall r, In r (observed_rows run) ->
     exists v, value r = Some v
               /\ (v == a * elapsed_hours t0 (inject_Z (Time r)) + b)%Q) ->
  (slope run == a)%Q /\ (intercept run == b)%Q.
Proof.
  intros Hmain Ht0 Hline.
  apply main_Ok in Hmain
    as (df & step & n & t0' & v0 & rest & y
        & _ & _ & _ & _ & Hr & Hlen & Hy & _ & ->).
  destruct (report_forecast p (Z.pos step) n t0' v0 rest y) as (Hobs & _ & _).
  rewrite Hobs in Ht0, Hline. injection Ht0 as -> _.
  destruct (report_fit p (Z.pos step) n t0 v0 rest y) as [-> ->].
  apply resample_ffill_on_grid in Hr as Hgrid.
  apply fit_of_line.
  - apply series_on_line; [done|]. intros q Hq.
    apply (Hline {| Time := fst q; value := snd q; type := observed |}).
    apply in_map_iff. by exists q.
  - destruct rest as [|[t1 v1] rest]; [simpl in Hlen; lia|].
    destruct Hgrid as (_ & Ht1 & _). simpl in Ht1. subst t1.
    exists (elapsed_hours t0 (inject_Z t0)),
      (elapsed_hours t0 (inject_Z (t0 + Z.pos step))).
    split; [by left|]. split; [right; by left|].
    intros Heq.
    pose proof (elapsed_hours_ns t0 (inject_Z t0)) as H0.
    pose proof (elapsed_hours_ns t0 (inject_Z (t0 + Z.pos step))) as H1.
    rewrite <- Heq, H0, inject_Z_plus in H1.
    assert (Hs : (inject_Z (Z.pos step) == 0)%Q) by lra.
    unfold Qeq in Hs. simpl in Hs. lia.
Qed.

End FitOfALine.

Section FitOnSamples.
Import Pandas MlTrend Spec.
#[local] Existing Instance insertion_time_sort.

(** The ramp rises by one unit a minute from zero: slope 60, intercept 0. *)
Lemma trend_of_the_ramp :
  exists run,
    main (Samples.trend_args "ops" Samples.one_minute 0 None)
         (Ok (Samples.ramp Samples.new_year 3)) = Ok run
    /\ (slope run == 60)%Q /\ (intercept run == 0)%Q.
Proof.
  eexists. split; [vm_compute; reflexivity|].
  apply (trend_of_a_line
           (Samples.trend_args "ops" Samples.one_minute 0 None)
           (Ok (Samples.ramp Samples.new_year 3)) _ 60 0
           Samples.new_year
           [Samples.new_year + 60000000000; Samples.new_year + 120000000000]).
  - vm_compute. reflexivity.
  - vm_compute. reflexivity.
  - intros r Hin. vm_compute in Hin.
    destruct Hin as [<-|[<-|[<-|[]]]];
      (eexists; split; [reflexivity | vm_compute; reflexivity]).
Defined.

End FitOnSamples.
